(** * yuncha: leave-request tracker (src/app.py)

    A shallow embedding of the domain logic of [app.py]: the policy
    helper [get_policy], the accrual function
    [calculate_annual_leave_days], the ledger [api_my_summary] and the
    request handlers [api_create_request], [api_cancel_request],
    [api_admin_approve] and [api_admin_reject].

    The database is a record of tables, each table the list of its rows
    in rowid order.  A handler runs in a state-and-exception monad whose
    state is the SQLAlchemy session: the rows as the session sees them
    and the snapshots it has committed so far.

    The file has three parts: the embedding of the code, the vocabulary
    in which the properties are stated, and the properties, in the order
    accrual, policy store, request lifecycle, ledger. *)

From Stdlib Require Import ZArith Lia Bool List Ascii String Sorted.
From Stdlib Require Import Floats.SpecFloat.
From stdpp Require Import base option list strings gmap sorting.

Local Open Scope string_scope.
Local Open Scope list_scope.
Local Open Scope Z_scope.

(** ** Python values used by the handlers *)

Inductive exn : Type :=
  | AttributeError
  | ValueError
  | ZeroDivisionError
  | OverflowError
  | IntegrityError.

Inductive outcome (A : Type) : Type :=
  | Returned (a : A)
  | Raised (e : exn).
Arguments Returned {A} a.
Arguments Raised {A} e.

(** *** [int(s)] on a string

    A [str] is held as its UTF-8 bytes, as the literals of this file
    are; [int()] works on its code points.  Base-10 [int()]: surrounding
    whitespace is stripped, one sign is allowed, the digits may be
    separated by single underscores, and more than 4300 digits are
    refused.  Besides the ASCII digits and spaces, the decimal digits
    and the spaces of Unicode are read (Unicode 14.0, the tables of
    Python 3.11). *)

Definition byte (c : ascii) : Z := Z.of_N (N_of_ascii c).

(** The code points of UTF-8 bytes.  [need] continuation bytes are
    still to come for the code point begun with [acc], which must reach
    [low]; [-1] stands for an ill-formed sequence, which no [str]
    has. *)
Fixpoint utf8 (need : nat) (acc low : Z) (s : string) : list Z :=
  match s with
  | EmptyString => match need with O => [] | S _ => [-1] end
  | String c s' =>
      let b := byte c in
      match need with
      | O =>
          if b <? 128 then b :: utf8 0 0 0 s'
          else if (194 <=? b) && (b <? 224) then utf8 1 (b - 192) 128 s'
          else if (224 <=? b) && (b <? 240) then utf8 2 (b - 224) 2048 s'
          else if (240 <=? b) && (b <? 245) then utf8 3 (b - 240) 65536 s'
          else -1 :: utf8 0 0 0 s'
      | S n =>
          if (128 <=? b) && (b <? 192) then
            let acc' := acc * 64 + (b - 128) in
            match n with
            | O =>
                (if (low <=? acc') && (acc' <=? 1114111)
                    && negb ((55296 <=? acc') && (acc' <=? 57343))
                 then acc' else -1) :: utf8 0 0 0 s'
            | S _ => utf8 n acc' low s'
            end
          else -1 :: utf8 0 0 0 s'
      end
  end.

Definition code_points (s : string) : list Z := utf8 0 0 0 s.

(** [Py_UNICODE_ISSPACE] above ASCII: NEL, the no-break space and the
    spaces and separators from U+1680 to U+3000. *)
Definition unicode_spaces : list Z :=
  [133; 160; 5760; 8192; 8193; 8194; 8195; 8196; 8197; 8198; 8199; 8200; 8201;
   8202; 8232; 8233; 8239; 8287; 12288].

Definition is_space (n : Z) : bool :=
  ((9 <=? n) && (n <=? 13)) || (n =? 32) || existsb (Z.eqb n) unicode_spaces.

(** The code points of the digit zero of every script with decimal
    digits (general category Nd); the digits one to nine follow each. *)
Definition decimal_zeros : list Z :=
  [48; 1632; 1776; 1984; 2406; 2534; 2662; 2790; 2918; 3046; 3174; 3302;
   3430; 3558; 3664; 3792; 3872; 4160; 4240; 6112; 6160; 6470; 6608; 6784;
   6800; 6992; 7088; 7232; 7248; 42528; 43216; 43264; 43472; 43504; 43600;
   44016; 65296; 66720; 68912; 69734; 69872; 69942; 70096; 70384; 70736;
   70864; 71248; 71360; 71472; 71904; 72016; 72784; 73040; 73120; 92768;
   92864; 93008; 120782; 120792; 120802; 120812; 120822; 123200; 123632;
   125264; 130032].

(** [Py_UNICODE_TODECIMAL]. *)
Definition digit_of (n : Z) : option Z :=
  match List.find (fun z => (z <=? n) && (n <=? z + 9)) decimal_zeros with
  | Some z => Some (n - z)
  | None => None
  end.

Fixpoint lstrip (s : list Z) : list Z :=
  match s with
  | c :: s' => if is_space c then lstrip s' else s
  | [] => []
  end.

Fixpoint all_space (s : list Z) : bool :=
  match s with
  | c :: s' => is_space c && all_space s'
  | [] => true
  end.

(** [digits acc n prev s]: [acc] is the value read so far, [n] the number
    of digits read, [prev] tells whether the previous character was a
    digit (an underscore, code point 95, is only allowed after one). *)
Fixpoint digits (acc : Z) (n : nat) (prev : bool) (s : list Z) : option (Z * nat) :=
  match s with
  | [] => if prev then Some (acc, n) else None
  | c :: s' =>
      match digit_of c with
      | Some d => digits (10 * acc + d) (S n) true s'
      | None =>
          if prev && (c =? 95) then digits acc n false s'
          else if prev && all_space s then Some (acc, n)
          else None
      end
  end.

Definition int_max_str_digits : nat := 4300.

Definition unsigned_int (s : list Z) : option Z :=
  match digits 0 0 false s with
  | Some (v, n) => if (n <=? int_max_str_digits)%nat then Some v else None
  | None => None
  end.

(** The signs are the ASCII minus (45) and plus (43). *)
Definition py_int (s : string) : option Z :=
  match lstrip (code_points s) with
  | 45 :: s' => Z.opp <$> unsigned_int s'
  | 43 :: s' => unsigned_int s'
  | s' => unsigned_int s'
  end.

Definition int_of_str (s : string) : outcome Z :=
  match py_int s with
  | Some z => Returned z
  | None => Raised ValueError
  end.

(** [a or b] on strings: the empty string is the only falsy one. *)
Definition str_or (a b : string) : string :=
  if String.eqb a "" then b else a.

(** *** Floats

    A Python float is an IEEE binary64 number, given here by its sign,
    mantissa and exponent ([spec_float]), with the rounding functions of
    the standard library's specification of binary64. *)

Definition prec : Z := 53.
Definition emax : Z := 1024.

Definition float := spec_float.

Definition is_inf (x : float) : bool :=
  match x with S754_infinity _ => true | _ => false end.

(** The double nearest to [n / d] for positive [n] and [d], ties to
    even, with sign [s]. *)
Definition nearest_quotient (s : bool) (n d : positive) : float :=
  let '(q, e, l) := SFdiv_core_binary prec emax (Zpos n) 0 (Zpos d) 0 in
  binary_round_aux prec emax s q e l.

(** [a / b] on two ints: the correctly rounded quotient. *)
Definition truediv (a b : Z) : outcome float :=
  match b, a with
  | Z0, _ => Raised ZeroDivisionError
  | _, Z0 => Returned (S754_zero (b <? 0))
  | _, _ =>
      let x := nearest_quotient (xorb (a <? 0) (b <? 0)) (Z.to_pos (Z.abs a)) (Z.to_pos (Z.abs b)) in
      if is_inf x then Raised OverflowError else Returned x
  end.

(** [float(n)] as done for the int operand of [int - float]. *)
Definition float_of_int (n : Z) : outcome float :=
  let x := binary_normalize prec emax n 0 false in
  if is_inf x then Raised OverflowError else Returned x.

(** [n - x] with [n] an int and [x] a float. *)
Definition int_sub_float (n : Z) (x : float) : outcome float :=
  match float_of_int n with
  | Returned y => Returned (SFsub prec emax y x)
  | Raised e => Raised e
  end.

(** The integer nearest to [m * 2^e * 10^nd], ties to even. *)
Definition scaled_nearest (m : positive) (e : Z) (nd : Z) : Z :=
  let num := Zpos m * 10 ^ nd in
  match e with
  | Zneg p =>
      let den := 2 ^ Zpos p in
      let q := num / den in
      let r := num mod den in
      match 2 * r ?= den with
      | Lt => q
      | Gt => q + 1
      | Eq => if Z.even q then q else q + 1
      end
  | _ => num * 2 ^ e
  end.

(** [round(x, 2)]: the decimal with two places nearest to the exact
    value of [x] (ties to even), read back as the nearest double. *)
Definition round2 (x : float) : outcome float :=
  match x with
  | S754_finite s m e =>
      match scaled_nearest m e 2 with
      | Zpos n =>
          let y := nearest_quotient s n 100 in
          if is_inf y then Raised OverflowError else Returned y
      | _ => Returned (S754_zero s)
      end
  | _ => Returned x
  end.

(** A float written as a decimal with two places, [h / 100]. *)
Definition of_hundredths (h : Z) : float :=
  match h with
  | Z0 => S754_zero false
  | Zpos n => nearest_quotient false n 100
  | Zneg n => nearest_quotient true n 100
  end.

(** *** Dates *)

Record date : Type := Date { d_year : Z; d_month : Z; d_day : Z }.

Record datetime : Type := Datetime {
  dt_year : Z; dt_month : Z; dt_day : Z;
  dt_hour : Z; dt_minute : Z; dt_second : Z; dt_microsecond : Z }.

Definition MINYEAR : Z := 1.
Definition MAXYEAR : Z := 9999.

(** The arguments of [date] and [datetime] are read as C ints. *)
Definition in_c_int (y : Z) : bool := (- 2 ^ 31 <=? y) && (y <? 2 ^ 31).

(** [date(year, 12, 31)] and [datetime(year, ...)] raise outside
    [MINYEAR..MAXYEAR]: [OverflowError] for a year that is no C int,
    [ValueError] otherwise.  The month and day passed by the code are
    valid. *)
Definition make_date (y m d : Z) : outcome date :=
  if (MINYEAR <=? y) && (y <=? MAXYEAR) then Returned (Date y m d)
  else if in_c_int y then Raised ValueError
  else Raised OverflowError.

Definition make_datetime (y mo d h mi s : Z) : outcome datetime :=
  if (MINYEAR <=? y) && (y <=? MAXYEAR) then Returned (Datetime y mo d h mi s 0)
  else if in_c_int y then Raised ValueError
  else Raised OverflowError.

Definition dt_fields (t : datetime) : list Z :=
  [dt_year t; dt_month t; dt_day t; dt_hour t; dt_minute t; dt_second t; dt_microsecond t].

Fixpoint lex_compare (a b : list Z) : comparison :=
  match a, b with
  | x :: a', y :: b' =>
      match x ?= y with
      | Eq => lex_compare a' b'
      | c => c
      end
  | [], [] => Eq
  | [], _ => Lt
  | _, [] => Gt
  end.

Definition dt_leb (a b : datetime) : bool :=
  match lex_compare (dt_fields a) (dt_fields b) with
  | Gt => false
  | _ => true
  end.

(** ** Accrual *)

(** [calculate_annual_leave_days(join_date, as_of)]; [today] stands for
    [date.today()], used when [as_of] is [None]. *)
Definition calculate_annual_leave_days (today : date) (join_date : date) (as_of : option date) : Z :=
  let as_of := match as_of with Some d => d | None => today end in
  let months := (d_year as_of - d_year join_date) * 12 + (d_month as_of - d_month join_date) in
  let years := months / 12 in
  if years =? 0 then Z.min months 11
  else
    let base := 15 in
    let additional := (years - 1) / 2 in
    Z.min (base + additional) 25.

(** ** Data model *)

Inductive Role : Type := EMPLOYEE | ADMIN.
Inductive Status : Type := PENDING | APPROVED | REJECTED | CANCELLED.
Inductive Action : Type := CREATE | APPROVE | REJECT | CANCEL.

#[global] Instance Role_eq_dec : EqDecision Role.
Proof. solve_decision. Defined.
#[global] Instance Status_eq_dec : EqDecision Status.
Proof. solve_decision. Defined.
#[global] Instance Action_eq_dec : EqDecision Action.
Proof. solve_decision. Defined.

Record Employee : Type := {
  emp_id : Z;
  name : string;
  department : string;
  position : string;
  join_date : date;
  is_active : bool }.

Record LeaveType : Type := {
  lt_id : Z;
  code : string;
  name_ko : string;
  color_hex : string;
  default_unit : string;
  is_enabled : bool }.

Record LeavePolicy : Type := {
  pol_id : Z;
  key : string;
  value : string }.

Record LeaveRequest : Type := {
  req_id : Z;
  employee_id : Z;
  leave_type_id : Z;
  start_dt : datetime;
  end_dt : datetime;
  requested_minutes : Z;
  reason : option string;
  status : Status;
  created_at : datetime }.

Record ApprovalLog : Type := {
  log_id : Z;
  leave_request_id : Z;
  acted_by : Role;
  action : Action;
  comment : option string;
  log_created_at : datetime }.

Record Db : Type := {
  employees : list Employee;
  leave_types : list LeaveType;
  policies : list LeavePolicy;
  requests : list LeaveRequest;
  logs : list ApprovalLog }.

Definition set_status (s : Status) (r : LeaveRequest) : LeaveRequest :=
  {| req_id := req_id r; employee_id := employee_id r;
     leave_type_id := leave_type_id r; start_dt := start_dt r;
     end_dt := end_dt r; requested_minutes := requested_minutes r;
     reason := reason r; status := s; created_at := created_at r |}.

(** The id a new row gets: one more than the largest in the table. *)
Definition next_id (ids : list Z) : Z := 1 + foldr Z.max 0 ids.

(** The row that [Model.query.get(id)] loads: the one with the primary
    key [id], if there is one.  For the id of a stored row (the
    [employee_id] of a session, the [leave_type_id] of a request) the
    call is this lookup; for an id that the client sends it is
    [query_get] below. *)
Definition Employee_get (db : Db) (i : option Z) : option Employee :=
  match i with
  | Some i => List.find (fun e => emp_id e =? i) (employees db)
  | None => None
  end.

Definition LeaveType_get (db : Db) (i : Z) : option LeaveType :=
  List.find (fun t => lt_id t =? i) (leave_types db).

Definition LeaveRequest_get (db : Db) (i : Z) : option LeaveRequest :=
  List.find (fun r => req_id r =? i) (requests db).

(** [LeavePolicy.query.filter_by(key=key).first()]. *)
Definition LeavePolicy_first (db : Db) (k : string) : option LeavePolicy :=
  List.find (fun p => String.eqb (key p) k) (policies db).

(** ** The session monad *)

Record Tx : Type := {
  view : Db;            (* the rows as the session sees them *)
  commits : list Db }.  (* the snapshots committed so far, oldest first *)

Definition M (A : Type) : Type := Tx -> outcome A * Tx.

Definition ret {A} (a : A) : M A := fun tx => (Returned a, tx).

Definition bind {A B} (m : M A) (k : A -> M B) : M B :=
  fun tx =>
    match m tx with
    | (Returned a, tx') => k a tx'
    | (Raised e, tx') => (Raised e, tx')
    end.

Definition raise {A} (e : exn) : M A := fun tx => (Raised e, tx).

Definition lift {A} (o : outcome A) : M A := fun tx => (o, tx).

Definition query {A} (q : Db -> A) : M A := fun tx => (Returned (q (view tx)), tx).

Definition update (f : Db -> Db) : M unit :=
  fun tx => (Returned tt, {| view := f (view tx); commits := commits tx |}).

(** [db.session.commit()]: what the session holds becomes a snapshot. *)
Definition commit : M unit :=
  fun tx => (Returned tt, {| view := view tx; commits := commits tx ++ [view tx] |}).

Declare Scope session_scope.
Delimit Scope session_scope with session.
Notation "x <- c ;; k" := (bind c (fun x => k))
  (at level 100, c at next level, right associativity) : session_scope.
Notation "c ;;; k" := (bind c (fun _ => k))
  (at level 100, right associativity) : session_scope.
Local Open Scope session_scope.

(** A handler runs in a fresh session on the stored rows [d]; it gives
    its outcome and the snapshots it committed.  What is stored
    afterwards is the last of them, or [d] when there is none. *)
Definition run {A} (h : M A) (d : Db) : outcome A * list Db :=
  let '(o, tx) := h {| view := d; commits := [] |} in (o, commits tx).

Definition stored_after {A} (h : M A) (d : Db) : Db :=
  List.last (snd (run h d)) d.

(** *** SQLite integers

    An INTEGER of SQLite holds 64 bits.  The driver raises
    [OverflowError] when it is to bind a Python int outside this range,
    be it the argument of a query or a column of a row to insert. *)
Definition in_int64 (i : Z) : bool := (- 2 ^ 63 <=? i) && (i <? 2 ^ 63).

Definition bind_int (i : Z) : outcome unit :=
  if in_int64 i then Returned tt else Raised OverflowError.

(** [Model.query.get(i)] for an id that the client sends.  SQLite gives
    every row a 64-bit id, so an id outside the range is the id of no
    row, and for such an id the driver raises before it looks for the
    row.  [Db] does not bound the ids of its rows; the table is read
    first here, which is the same on every table SQLite can hold. *)
Definition query_get {A} (get : Db -> Z -> option A) (i : Z) : M (option A) :=
  r <- query (fun db => get db i) ;;
  match r with
  | Some r => ret (Some r)
  | None => lift (bind_int i) ;;; ret None
  end.

(** [db.session.add(...)] of a new row; the row id is returned. *)
Definition add_policy (k v : string) : M Z :=
  db <- query (fun db => db) ;;
  let i := next_id (map pol_id (policies db)) in
  update (fun db =>
    {| employees := employees db; leave_types := leave_types db;
       policies := policies db ++ [{| pol_id := i; key := k; value := v |}];
       requests := requests db; logs := logs db |}) ;;;
  ret i.

Definition add_request (e lt : Z) (s e' : datetime) (m : Z) (why : option string)
    (st : Status) (now : datetime) : M Z :=
  db <- query (fun db => db) ;;
  let i := next_id (map req_id (requests db)) in
  update (fun db =>
    {| employees := employees db; leave_types := leave_types db;
       policies := policies db;
       requests := requests db ++
         [{| req_id := i; employee_id := e; leave_type_id := lt; start_dt := s;
             end_dt := e'; requested_minutes := m; reason := why; status := st;
             created_at := now |}];
       logs := logs db |}) ;;;
  ret i.

Definition add_log (r : Z) (by_ : Role) (a : Action) (c : option string)
    (now : datetime) : M Z :=
  db <- query (fun db => db) ;;
  let i := next_id (map log_id (logs db)) in
  update (fun db =>
    {| employees := employees db; leave_types := leave_types db;
       policies := policies db; requests := requests db;
       logs := logs db ++
         [{| log_id := i; leave_request_id := r; acted_by := by_; action := a;
             comment := c; log_created_at := now |}] |}) ;;;
  ret i.

(** [r.status = s] on the row loaded with id [i]. *)
Definition write_status (i : Z) (s : Status) : M unit :=
  update (fun db =>
    {| employees := employees db; leave_types := leave_types db;
       policies := policies db;
       requests := map (fun r => if req_id r =? i then set_status s r else r) (requests db);
       logs := logs db |}).

(** ** Policy helpers *)

Definition DEFAULTS : gmap string string :=
  <["workday_minutes" := "480"]>
  (<["sick_default_days" := "10"]>
  (<["admin_pin" := "1234"]> ∅)).

Definition get_policy (k : string) : M string :=
  p <- query (fun db => LeavePolicy_first db k) ;;
  match p with
  | Some p => ret (value p)
  | None =>
      let v := default "" (DEFAULTS !! k) in
      add_policy k v ;;;
      commit ;;;
      ret v
  end.

(** ** Auth *)

(** The session cookie is signed, so what it holds was written by
    [login]: the [employee_id] of a session is the id of an employee
    row. *)
Record Session : Type := {
  session_role : option Role;
  session_employee_id : option Z }.

(** What a request carries besides its arguments: the session, and the
    clock readings [datetime.utcnow()] and [date.today()]. *)
Record Ctx : Type := {
  session : Session;
  utcnow : datetime;
  today : date }.

Definition current_role (c : Ctx) : option Role := session_role (session c).
Definition current_employee_id (c : Ctx) : option Z := session_employee_id (session c).

(** [not x] for an id that may be missing: [None] and [0] are falsy. *)
Definition falsy_id (i : option Z) : bool :=
  match i with
  | Some i => i =? 0
  | None => true
  end.

Definition require_employee (c : Ctx) : bool :=
  if negb (bool_decide (current_role c = Some EMPLOYEE)) || falsy_id (current_employee_id c)
  then false else true.

Definition require_admin (c : Ctx) : bool :=
  bool_decide (current_role c = Some ADMIN).

(** ** Responses *)

Inductive response (A : Type) : Type :=
  | Json (body : A)                  (* status 200 *)
  | Err (http : Z) (error : string). (* {'error': ...}, status *)
Arguments Json {A} body.
Arguments Err {A} http error.

(** ** API (employee) *)

Record Summary : Type := {
  sum_year : Z;
  sum_workday_minutes : Z;
  annual_granted_days : Z;
  annual_used_days : float;
  annual_remaining_days : float;
  sick_granted_days : Z;
  sick_used_days : float;
  sick_remaining_days : float;
  event_used_days : float;
  public_used_days : float;
  pending_count : nat;
  rejected_count : nat }.

(** The query of [api_my_summary]: the employee's APPROVED requests
    whose [start_dt] lies between [start] and [end], both included. *)
Definition approved_in (db : Db) (e : Z) (start end_ : datetime) : list LeaveRequest :=
  filter (fun r =>
            (employee_id r =? e) && bool_decide (status r = APPROVED)
            && dt_leb start (start_dt r) && dt_leb (start_dt r) end_ = true)
         (requests db).

Definition count_status (db : Db) (e : Z) (s : Status) : nat :=
  length (filter (fun r => (employee_id r =? e) && bool_decide (status r = s) = true)
                 (requests db)).

(** The loop over [approved]; [r.leave_type] is the row the request's
    [leave_type_id] refers to, and [None] has no [code]. *)
Fixpoint accumulate (db : Db) (used_by_code : gmap string Z) (approved : list LeaveRequest)
    : outcome (gmap string Z) :=
  match approved with
  | [] => Returned used_by_code
  | r :: rest =>
      match LeaveType_get db (leave_type_id r) with
      | None => Raised AttributeError
      | Some t =>
          accumulate db
            (<[code t := default 0 (used_by_code !! code t) + requested_minutes r]> used_by_code)
            rest
      end
  end.

Definition used_init : gmap string Z :=
  <["ANNUAL" := 0]> (<["SICK" := 0]> (<["EVENT" := 0]> (<["PUBLIC" := 0]> ∅))).

Definition obind {A B} (o : outcome A) (k : A -> outcome B) : outcome B :=
  match o with
  | Returned a => k a
  | Raised e => Raised e
  end.

(** [round(m / workday_minutes, 2)]. *)
Definition minutes_to_days (workday_minutes : Z) (m : Z) : outcome float :=
  obind (truediv m workday_minutes) round2.

(** [round(granted - used, 2)]. *)
Definition remaining (granted : Z) (used : float) : outcome float :=
  obind (int_sub_float granted used) round2.

Definition api_my_summary (c : Ctx) (year : option Z) : M (response Summary) :=
  if negb (require_employee c) then ret (Err 401 "unauthorized") else
  let year := match year with Some y => y | None => d_year (today c) end in
  emp <- query (fun db => Employee_get db (current_employee_id c)) ;;
  wm <- get_policy "workday_minutes" ;;
  workday_minutes <- lift (int_of_str (str_or wm "480")) ;;
  emp <- match emp with Some e => ret e | None => raise AttributeError end ;;
  as_of <- lift (make_date year 12 31) ;;
  let annual_granted_days := calculate_annual_leave_days (today c) (join_date emp) (Some as_of) in
  sd <- get_policy "sick_default_days" ;;
  sick_granted_days <- lift (int_of_str (str_or sd "10")) ;;
  start <- lift (make_datetime year 1 1 0 0 0) ;;
  end_ <- lift (make_datetime year 12 31 23 59 59) ;;
  approved <- query (fun db => approved_in db (emp_id emp) start end_) ;;
  db <- query (fun db => db) ;;
  used_by_code <- lift (accumulate db used_init approved) ;;
  annual_used_days <- lift (minutes_to_days workday_minutes (default 0 (used_by_code !! "ANNUAL"))) ;;
  sick_used_days <- lift (minutes_to_days workday_minutes (default 0 (used_by_code !! "SICK"))) ;;
  event_used_days <- lift (minutes_to_days workday_minutes (default 0 (used_by_code !! "EVENT"))) ;;
  public_used_days <- lift (minutes_to_days workday_minutes (default 0 (used_by_code !! "PUBLIC"))) ;;
  pending_count <- query (fun db => count_status db (emp_id emp) PENDING) ;;
  rejected_count <- query (fun db => count_status db (emp_id emp) REJECTED) ;;
  annual_remaining <- lift (remaining annual_granted_days annual_used_days) ;;
  sick_remaining <- lift (remaining sick_granted_days sick_used_days) ;;
  ret (Json {|
    sum_year := year;
    sum_workday_minutes := workday_minutes;
    annual_granted_days := annual_granted_days;
    annual_used_days := annual_used_days;
    annual_remaining_days := annual_remaining;
    sick_granted_days := sick_granted_days;
    sick_used_days := sick_used_days;
    sick_remaining_days := sick_remaining;
    event_used_days := event_used_days;
    public_used_days := public_used_days;
    pending_count := pending_count;
    rejected_count := rejected_count |}).

(** The body of a create request once its fields are read:
    [int(payload['leave_type_id'])], [datetime.fromisoformat(...)] and
    so on (lines 284-289, which raise on a malformed body). *)
Record Payload : Type := {
  pl_leave_type_id : Z;
  pl_start_dt : datetime;
  pl_end_dt : datetime;
  pl_requested_minutes : Z;
  pl_reason : option string }.

Inductive Success : Type :=
  | Done               (* {'success': True} *)
  | Created (id : Z).  (* {'success': True, 'id': id} *)

Definition api_create_request (c : Ctx) (payload : Payload) : M (response Success) :=
  if negb (require_employee c) then ret (Err 401 "unauthorized") else
  lt <- query_get LeaveType_get (pl_leave_type_id payload) ;;
  match lt with
  | None => ret (Err 400 "invalid leave type")
  | Some _ =>
      (* employee_id is NOT NULL; after require_employee the session has one *)
      e <- match current_employee_id c with
           | Some e => ret e
           | None => raise IntegrityError
           end ;;
      r <- add_request e (pl_leave_type_id payload) (pl_start_dt payload)
             (pl_end_dt payload) (pl_requested_minutes payload) (pl_reason payload)
             PENDING (utcnow c) ;;
      (* the INSERT binds requested_minutes, which the client sends *)
      lift (bind_int (pl_requested_minutes payload)) ;;;
      commit ;;;
      add_log r EMPLOYEE CREATE None (utcnow c) ;;;
      commit ;;;
      ret (Json (Created r))
  end.

Definition api_cancel_request (c : Ctx) (i : Z) : M (response Success) :=
  if negb (require_employee c) then ret (Err 401 "unauthorized") else
  r <- query_get LeaveRequest_get i ;;
  match r with
  | None => ret (Err 404 "not found")
  | Some r =>
      if negb (bool_decide (Some (employee_id r) = current_employee_id c))
      then ret (Err 404 "not found")
      else if negb (bool_decide (status r = PENDING) || bool_decide (status r = APPROVED))
      then ret (Err 400 "cannot cancel")
      else
        write_status (req_id r) CANCELLED ;;;
        add_log (req_id r) EMPLOYEE CANCEL None (utcnow c) ;;;
        commit ;;;
        ret (Json Done)
  end.

(** ** API (admin) *)

Definition api_admin_approve (c : Ctx) (i : Z) : M (response Success) :=
  if negb (require_admin c) then ret (Err 401 "unauthorized") else
  r <- query_get LeaveRequest_get i ;;
  match r with
  | None => ret (Err 404 "not found or not pending")
  | Some r =>
      if negb (bool_decide (status r = PENDING))
      then ret (Err 404 "not found or not pending")
      else
        write_status (req_id r) APPROVED ;;;
        add_log (req_id r) ADMIN APPROVE None (utcnow c) ;;;
        commit ;;;
        ret (Json Done)
  end.

(** [not comment]: a missing comment and the empty one are falsy. *)
Definition no_comment (comment : option string) : bool :=
  match comment with
  | Some s => String.eqb s ""
  | None => true
  end.

Definition api_admin_reject (c : Ctx) (i : Z) (comment : option string) : M (response Success) :=
  if negb (require_admin c) then ret (Err 401 "unauthorized") else
  if no_comment comment then ret (Err 400 "comment required") else
  r <- query_get LeaveRequest_get i ;;
  match r with
  | None => ret (Err 404 "not found or not pending")
  | Some r =>
      if negb (bool_decide (status r = PENDING))
      then ret (Err 404 "not found or not pending")
      else
        write_status (req_id r) REJECTED ;;;
        add_log (req_id r) ADMIN REJECT comment (utcnow c) ;;;
        commit ;;;
        ret (Json Done)
  end.

(** The four lifecycle operations under one type. *)
Inductive Op : Type :=
  | OpCreate (payload : Payload)
  | OpCancel (i : Z)
  | OpApprove (i : Z)
  | OpReject (i : Z) (comment : option string).

Definition handle (c : Ctx) (o : Op) : M (response Success) :=
  match o with
  | OpCreate payload => api_create_request c payload
  | OpCancel i => api_cancel_request c i
  | OpApprove i => api_admin_approve c i
  | OpReject i comment => api_admin_reject c i comment
  end.

(** ** Sample data

    One employee (the third of the seed), the ANNUAL leave type, and the
    requests of a small scenario. *)

Module Sample.
Definition now : datetime := Datetime 2025 6 1 9 0 0 0.

Definition park : Employee :=
  {| emp_id := 3; name := "Park"; department := "HR"; position := "Manager";
     join_date := Date 2021 7 1; is_active := true |}.

Definition annual : LeaveType :=
  {| lt_id := 1; code := "ANNUAL"; name_ko := "annual"; color_hex := "#4F46E5";
     default_unit := "day"; is_enabled := true |}.

Definition empty : Db :=
  {| employees := [park]; leave_types := [annual]; policies := [];
     requests := []; logs := [] |}.

Definition as_employee (e : Z) : Ctx :=
  {| session := {| session_role := Some EMPLOYEE; session_employee_id := Some e |};
     utcnow := now; today := Date 2025 6 1 |}.

Definition as_admin : Ctx :=
  {| session := {| session_role := Some ADMIN; session_employee_id := None |};
     utcnow := now; today := Date 2025 6 1 |}.

Definition one_day : Payload :=
  {| pl_leave_type_id := 1;
     pl_start_dt := Datetime 2025 6 10 9 0 0 0;
     pl_end_dt := Datetime 2025 6 10 18 0 0 0;
     pl_requested_minutes := 480; pl_reason := None |}.

(** The rows after employee 3 has created request 1. *)
Definition requested : Db := stored_after (api_create_request (as_employee 3) one_day) empty.

(** ... and after the administrator has approved it. *)
Definition approved : Db := stored_after (api_admin_approve as_admin 1) requested.

(** ... or rejected it. *)
Definition rejected : Db :=
  stored_after (api_admin_reject as_admin 1 (Some "no cover")) requested.

(** The rows [d] with the workday policy set to [v]. *)
Definition with_workday (v : string) (d : Db) : Db :=
  {| employees := employees d; leave_types := leave_types d;
     policies := [{| pol_id := 1; key := "workday_minutes"; value := v |}];
     requests := requests d; logs := logs d |}.

(** A leave that starts half a second before the end of 2025. *)
Definition new_year_eve : Payload :=
  {| pl_leave_type_id := 1;
     pl_start_dt := Datetime 2025 12 31 23 59 59 500000;
     pl_end_dt := Datetime 2026 1 1 23 59 59 0;
     pl_requested_minutes := 480; pl_reason := None |}.

Definition end_of_year : Db :=
  stored_after (api_admin_approve as_admin 1)
    (stored_after (api_create_request (as_employee 3) new_year_eve) empty).
End Sample.

(** * The rest of the application *)

(** ** Rows in query order *)

(** [query.order_by(...)] as a merge sort on the rows in rowid order:
    rows that compare equal stay in rowid order, which SQLite leaves
    open. *)
Definition order_by {A} (leb : A -> A -> bool) (rows : list A) : list A :=
  @merge_sort A (fun a b => leb a b = true) (fun a b => decide (leb a b = true)) rows.

(** [.limit(n)]. *)
Definition limit {A} (n : nat) (rows : list A) : list A := take n rows.

(** [order_by(Employee.department, Employee.name)]: strings compare
    byte by byte. *)
Definition by_department_name (a b : Employee) : bool :=
  match String.compare (department a) (department b) with
  | Lt => true
  | Eq => String.leb (name a) (name b)
  | Gt => false
  end.

(** [order_by(LeaveRequest.created_at.desc())]. *)
Definition newest_first (a b : LeaveRequest) : bool :=
  dt_leb (created_at b) (created_at a).

(** [order_by(LeaveType.id)]. *)
Definition by_id (a b : LeaveType) : bool := lt_id a <=? lt_id b.

(** A list comprehension whose body may raise. *)
Fixpoint traverse {A B} (f : A -> outcome B) (l : list A) : outcome (list B) :=
  match l with
  | [] => Returned []
  | x :: rest =>
      match f x with
      | Raised e => Raised e
      | Returned y =>
          match traverse f rest with
          | Raised e => Raised e
          | Returned ys => Returned (y :: ys)
          end
      end
  end.

(** The status column as the string it holds. *)
Definition status_name (s : Status) : string :=
  match s with
  | PENDING => "PENDING"
  | APPROVED => "APPROVED"
  | REJECTED => "REJECTED"
  | CANCELLED => "CANCELLED"
  end.

(** [if status: q = q.filter_by(status=status)]: no filter for a
    missing or empty argument. *)
Definition filter_status (status_arg : option string) (rows : list LeaveRequest)
    : list LeaveRequest :=
  match status_arg with
  | None => rows
  | Some s =>
      if String.eqb s "" then rows
      else filter (fun r => String.eqb (status_name (status r)) s = true) rows
  end.

(** ** Routes (pages) *)

Inductive Target : Type := to_login | to_my_home | to_admin_dashboard.

Inductive Template : Type :=
  | login_html
  | my_home_html
  | admin_dashboard_html
  | admin_inbox_html
  | admin_employees_html
  | admin_settings_html.

(** What a page route answers: a redirect, or a template with the
    variables it is given. *)
Inductive Reply : Type :=
  | Redirect (t : Target)
  | Render (page : Template)
  | RenderLoginError (error : string)
  | RenderLogin (employees : list Employee) (admin_pin_hint : string).

Definition root (c : Ctx) : Reply :=
  if bool_decide (current_role c = Some ADMIN) then Redirect to_admin_dashboard
  else if bool_decide (current_role c = Some EMPLOYEE) then Redirect to_my_home
  else Redirect to_login.

(** The form of a POST to [/login].  In employee mode the field
    [employee_id] is what [int] is applied to; a form without it is not
    modelled ([int(None)] raises before anything is read or written). *)
Inductive LoginForm : Type :=
  | mode_employee (employee_id : string)
  | mode_admin (admin_pin : option string)
  | mode_other.

Inductive Method : Type :=
  | GET
  | POST (form : LoginForm).

Definition employee_not_found : string := "직원을 찾을 수 없습니다.".
Definition wrong_admin_pin : string := "관리자 PIN이 올바르지 않습니다.".

Definition cleared : Session := {| session_role := None; session_employee_id := None |}.

(** The page of [/login]: the active employees and the PIN hint. *)
Definition login_page (s : Session) : M (Session * Reply) :=
  employees <- query (fun db =>
    order_by by_department_name (filter (fun e => is_active e = true) (employees db))) ;;
  hint <- get_policy "admin_pin" ;;
  ret (s, RenderLogin employees hint).

(** [login]: the session after the request, and the answer. *)
Definition login (s : Session) (m : Method) : M (Session * Reply) :=
  match m with
  | POST (mode_employee employee_id) =>
      i <- lift (int_of_str employee_id) ;;
      emp <- query_get (fun db i => Employee_get db (Some i)) i ;;
      match emp with
      | None => ret (s, RenderLoginError employee_not_found)
      | Some emp =>
          if negb (is_active emp) then ret (s, RenderLoginError employee_not_found)
          else ret ({| session_role := Some EMPLOYEE;
                       session_employee_id := Some (emp_id emp) |},
                    Redirect to_my_home)
      end
  | POST (mode_admin admin_pin) =>
      let pin := default "" admin_pin in
      stored <- get_policy "admin_pin" ;;
      if String.eqb pin stored
      then ret ({| session_role := Some ADMIN; session_employee_id := None |},
                Redirect to_admin_dashboard)
      else ret (s, RenderLoginError wrong_admin_pin)
  | POST mode_other => login_page s
  | GET => login_page s
  end.

Definition logout (s : Session) : Session * Reply := (cleared, Redirect to_login).

Definition my_home (c : Ctx) : Reply :=
  if negb (require_employee c) then Redirect to_login else Render my_home_html.

Definition admin_page (page : Template) (c : Ctx) : Reply :=
  if negb (require_admin c) then Redirect to_login else Render page.

Definition admin_dashboard : Ctx -> Reply := admin_page admin_dashboard_html.
Definition admin_inbox : Ctx -> Reply := admin_page admin_inbox_html.
Definition admin_employees : Ctx -> Reply := admin_page admin_employees_html.
Definition admin_settings : Ctx -> Reply := admin_page admin_settings_html.

(** ** API (employee), the read-only part *)

(** The fields of an employee that [api_me] and [api_admin_employees]
    give. *)
Record EmployeeInfo : Type := {
  info_id : Z;
  info_name : string;
  info_department : string;
  info_position : string;
  info_join_date : date;
  info_is_active : option bool }.  (* only in the administrator's list *)

Record Me : Type := {
  me_role : option Role;
  me_employee : option EmployeeInfo }.

Definition api_me (c : Ctx) : M Me :=
  let role := current_role c in
  if bool_decide (role = Some EMPLOYEE) then
    emp <- query (fun db => Employee_get db (current_employee_id c)) ;;
    match emp with
    | None => raise AttributeError
    | Some emp =>
        ret {| me_role := role;
               me_employee := Some {| info_id := emp_id emp; info_name := name emp;
                                      info_department := department emp;
                                      info_position := position emp;
                                      info_join_date := join_date emp;
                                      info_is_active := None |} |}
    end
  else if bool_decide (role = Some ADMIN) then ret {| me_role := role; me_employee := None |}
  else ret {| me_role := None; me_employee := None |}.

Record LeaveTypeInfo : Type := {
  lti_id : Z;
  lti_code : string;
  lti_name_ko : string;
  lti_color_hex : string;
  lti_default_unit : string }.

Definition leave_type_info (t : LeaveType) : LeaveTypeInfo :=
  {| lti_id := lt_id t; lti_code := code t; lti_name_ko := name_ko t;
     lti_color_hex := color_hex t; lti_default_unit := default_unit t |}.

Definition api_leave_types (c : Ctx) : M (response (list LeaveTypeInfo)) :=
  if negb (bool_decide (current_role c = Some EMPLOYEE)
           || bool_decide (current_role c = Some ADMIN))
  then ret (Err 401 "unauthorized")
  else
    types <- query (fun db =>
      order_by by_id (filter (fun t => is_enabled t = true) (leave_types db))) ;;
    ret (Json (map leave_type_info types)).

(** One request as the two lists give it; the administrator's list adds
    the employee. *)
Record RequestRow : Type := {
  row_id : Z;
  row_employee : option (string * string * string);  (* name, department, position *)
  row_type_code : string;
  row_type_name : string;
  row_color : string;
  row_start_dt : datetime;
  row_end_dt : datetime;
  row_requested_minutes : Z;
  row_reason : option string;
  row_status : Status;
  row_created_at : datetime }.

Definition my_row (db : Db) (r : LeaveRequest) : outcome RequestRow :=
  match LeaveType_get db (leave_type_id r) with
  | None => Raised AttributeError
  | Some t =>
      Returned {| row_id := req_id r; row_employee := None;
                  row_type_code := code t; row_type_name := name_ko t;
                  row_color := color_hex t; row_start_dt := start_dt r;
                  row_end_dt := end_dt r; row_requested_minutes := requested_minutes r;
                  row_reason := reason r; row_status := status r;
                  row_created_at := created_at r |}
  end.

Definition api_my_requests (c : Ctx) (status_arg : option string)
    : M (response (list RequestRow)) :=
  if negb (require_employee c) then ret (Err 401 "unauthorized") else
  let emp_id := current_employee_id c in
  rows <- query (fun db =>
    limit 200 (order_by newest_first
      (filter_status status_arg
        (filter (fun r => Some (employee_id r) = emp_id) (requests db))))) ;;
  db <- query (fun db => db) ;;
  body <- lift (traverse (my_row db) rows) ;;
  ret (Json body).

(** ** API (admin), the rest *)

Definition dt_ltb (a b : datetime) : bool := negb (dt_leb b a).

Definition is_leap (y : Z) : bool :=
  (y mod 4 =? 0) && (negb (y mod 100 =? 0) || (y mod 400 =? 0)).

Definition days_in_month (y m : Z) : Z :=
  if m =? 2 then (if is_leap y then 29 else 28)
  else if (m =? 4) || (m =? 6) || (m =? 9) || (m =? 11) then 30
  else 31.

(** [datetime(y, m, d) + timedelta(days=1)], for a date of the
    calendar. *)
Definition next_midnight (t : date) : outcome datetime :=
  if d_day t <? days_in_month (d_year t) (d_month t)
  then Returned (Datetime (d_year t) (d_month t) (d_day t + 1) 0 0 0 0)
  else if d_month t <? 12
  then Returned (Datetime (d_year t) (d_month t + 1) 1 0 0 0 0)
  else if d_year t <? MAXYEAR
  then Returned (Datetime (d_year t + 1) 1 1 0 0 0 0)
  else Raised OverflowError.

Record Dashboard : Type := {
  today_approved_count : nat;
  dash_pending_count : nat;
  employee_count : nat;
  dash_admin_pin_hint : string }.

Definition api_admin_dashboard (c : Ctx) : M (response Dashboard) :=
  if negb (require_admin c) then ret (Err 401 "unauthorized") else
  let today := today c in
  let start := Datetime (d_year today) (d_month today) (d_day today) 0 0 0 0 in
  end_ <- lift (next_midnight today) ;;
  today_approved <- query (fun db =>
    length (filter (fun r => bool_decide (status r = APPROVED)
                             && dt_ltb (start_dt r) end_
                             && dt_leb start (end_dt r) = true)
                   (requests db))) ;;
  pending <- query (fun db =>
    length (filter (fun r => status r = PENDING) (requests db))) ;;
  employee_count <- query (fun db =>
    length (filter (fun e => is_active e = true) (employees db))) ;;
  hint <- get_policy "admin_pin" ;;
  ret (Json {| today_approved_count := today_approved;
               dash_pending_count := pending;
               employee_count := employee_count;
               dash_admin_pin_hint := hint |}).

Definition inbox_row (db : Db) (r : LeaveRequest) : outcome RequestRow :=
  match Employee_get db (Some (employee_id r)) with
  | None => Raised AttributeError
  | Some e =>
      match my_row db r with
      | Raised x => Raised x
      | Returned row =>
          Returned {| row_id := row_id row;
                      row_employee := Some (name e, department e, position e);
                      row_type_code := row_type_code row;
                      row_type_name := row_type_name row;
                      row_color := row_color row; row_start_dt := row_start_dt row;
                      row_end_dt := row_end_dt row;
                      row_requested_minutes := row_requested_minutes row;
                      row_reason := row_reason row; row_status := row_status row;
                      row_created_at := row_created_at row |}
      end
  end.

(** [status_arg] is the query argument as sent; ['PENDING'] stands for a
    missing one. *)
Definition api_admin_inbox (c : Ctx) (status_arg : option string)
    : M (response (list RequestRow)) :=
  if negb (require_admin c) then ret (Err 401 "unauthorized") else
  let status := Some (default "PENDING" status_arg) in
  rows <- query (fun db =>
    limit 300 (order_by newest_first (filter_status status (requests db)))) ;;
  db <- query (fun db => db) ;;
  body <- lift (traverse (inbox_row db) rows) ;;
  ret (Json body).

Definition employee_info (e : Employee) : EmployeeInfo :=
  {| info_id := emp_id e; info_name := name e; info_department := department e;
     info_position := position e; info_join_date := join_date e;
     info_is_active := Some (is_active e) |}.

Definition api_admin_employees (c : Ctx) : M (response (list EmployeeInfo)) :=
  if negb (require_admin c) then ret (Err 401 "unauthorized") else
  rows <- query (fun db => order_by by_department_name (employees db)) ;;
  ret (Json (map employee_info rows)).

(** The body of an add-employee request once its fields are read
    ([date.fromisoformat] raises on a malformed date). *)
Record NewEmployee : Type := {
  ne_name : string;
  ne_department : string;
  ne_position : string;
  ne_join_date : date }.

Definition add_employee (n dep pos : string) (joined : date) (active : bool) : M Z :=
  db <- query (fun db => db) ;;
  let i := next_id (map emp_id (employees db)) in
  update (fun db =>
    {| employees := employees db ++
         [{| emp_id := i; name := n; department := dep; position := pos;
             join_date := joined; is_active := active |}];
       leave_types := leave_types db; policies := policies db;
       requests := requests db; logs := logs db |}) ;;;
  ret i.

Definition api_admin_add_employee (c : Ctx) (p : NewEmployee) : M (response Success) :=
  if negb (require_admin c) then ret (Err 401 "unauthorized") else
  e <- add_employee (ne_name p) (ne_department p) (ne_position p) (ne_join_date p) true ;;
  commit ;;;
  ret (Json (Created e)).

(** [row.value = v] on the policy row loaded with id [i]. *)
Definition write_value (i : Z) (v : string) : M unit :=
  update (fun db =>
    {| employees := employees db; leave_types := leave_types db;
       policies := map (fun p => if pol_id p =? i
                                 then {| pol_id := pol_id p; key := key p; value := v |}
                                 else p) (policies db);
       requests := requests db; logs := logs db |}).

Definition policy_keys : list string :=
  ["workday_minutes"; "sick_default_days"; "admin_pin"].

Inductive PoliciesBody : Type :=
  | Policies (values : list (string * string))  (* the three keys, in order *)
  | Updated.                                     (* {'success': True} *)

(** A [for] loop over a list. *)
Fixpoint for_each {A} (f : A -> M unit) (l : list A) : M unit :=
  match l with
  | [] => ret tt
  | x :: rest => f x ;;; for_each f rest
  end.

Section Policies.
(** The values of the JSON body, and [str] on them. *)
Context {V : Type} (str : V -> string).

Inductive PoliciesRequest : Type :=
  | GET_policies
  | PUT_policies (p : gmap string V).

Definition set_policy (p : gmap string V) (k : string) : M unit :=
  match p !! k with
  | None => ret tt
  | Some v =>
      row <- query (fun db => LeavePolicy_first db k) ;;
      match row with
      | None => add_policy k (str v) ;;; ret tt
      | Some row => write_value (pol_id row) (str v)
      end
  end.

Fixpoint get_each (keys : list string) : M (list (string * string)) :=
  match keys with
  | [] => ret []
  | k :: rest =>
      v <- get_policy k ;;
      vs <- get_each rest ;;
      ret ((k, v) :: vs)
  end.

Definition api_admin_policies (c : Ctx) (r : PoliciesRequest) : M (response PoliciesBody) :=
  if negb (require_admin c) then ret (Err 401 "unauthorized") else
  match r with
  | GET_policies =>
      values <- get_each policy_keys ;;
      ret (Json (Policies values))
  | PUT_policies p =>
      for_each (set_policy p) policy_keys ;;;
      commit ;;;
      ret (Json Updated)
  end.
End Policies.

(** ** Init data *)

(** [DEFAULTS.items()], in the order of the dict literal. *)
Definition DEFAULTS_items : list (string * string) :=
  [("workday_minutes", "480"); ("sick_default_days", "10"); ("admin_pin", "1234")].

Definition add_leave_type (cd nm color unit_ : string) (enabled : bool) : M Z :=
  db <- query (fun db => db) ;;
  let i := next_id (map lt_id (leave_types db)) in
  update (fun db =>
    {| employees := employees db;
       leave_types := leave_types db ++
         [{| lt_id := i; code := cd; name_ko := nm; color_hex := color;
             default_unit := unit_; is_enabled := enabled |}];
       policies := policies db; requests := requests db; logs := logs db |}) ;;;
  ret i.

Definition seed_policy (kv : string * string) : M unit :=
  row <- query (fun db => LeavePolicy_first db (fst kv)) ;;
  match row with
  | Some _ => ret tt
  | None => add_policy (fst kv) (snd kv) ;;; ret tt
  end.

Definition seed_defaults : M unit :=
  for_each seed_policy DEFAULTS_items ;;;
  commit ;;;
  n_types <- query (fun db => length (leave_types db)) ;;
  (if (n_types =? 0)%nat then
     add_leave_type "ANNUAL" "연차" "#4F46E5" "day" true ;;;
     add_leave_type "SICK" "병가" "#059669" "day" true ;;;
     add_leave_type "EVENT" "경조" "#7C3AED" "day" true ;;;
     add_leave_type "PUBLIC" "공가" "#F59E0B" "day" true ;;;
     commit
   else ret tt) ;;;
  n_employees <- query (fun db => length (employees db)) ;;
  (if (n_employees =? 0)%nat then
     add_employee "김민수" "영업" "대리" (Date 2023 3 2) true ;;;
     add_employee "이서연" "개발" "사원" (Date 2025 2 10) true ;;;
     add_employee "박지훈" "인사" "과장" (Date 2021 7 1) true ;;;
     commit
   else ret tt).

(** * The vocabulary of the properties *)

(** ** Policy store *)

Definition with_policies (d : Db) (ps : list LeavePolicy) : Db :=
  {| employees := employees d; leave_types := leave_types d; policies := ps;
     requests := requests d; logs := logs d |}.

Definition new_policy (d : Db) (k : string) : LeavePolicy :=
  {| pol_id := next_id (map pol_id (policies d)); key := k;
     value := default "" (DEFAULTS !! k) |}.

Definition policy_value (d : Db) (k : string) : string :=
  match LeavePolicy_first d k with
  | Some p => value p
  | None => default "" (DEFAULTS !! k)
  end.

Definition after_get_policy (k : string) (tx : Tx) : Tx :=
  match LeavePolicy_first (view tx) k with
  | Some _ => tx
  | None =>
      let d' := with_policies (view tx) (policies (view tx) ++ [new_policy (view tx) k]) in
      {| view := d'; commits := commits tx ++ [d'] |}
  end.

(** ** Request lifecycle *)

(** An id that [query.get] can look up: the id of a request, or of none
    but within the 64-bit range.  For any other id the driver raises. *)
Definition known_id (d : Db) (i : Z) : bool :=
  match LeaveRequest_get d i with
  | Some _ => true
  | None => in_int64 i
  end.

(** What a handler gives on an id without a row it accepts: its answer,
    or the [OverflowError] of the driver. *)
Definition refusal {A} (known : bool) (answer : A) : outcome A :=
  if known then Returned answer else Raised OverflowError.

Definition status_of (d : Db) (i : Z) : option Status :=
  status <$> LeaveRequest_get d i.

Definition log_entries (d : Db) (i : Z) : list ApprovalLog :=
  filter (fun l => leave_request_id l = i) (logs d).

Definition pending (d : Db) (i : Z) : bool :=
  bool_decide (status_of d i = Some PENDING).

Definition cancellable (s : Status) : bool :=
  bool_decide (s = PENDING) || bool_decide (s = APPROVED).

Definition terminal (s : Status) : bool :=
  bool_decide (s = REJECTED) || bool_decide (s = CANCELLED).

(** What a status change commits: the rows with id [i] get status [s],
    and one log entry for [i] is appended. *)
Definition transition (d : Db) (i : Z) (s : Status) (who : Role) (a : Action)
    (c : option string) (now : datetime) : Db :=
  {| employees := employees d; leave_types := leave_types d; policies := policies d;
     requests := map (fun r => if req_id r =? i then set_status s r else r) (requests d);
     logs := logs d ++
       [{| log_id := next_id (map log_id (logs d)); leave_request_id := i;
           acted_by := who; action := a; comment := c; log_created_at := now |}] |}.

(** The row [api_create_request] stores with its first commit, and the
    log entry it stores with its second. *)
Definition new_request (c : Ctx) (e : Z) (payload : Payload) (d : Db) : LeaveRequest :=
  {| req_id := next_id (map req_id (requests d)); employee_id := e;
     leave_type_id := pl_leave_type_id payload; start_dt := pl_start_dt payload;
     end_dt := pl_end_dt payload; requested_minutes := pl_requested_minutes payload;
     reason := pl_reason payload; status := PENDING; created_at := utcnow c |}.

Definition with_request (d : Db) (r : LeaveRequest) : Db :=
  {| employees := employees d; leave_types := leave_types d; policies := policies d;
     requests := requests d ++ [r]; logs := logs d |}.

Definition with_log (d : Db) (l : ApprovalLog) : Db :=
  {| employees := employees d; leave_types := leave_types d; policies := policies d;
     requests := requests d; logs := logs d ++ [l] |}.

Definition create_log (c : Ctx) (d : Db) (r : Z) : ApprovalLog :=
  {| log_id := next_id (map log_id (logs d)); leave_request_id := r;
     acted_by := EMPLOYEE; action := CREATE; comment := None;
     log_created_at := utcnow c |}.

(** ** Status and audit log as one unit *)

(** From one snapshot to the next, the status of a request changes (or
    the request appears) exactly when one log entry for it is added. *)
Definition atomic_step (d d' : Db) : Prop :=
  forall i : Z,
    (status_of d' i = status_of d i /\ log_entries d' i = log_entries d i)
    \/ (status_of d' i <> status_of d i
        /\ exists l, log_entries d' i = log_entries d i ++ [l]).

Fixpoint all_atomic (d : Db) (snapshots : list Db) : Prop :=
  match snapshots with
  | [] => True
  | d' :: rest => atomic_step d d' /\ all_atomic d' rest
  end.

(** ** Ledger *)

Definition year_of (c : Ctx) (year : option Z) : Z :=
  match year with Some y => y | None => d_year (today c) end.

Definition year_start (y : Z) : datetime := Datetime y 1 1 0 0 0 0.
Definition year_end (y : Z) : datetime := Datetime y 12 31 23 59 59 0.

Definition in_window (y : Z) (t : datetime) : bool :=
  dt_leb (year_start y) t && dt_leb t (year_end y).

(** A [datetime] of Python has its fields in these ranges. *)
Definition valid_datetime (t : datetime) : Prop :=
  1 <= dt_month t <= 12 /\ 1 <= dt_day t <= 31 /\ 0 <= dt_hour t <= 23
  /\ 0 <= dt_minute t <= 59 /\ 0 <= dt_second t <= 59
  /\ 0 <= dt_microsecond t <= 999999.

(** The last second of the year, its first instant excepted. *)
Definition after_last_second (t : datetime) : Prop :=
  dt_month t = 12 /\ dt_day t = 31 /\ dt_hour t = 23 /\ dt_minute t = 59
  /\ dt_second t = 59 /\ 0 < dt_microsecond t.

Definition code_of (d : Db) (r : LeaveRequest) : option string :=
  code <$> LeaveType_get d (leave_type_id r).

Definition minutes_with_code (d : Db) (c : string) (rs : list LeaveRequest) : Z :=
  foldr Z.add 0 (map requested_minutes (filter (fun r => code_of d r = Some c) rs)).

(** The employee's APPROVED requests that start in the window of the
    year, summed for one code. *)
Definition used_minutes (d : Db) (e y : Z) (c : string) : Z :=
  minutes_with_code d c (approved_in d e (year_start y) (year_end y)).

(** The employee's APPROVED requests that start in year [y], and their
    minutes for one code: the reading of the ledger by calendar year. *)
Definition approved_in_year (d : Db) (e y : Z) : list LeaveRequest :=
  filter (fun r => employee_id r = e /\ status r = APPROVED /\ dt_year (start_dt r) = y)
         (requests d).

Definition used_in_year (d : Db) (e y : Z) (c : string) : Z :=
  minutes_with_code d c (approved_in_year d e y).

(** ** The claims that the code does not meet, as the specification words them *)



(** C7 as the specification words it: the cancel of a request of
    another employee is answered as the cancel of an id of no request
    is. *)
Definition foreign_request_is_as_missing : Prop :=
  forall (c : Ctx) (i : Z) (d : Db) (r : LeaveRequest),
    require_employee c = true ->
    LeaveRequest_get d i = Some r ->
    Some (employee_id r) <> current_employee_id c ->
    forall (j : Z) (d' : Db),
      LeaveRequest_get d' j = None ->
      fst (run (api_cancel_request c j) d') = fst (run (api_cancel_request c i) d).



(** C10 as the specification words it: a summary is returned only if
    the stored value reads as a number other than zero. *)
Definition summary_requires_nonzero_integer : Prop :=
  forall (c : Ctx) (year : option Z) (d : Db) (s : Summary) (cs : list Db),
    run (api_my_summary c year) d = (Returned (Json s), cs) ->
    exists z, py_int (policy_value d "workday_minutes") = Some z /\ z <> 0.

(** ** Accrual *)

(** The calendar months from the join date to the as-of date. *)
Definition tenure_months (join as_of : date) : Z :=
  (d_year as_of - d_year join) * 12 + (d_month as_of - d_month join).

(** ** Sessions *)

(** The request context of a session, at the clock of [c]. *)
Definition with_session (c : Ctx) (s : Session) : Ctx :=
  {| session := s; utcnow := utcnow c; today := today c |}.

Definition employee_session (i : Z) : Session :=
  {| session_role := Some EMPLOYEE; session_employee_id := Some i |}.

Definition admin_session : Session :=
  {| session_role := Some ADMIN; session_employee_id := None |}.

(** The caller owns request [i] and its status still allows a cancel. *)
Definition can_cancel (c : Ctx) (d : Db) (i : Z) : bool :=
  match LeaveRequest_get d i with
  | Some r =>
      bool_decide (Some (employee_id r) = current_employee_id c) && cancellable (status r)
  | None => false
  end.

(** ** Employees and policies after a change *)

Definition with_employees (d : Db) (es : list Employee) : Db :=
  {| employees := es; leave_types := leave_types d; policies := policies d;
     requests := requests d; logs := logs d |}.

Definition new_employee (d : Db) (p : NewEmployee) : Employee :=
  {| emp_id := next_id (map emp_id (employees d)); name := ne_name p;
     department := ne_department p; position := ne_position p;
     join_date := ne_join_date p; is_active := true |}.

Definition set_value (v : string) (p : LeavePolicy) : LeavePolicy :=
  {| pol_id := pol_id p; key := key p; value := v |}.

(** The policy rows after [k] is set to [v]: the row found for [k] gets
    the value, or a row is added. *)
Definition put_row (k v : string) (ps : list LeavePolicy) : list LeavePolicy :=
  match List.find (fun p => String.eqb (key p) k) ps with
  | Some row => map (fun p => if pol_id p =? pol_id row then set_value v p else p) ps
  | None => ps ++ [{| pol_id := next_id (map pol_id ps); key := k; value := v |}]
  end.

(** The policy rows after a PUT of the body [p]. *)
Definition put_rows {V} (str : V -> string) (p : gmap string V) (keys : list string)
    (ps : list LeavePolicy) : list LeavePolicy :=
  foldl (fun ps k => match p !! k with Some v => put_row k (str v) ps | None => ps end)
        ps keys.

(** The session after each of [keys] has been read once. *)
Definition read_all (keys : list string) (tx : Tx) : Tx :=
  foldl (fun tx k => after_get_policy k tx) tx keys.

(** The first row of a key among policy rows. *)
Definition first_row (ps : list LeavePolicy) (k : string) : option LeavePolicy :=
  List.find (fun p => String.eqb (key p) k) ps.

(** The rows after a read of [k]: the default is added if the key has
    no row. *)
Definition ensure (k : string) (d : Db) : Db :=
  match LeavePolicy_first d k with
  | Some _ => d
  | None => with_policies d (policies d ++ [new_policy d k])
  end.

Definition ensure_all (keys : list string) (d : Db) : Db :=
  foldl (fun d k => ensure k d) d keys.

(** ** Seed *)

Definition seeded_leave_types : list LeaveType :=
  [ {| lt_id := 1; code := "ANNUAL"; name_ko := "연차"; color_hex := "#4F46E5";
       default_unit := "day"; is_enabled := true |};
    {| lt_id := 2; code := "SICK"; name_ko := "병가"; color_hex := "#059669";
       default_unit := "day"; is_enabled := true |};
    {| lt_id := 3; code := "EVENT"; name_ko := "경조"; color_hex := "#7C3AED";
       default_unit := "day"; is_enabled := true |};
    {| lt_id := 4; code := "PUBLIC"; name_ko := "공가"; color_hex := "#F59E0B";
       default_unit := "day"; is_enabled := true |} ].

Definition seeded_employees : list Employee :=
  [ {| emp_id := 1; name := "김민수"; department := "영업"; position := "대리";
       join_date := Date 2023 3 2; is_active := true |};
    {| emp_id := 2; name := "이서연"; department := "개발"; position := "사원";
       join_date := Date 2025 2 10; is_active := true |};
    {| emp_id := 3; name := "박지훈"; department := "인사"; position := "과장";
       join_date := Date 2021 7 1; is_active := true |} ].

(** The rows after [seed_defaults]. *)
Definition seeded (d : Db) : Db :=
  let d1 := ensure_all policy_keys d in
  {| employees := match employees d with [] => seeded_employees | es => es end;
     leave_types := match leave_types d with [] => seeded_leave_types | ts => ts end;
     policies := policies d1; requests := requests d; logs := logs d |}.

(** ** Requests to the application *)

Definition with_leave_types (d : Db) (ts : list LeaveType) : Db :=
  {| employees := employees d; leave_types := ts; policies := policies d;
     requests := requests d; logs := logs d |}.

(** A handler run for what it stores only. *)
Definition ignore {A} (h : M A) : M unit := bind h (fun _ => ret tt).

Section Calls.
Context {V : Type} (str : V -> string).

(** One request to the application, or its start, which seeds. *)
Inductive Call : Type :=
  | call_seed
  | call_login (s : Session) (m : Method)
  | call_me
  | call_summary (year : option Z)
  | call_leave_types
  | call_my_requests (status_arg : option string)
  | call_lifecycle (o : Op)
  | call_dashboard
  | call_inbox (status_arg : option string)
  | call_employees
  | call_add_employee (p : NewEmployee)
  | call_policies (r : @PoliciesRequest V).

Definition perform (c : Ctx) (k : Call) : M unit :=
  match k with
  | call_seed => seed_defaults
  | call_login s m => ignore (login s m)
  | call_me => ignore (api_me c)
  | call_summary year => ignore (api_my_summary c year)
  | call_leave_types => ignore (api_leave_types c)
  | call_my_requests status_arg => ignore (api_my_requests c status_arg)
  | call_lifecycle o => ignore (handle c o)
  | call_dashboard => ignore (api_admin_dashboard c)
  | call_inbox status_arg => ignore (api_admin_inbox c status_arg)
  | call_employees => ignore (api_admin_employees c)
  | call_add_employee p => ignore (api_admin_add_employee c p)
  | call_policies r => ignore (api_admin_policies str c r)
  end.

(** The stored rows that a sequence of requests, by any sessions at any
    times, leads to from [d0]. *)
Inductive reachable (d0 : Db) : Db -> Prop :=
  | reach_start : reachable d0 d0
  | reach_step (d : Db) (c : Ctx) (k : Call) :
      reachable d0 d -> reachable d0 (stored_after (perform c k) d).
End Calls.

(** Nothing is removed: each table keeps its rows and gains rows at its
    end only; a log entry, an employee and a leave type stay as they
    are, a request changes in its status only, a policy row in its value
    only. *)
Definition extends (d d' : Db) : Prop :=
  (exists added, logs d' = logs d ++ added)
  /\ (exists added,
        map (set_status PENDING) (requests d')
        = map (set_status PENDING) (requests d) ++ added)
  /\ (exists added, employees d' = employees d ++ added)
  /\ (exists added, leave_types d' = leave_types d ++ added)
  /\ (exists added,
        map (set_value "") (policies d') = map (set_value "") (policies d) ++ added).

(** The requests and the log are the same, and every leave type and
    employee is found as before. *)
Definition core_kept (d d' : Db) : Prop :=
  requests d' = requests d /\ logs d' = logs d
  /\ (forall i t, LeaveType_get d i = Some t -> LeaveType_get d' i = Some t).

(** ** The audit trail *)

(** The log entries a request can have, oldest first, and the status
    that goes with them. *)
Definition history_ok (acts : list Action) (s : Status) : bool :=
  match acts, s with
  | [CREATE], PENDING
  | [CREATE; APPROVE], APPROVED
  | [CREATE; REJECT], REJECTED
  | [CREATE; CANCEL], CANCELLED
  | [CREATE; APPROVE; CANCEL], CANCELLED => true
  | _, _ => false
  end.

(** Who writes which entry: the employee CREATE and CANCEL, the
    administrator APPROVE and REJECT, the latter with a comment. *)
Definition log_ok (l : ApprovalLog) : Prop :=
  match action l with
  | CREATE | CANCEL => acted_by l = EMPLOYEE /\ comment l = None
  | APPROVE => acted_by l = ADMIN /\ comment l = None
  | REJECT => acted_by l = ADMIN /\ no_comment (comment l) = false
  end.

Definition consistent (d : Db) : Prop :=
  NoDup (map req_id (requests d))
  /\ Forall (fun l => is_Some (LeaveRequest_get d (leave_request_id l)) /\ log_ok l) (logs d)
  /\ Forall (fun r =>
               history_ok (map action (log_entries d (req_id r))) (status r) = true
               /\ is_Some (LeaveType_get d (leave_type_id r)))
            (requests d).

(** ** What every step of a handler keeps *)

(** The session [tx] of a handler that started on the rows [d0]: what
    it holds and what it has committed are related to [d0] by [R]. *)
Definition inv (R : Db -> Db -> Prop) (d0 : Db) (tx : Tx) : Prop :=
  R d0 (view tx) /\ Forall (R d0) (commits tx).

Definition keeps (R : Db -> Db -> Prop) {A} (h : M A) : Prop :=
  forall d0 tx, inv R d0 tx -> inv R d0 (snd (h tx)).

(** What is stored is what the session holds, for a session that only
    reads policies. *)
Definition synced (d0 : Db) (tx : Tx) : Prop := List.last (commits tx) d0 = view tx.

(** ** Lists *)

(** The order of a comparison function, for [Sorted]. *)
Definition ordered {A} (leb : A -> A -> bool) : relation A := fun a b => leb a b = true.

(** What the status argument of a list asks of a request. *)
Definition status_matches (status_arg : option string) (r : LeaveRequest) : Prop :=
  match status_arg with
  | Some s => s = "" \/ status_name (status r) = s
  | None => True
  end.

(** The requests the list of an employee is taken from. *)
Definition own_requests (c : Ctx) (status_arg : option string) (d : Db) : list LeaveRequest :=
  filter_status status_arg
    (filter (fun r => Some (employee_id r) = current_employee_id c) (requests d)).

(** ** The ledger after a status change *)

(** The minutes request [r] adds to the ledger of employee [e], year
    [y] and code [k] while it is APPROVED. *)
Definition counted (d : Db) (e y : Z) (k : string) (r : LeaveRequest) : Z :=
  if (employee_id r =? e) && in_window y (start_dt r) && bool_decide (code_of d r = Some k)
  then requested_minutes r else 0.

(** What it adds in the status it has. *)
Definition weight (d : Db) (e y : Z) (k : string) (r : LeaveRequest) : Z :=
  if bool_decide (status r = APPROVED) then counted d e y k r else 0.

(** ** The dashboard *)

(** The date of a datetime, and the order of dates. *)
Definition date_of (x : datetime) : date := Date (dt_year x) (dt_month x) (dt_day x).

Definition date_leb (a b : date) : bool :=
  match lex_compare [d_year a; d_month a; d_day a] [d_year b; d_month b; d_day b] with
  | Gt => false
  | _ => true
  end.

(** A date, and a datetime, of the calendar. *)
Definition calendar_date (t : date) : Prop :=
  1 <= d_month t <= 12 /\ 1 <= d_day t <= days_in_month (d_year t) (d_month t).

Definition calendar_datetime (x : datetime) : Prop :=
  calendar_date (date_of x) /\ valid_datetime x.

(** An APPROVED request whose days, from the day it starts to the day
    it ends, include the date [t]. *)
Definition on_leave (t : date) (r : LeaveRequest) : bool :=
  bool_decide (status r = APPROVED)
  && date_leb (date_of (start_dt r)) t && date_leb t (date_of (end_dt r)).

(** * Properties *)

(** ** Accrual calculator *)

Section Accrual.
Variables (today_ join : date) (as_of : option date).

Let d : date := default today_ as_of.
Let months : Z := (d_year d - d_year join) * 12 + (d_month d - d_month join).
Let years : Z := months / 12.

(** C4.  With [months] the calendar months between the join date and
    the as-of date (days of the month ignored) and [years = months / 12],
    the entitlement is [min months 11] when [years = 0] and
    [min (15 + (years - 1) / 2) 25] otherwise; so 1 year gives 15 days,
    3 years 16, 5 years 17, and 21 years or more give 25. *)
Theorem annual_entitlement_table :
  calculate_annual_leave_days today_ join as_of
    = (if decide (years = 0) then Z.min months 11
       else Z.min (15 + (years - 1) / 2) 25)
  /\ (years = 1 -> calculate_annual_leave_days today_ join as_of = 15)
  /\ (years = 3 -> calculate_annual_leave_days today_ join as_of = 16)
  /\ (years = 5 -> calculate_annual_leave_days today_ join as_of = 17)
  /\ (21 <= years -> calculate_annual_leave_days today_ join as_of = 25).
Proof.
  assert (E : calculate_annual_leave_days today_ join as_of
              = if decide (years = 0) then Z.min months 11
                else Z.min (15 + (years - 1) / 2) 25).
  { unfold calculate_annual_leave_days, years, months, d.
    destruct as_of as [a|]; simpl;
      case_decide as Hy; [rewrite Hy| |rewrite Hy|]; try reflexivity;
      apply Z.eqb_neq in Hy; rewrite Hy; reflexivity. }
  split; [exact E|].
  rewrite E. clear E.
  repeat split; intros Hy.
  - rewrite Hy. reflexivity.
  - rewrite Hy. reflexivity.
  - rewrite Hy. reflexivity.
  - case_decide as H0; [lia|].
    assert (10 <= (years - 1) / 2) by (apply Z.div_le_lower_bound; lia).
    lia.
Qed.
End Accrual.

Lemma annual_entitlement_table_witness :
  calculate_annual_leave_days (Date 2025 6 1) (Date 2021 7 1) (Some (Date 2022 7 1)) = 15
  /\ calculate_annual_leave_days (Date 2025 6 1) (Date 2021 7 1) (Some (Date 2024 7 1)) = 16
  /\ calculate_annual_leave_days (Date 2025 6 1) (Date 2020 6 1) None = 17
  /\ calculate_annual_leave_days (Date 2025 6 1) (Date 2000 1 15) (Some (Date 2021 1 1)) = 25.
Proof.
  split; [|split; [|split]].
  - apply (annual_entitlement_table (Date 2025 6 1) (Date 2021 7 1) (Some (Date 2022 7 1))).
    reflexivity.
  - apply (annual_entitlement_table (Date 2025 6 1) (Date 2021 7 1) (Some (Date 2024 7 1))).
    reflexivity.
  - apply (annual_entitlement_table (Date 2025 6 1) (Date 2020 6 1) None).
    reflexivity.
  - apply (annual_entitlement_table (Date 2025 6 1) (Date 2000 1 15) (Some (Date 2021 1 1))).
    vm_compute. discriminate.
Defined.

(** The first year, month by month, and a join date after the as-of date. *)
Example entitlement_first_year :
  map (fun m => calculate_annual_leave_days (Date 2025 1 1) (Date 2024 1 31) (Some (Date 2024 m 1)))
      [1; 2; 7; 12]
  = [0; 1; 6; 11].
Proof. reflexivity. Qed.

Example entitlement_future_join :
  calculate_annual_leave_days (Date 2025 1 1) (Date 2026 1 1) (Some (Date 2025 12 31)) = 14.
Proof. reflexivity. Qed.

(** ** Policy store *)

Lemma find_app_fresh {A} (f : A -> bool) (l : list A) (x : A) :
  List.find f l = None -> f x = true -> List.find f (l ++ [x]) = Some x.
Proof.
  induction l as [|a l IH]; simpl; intros Hn Hx.
  - rewrite Hx. reflexivity.
  - destruct (f a); [discriminate|]. auto.
Qed.

Lemma find_app_old {A} (f : A -> bool) (l l' : list A) (x : A) :
  List.find f l = Some x -> List.find f (l ++ l') = Some x.
Proof.
  induction l as [|a l IH]; simpl; [discriminate|].
  destruct (f a); auto.
Qed.

Lemma get_policy_unset (k : string) (d : Db) :
  LeavePolicy_first d k = None ->
  run (get_policy k) d
  = (Returned (default "" (DEFAULTS !! k)),
     [with_policies d (policies d ++ [new_policy d k])]).
Proof.
  intros Hn. unfold run, get_policy, bind, query. simpl.
  rewrite Hn. reflexivity.
Qed.

Lemma get_policy_set (k : string) (d : Db) (p : LeavePolicy) :
  LeavePolicy_first d k = Some p ->
  run (get_policy k) d = (Returned (value p), []).
Proof.
  intros Hs. unfold run, get_policy, bind, query. simpl.
  rewrite Hs. reflexivity.
Qed.

Lemma first_after_create (k : string) (d : Db) :
  LeavePolicy_first d k = None ->
  LeavePolicy_first (with_policies d (policies d ++ [new_policy d k])) k
  = Some (new_policy d k).
Proof.
  intros Hn. unfold LeavePolicy_first in *. simpl.
  apply find_app_fresh; [exact Hn|]. simpl. apply String.eqb_refl.
Qed.

(** C8.  For a key never set, the first [get_policy] returns the
    built-in default (480, 10 and 1234 for the three known keys) and
    stores exactly one new record; a second call returns the same value
    and stores nothing. *)
Theorem get_policy_idempotent (k : string) (d : Db) :
  LeavePolicy_first d k = None ->
  let v := default "" (DEFAULTS !! k) in
  let d1 := stored_after (get_policy k) d in
  run (get_policy k) d = (Returned v, [d1])
  /\ policies d1 = policies d ++ [new_policy d k]
  /\ length (policies d1) = S (length (policies d))
  /\ (employees d1, leave_types d1, requests d1, logs d1)
     = (employees d, leave_types d, requests d, logs d)
  /\ run (get_policy k) d1 = (Returned v, [])
  /\ stored_after (get_policy k) d1 = d1
  /\ DEFAULTS !! "workday_minutes" = Some "480"
  /\ DEFAULTS !! "sick_default_days" = Some "10"
  /\ DEFAULTS !! "admin_pin" = Some "1234".
Proof.
  intros Hn v d1.
  assert (E1 : d1 = with_policies d (policies d ++ [new_policy d k])).
  { unfold d1, stored_after. rewrite (get_policy_unset k d Hn). reflexivity. }
  assert (E2 : run (get_policy k) d1 = (Returned v, [])).
  { rewrite E1. rewrite (get_policy_set k _ _ (first_after_create k d Hn)). reflexivity. }
  repeat split.
  - rewrite E1. apply get_policy_unset, Hn.
  - rewrite E1. reflexivity.
  - rewrite E1. simpl. rewrite length_app. simpl. lia.
  - rewrite E1. reflexivity.
  - exact E2.
  - unfold stored_after. rewrite E2. reflexivity.
Qed.

Lemma get_policy_idempotent_witness :
  run (get_policy "workday_minutes") Sample.empty
    = (Returned "480", [stored_after (get_policy "workday_minutes") Sample.empty])
  /\ run (get_policy "workday_minutes")
       (stored_after (get_policy "workday_minutes") Sample.empty)
    = (Returned "480", [])
  /\ length (policies (stored_after (get_policy "workday_minutes") Sample.empty)) = 1%nat.
Proof.
  destruct (get_policy_idempotent "workday_minutes" Sample.empty eq_refl)
    as (H1 & _ & H3 & _ & H5 & _).
  split; [exact H1|]. split; [exact H5|exact H3].
Defined.

Lemma DEFAULTS_other (k : string) :
  k <> "workday_minutes" -> k <> "sick_default_days" -> k <> "admin_pin" ->
  DEFAULTS !! k = None.
Proof.
  intros H1 H2 H3. unfold DEFAULTS.
  rewrite !lookup_insert_ne by congruence. apply lookup_empty.
Qed.

(** C9.  For a key outside the default table that was never set,
    [get_policy] returns the empty string and stores a record whose
    value is the empty string; it does not fail. *)
Theorem get_policy_unknown_key (k : string) (d : Db) :
  k <> "workday_minutes" -> k <> "sick_default_days" -> k <> "admin_pin" ->
  LeavePolicy_first d k = None ->
  run (get_policy k) d
  = (Returned "",
     [with_policies d
        (policies d ++ [{| pol_id := next_id (map pol_id (policies d));
                           key := k; value := "" |}])]).
Proof.
  intros H1 H2 H3 Hn.
  rewrite (get_policy_unset k d Hn). unfold new_policy.
  rewrite (DEFAULTS_other k H1 H2 H3). reflexivity.
Qed.

Lemma get_policy_unknown_key_witness :
  run (get_policy "carry_over_days") Sample.empty
  = (Returned "",
     [with_policies Sample.empty
        [{| pol_id := 1; key := "carry_over_days"; value := "" |}]]).
Proof.
  apply (get_policy_unknown_key "carry_over_days" Sample.empty).
  - discriminate.
  - discriminate.
  - discriminate.
  - reflexivity.
Defined.

(** The stored empty value is what later reads return. *)
Example unknown_key_read_twice :
  run (get_policy "carry_over_days")
    (stored_after (get_policy "carry_over_days") Sample.empty)
  = (Returned "", []).
Proof. reflexivity. Qed.

(** ** Request lifecycle *)

(** *** The handlers as functions of the stored rows *)

Lemma get_req_id (d : Db) (i : Z) (r : LeaveRequest) :
  LeaveRequest_get d i = Some r -> req_id r = i.
Proof.
  intros H. apply find_some in H as [_ H]. lia.
Qed.

Lemma run_approve (c : Ctx) (i : Z) (d : Db) :
  run (api_admin_approve c i) d =
  if negb (require_admin c) then (Returned (Err 401 "unauthorized"), [])
  else if pending d i
       then (Returned (Json Done), [transition d i APPROVED ADMIN APPROVE None (utcnow c)])
       else (refusal (known_id d i) (Err 404 "not found or not pending"), []).
Proof.
  unfold run, api_admin_approve, query_get, pending, status_of, known_id, refusal, bind_int.
  destruct (require_admin c); simpl; [|reflexivity].
  unfold bind, query, lift, ret; simpl.
  destruct (LeaveRequest_get d i) as [r|] eqn:Hr; simpl.
  - rewrite (get_req_id d i r Hr).
    destruct (status r) eqn:Hs; reflexivity.
  - destruct (in_int64 i); reflexivity.
Qed.

Lemma run_reject (c : Ctx) (i : Z) (comment : option string) (d : Db) :
  run (api_admin_reject c i comment) d =
  if negb (require_admin c) then (Returned (Err 401 "unauthorized"), [])
  else if no_comment comment then (Returned (Err 400 "comment required"), [])
  else if pending d i
       then (Returned (Json Done), [transition d i REJECTED ADMIN REJECT comment (utcnow c)])
       else (refusal (known_id d i) (Err 404 "not found or not pending"), []).
Proof.
  unfold run, api_admin_reject, query_get, pending, status_of, known_id, refusal, bind_int.
  destruct (require_admin c); simpl; [|reflexivity].
  destruct (no_comment comment); simpl; [reflexivity|].
  unfold bind, query, lift, ret; simpl.
  destruct (LeaveRequest_get d i) as [r|] eqn:Hr; simpl.
  - rewrite (get_req_id d i r Hr).
    destruct (status r) eqn:Hs; reflexivity.
  - destruct (in_int64 i); reflexivity.
Qed.

Lemma run_cancel (c : Ctx) (i : Z) (d : Db) :
  run (api_cancel_request c i) d =
  if negb (require_employee c) then (Returned (Err 401 "unauthorized"), [])
  else match LeaveRequest_get d i with
       | None => (refusal (in_int64 i) (Err 404 "not found"), [])
       | Some r =>
           if negb (bool_decide (Some (employee_id r) = current_employee_id c))
           then (Returned (Err 404 "not found"), [])
           else if cancellable (status r)
                then (Returned (Json Done),
                      [transition d i CANCELLED EMPLOYEE CANCEL None (utcnow c)])
                else (Returned (Err 400 "cannot cancel"), [])
       end.
Proof.
  unfold run, api_cancel_request, query_get, cancellable, refusal, bind_int.
  destruct (require_employee c); simpl; [|reflexivity].
  unfold bind, query, lift, ret; simpl.
  destruct (LeaveRequest_get d i) as [r|] eqn:Hr; simpl;
    [|destruct (in_int64 i); reflexivity].
  rewrite (get_req_id d i r Hr).
  destruct (bool_decide (Some (employee_id r) = current_employee_id c)); simpl; [|reflexivity].
  destruct (status r) eqn:Hs; reflexivity.
Qed.


Lemma run_create (c : Ctx) (payload : Payload) (d : Db) :
  run (api_create_request c payload) d =
  if negb (require_employee c) then (Returned (Err 401 "unauthorized"), [])
  else match LeaveType_get d (pl_leave_type_id payload), current_employee_id c with
       | None, _ =>
           (refusal (in_int64 (pl_leave_type_id payload)) (Err 400 "invalid leave type"), [])
       | Some _, None => (Raised IntegrityError, [])
       | Some _, Some e =>
           if in_int64 (pl_requested_minutes payload) then
             let r := new_request c e payload d in
             let d1 := with_request d r in
             (Returned (Json (Created (req_id r))),
              [d1; with_log d1 (create_log c d1 (req_id r))])
           else (Raised OverflowError, [])
       end.
Proof.
  unfold run, api_create_request, query_get, refusal, bind_int.
  destruct (require_employee c); simpl; [|reflexivity].
  unfold bind, query, lift, ret; simpl.
  destruct (LeaveType_get d (pl_leave_type_id payload)); simpl;
    [|destruct (in_int64 (pl_leave_type_id payload)); reflexivity].
  destruct (current_employee_id c); [|reflexivity]. simpl.
  destruct (in_int64 (pl_requested_minutes payload)); reflexivity.
Qed.

Lemma pending_spec (d : Db) (i : Z) :
  pending d i = true <->
  exists r, LeaveRequest_get d i = Some r /\ status r = PENDING.
Proof.
  unfold pending, status_of. rewrite bool_decide_eq_true.
  destruct (LeaveRequest_get d i) as [r|]; simpl; split.
  - intros [= H]. eauto.
  - intros (r' & [= <-] & H). congruence.
  - discriminate.
  - intros (r' & H & _). discriminate.
Qed.

Lemma get_transition (d : Db) (j : Z) (s : Status) who a c now (i : Z) :
  LeaveRequest_get (transition d j s who a c now) i
  = (fun r => if req_id r =? j then set_status s r else r) <$> LeaveRequest_get d i.
Proof.
  unfold LeaveRequest_get. simpl.
  induction (requests d) as [|r rs IH]; simpl; [reflexivity|].
  assert (E : req_id (if req_id r =? j then set_status s r else r) = req_id r)
    by (destruct (req_id r =? j); reflexivity).
  rewrite E. destruct (req_id r =? i); [reflexivity|exact IH].
Qed.

Lemma status_of_transition_same (d : Db) (i : Z) (s : Status) who a c now :
  is_Some (LeaveRequest_get d i) ->
  status_of (transition d i s who a c now) i = Some s.
Proof.
  intros [r Hr]. unfold status_of. rewrite get_transition, Hr. simpl.
  rewrite (get_req_id d i r Hr), Z.eqb_refl. reflexivity.
Qed.

Lemma get_transition_other (d : Db) (j : Z) (s : Status) who a c now (i : Z) :
  i <> j ->
  LeaveRequest_get (transition d j s who a c now) i = LeaveRequest_get d i.
Proof.
  intros Hne. rewrite get_transition.
  destruct (LeaveRequest_get d i) as [r|] eqn:Hr; [|reflexivity]. simpl.
  rewrite (get_req_id d i r Hr).
  destruct (i =? j) eqn:E; [lia|reflexivity].
Qed.

Lemma log_entries_transition (d : Db) (j : Z) (s : Status) who a c now (i : Z) :
  log_entries (transition d j s who a c now) i
  = log_entries d i ++
    (if decide (j = i)
     then [{| log_id := next_id (map log_id (logs d)); leave_request_id := j;
              acted_by := who; action := a; comment := c; log_created_at := now |}]
     else []).
Proof.
  unfold log_entries. simpl. rewrite filter_app.
  case_decide as E.
  - rewrite filter_cons_True by exact E. reflexivity.
  - rewrite filter_cons_False by exact E. reflexivity.
Qed.

Lemma next_id_above (ids : list Z) (x : Z) : In x ids -> x < next_id ids.
Proof.
  unfold next_id. induction ids as [|y ys IH]; simpl; [tauto|].
  intros [->|H]; [lia|]. specialize (IH H). lia.
Qed.

Lemma get_fresh (d : Db) : LeaveRequest_get d (next_id (map req_id (requests d))) = None.
Proof.
  unfold LeaveRequest_get.
  destruct (List.find _ _) as [r|] eqn:H; [|reflexivity].
  apply find_some in H as [Hin He].
  pose proof (next_id_above (map req_id (requests d)) (req_id r) (in_map _ _ _ Hin)).
  lia.
Qed.

Lemma get_with_request_old (d : Db) (r' r : LeaveRequest) (i : Z) :
  LeaveRequest_get d i = Some r -> LeaveRequest_get (with_request d r') i = Some r.
Proof. apply find_app_old. Qed.

Lemma get_with_request_new (d : Db) (r : LeaveRequest) :
  req_id r = next_id (map req_id (requests d)) ->
  LeaveRequest_get (with_request d r) (req_id r) = Some r.
Proof.
  intros E. unfold LeaveRequest_get. simpl. apply find_app_fresh.
  - rewrite E. apply get_fresh.
  - apply Z.eqb_refl.
Qed.

(** *** Approve and reject *)


Section Admin.
Variables (c : Ctx) (i : Z) (comment : option string) (d : Db).
Hypothesis admin : require_admin c = true.

End Admin.



(** Once approved, the same call gives 400 and not the 404 of a wrong
    state. *)
Example reject_approved_without_comment :
  status_of Sample.approved 1 = Some APPROVED
  /\ run (api_admin_reject Sample.as_admin 1 (Some "")) Sample.approved
     = (Returned (Err 400 "comment required"), []).
Proof. split; reflexivity. Qed.

(** *** Create *)

Section Create.
Variables (c : Ctx) (payload : Payload) (d : Db).
Hypothesis employee : require_employee c = true.

End Create.



(** The enabled flag of the leave type is not read: the handler takes a
    leave type that [api_leave_types] does not offer. *)
Example create_accepts_disabled_type :
  let retired :=
    {| lt_id := 2; code := "EVENT"; name_ko := "event"; color_hex := "#7C3AED";
       default_unit := "day"; is_enabled := false |} in
  let d :=
    {| employees := [Sample.park]; leave_types := [Sample.annual; retired];
       policies := []; requests := []; logs := [] |} in
  let p :=
    {| pl_leave_type_id := 2; pl_start_dt := Sample.now; pl_end_dt := Sample.now;
       pl_requested_minutes := 60; pl_reason := None |} in
  fst (run (api_create_request (Sample.as_employee 3) p) d) = Returned (Json (Created 1)).
Proof. reflexivity. Qed.

(** *** Cancel *)

(** C7, as the code has it.  An employee who cancels a request of
    another employee gets 404 "not found", which is also the answer for
    every id of no request that an SQLite INTEGER can hold, and nothing
    is stored.  For an id of no request outside the 64-bit range the
    driver raises [OverflowError], and nothing is stored either. *)
Theorem cancel_foreign_request (c : Ctx) (i : Z) (d : Db) (r : LeaveRequest) :
  require_employee c = true ->
  LeaveRequest_get d i = Some r ->
  Some (employee_id r) <> current_employee_id c ->
  run (api_cancel_request c i) d = (Returned (Err 404 "not found"), [])
  /\ stored_after (api_cancel_request c i) d = d
  /\ (forall (j : Z) (d' : Db),
        LeaveRequest_get d' j = None -> in_int64 j = true ->
        run (api_cancel_request c j) d' = run (api_cancel_request c i) d)
  /\ (forall (j : Z) (d' : Db),
        LeaveRequest_get d' j = None -> in_int64 j = false ->
        run (api_cancel_request c j) d' = (Raised OverflowError, [])).
Proof.
  intros He Hr Hne.
  assert (E : run (api_cancel_request c i) d = (Returned (Err 404 "not found"), [])).
  { rewrite run_cancel, He, Hr. simpl.
    rewrite bool_decide_eq_false_2 by exact Hne. reflexivity. }
  split; [exact E|]. split; [|split].
  - unfold stored_after. rewrite E. reflexivity.
  - intros j d' Hn Hj. rewrite E, run_cancel, He, Hn, Hj. reflexivity.
  - intros j d' Hn Hj. rewrite run_cancel, He, Hn, Hj. reflexivity.
Qed.

Lemma cancel_foreign_request_witness :
  run (api_cancel_request (Sample.as_employee 2) 1) Sample.requested
    = (Returned (Err 404 "not found"), [])
  /\ run (api_cancel_request (Sample.as_employee 2) 9) Sample.requested
    = run (api_cancel_request (Sample.as_employee 2) 1) Sample.requested
  /\ run (api_cancel_request (Sample.as_employee 2) (2 ^ 63)) Sample.requested
    = (Raised OverflowError, []).
Proof.
  destruct (cancel_foreign_request (Sample.as_employee 2) 1 Sample.requested
              (new_request (Sample.as_employee 3) 3 Sample.one_day Sample.empty))
    as (H1 & _ & H2 & H3).
  - reflexivity.
  - reflexivity.
  - simpl. discriminate.
  - split; [exact H1|]. split; [apply H2; reflexivity|apply H3; reflexivity].
Defined.

(** C7, where the code departs from its wording.  Request 1 belongs to
    employee 3.  Employee 2 gets 404 for it, and for the id 9 of no
    request, but not for the id 2^63 of no request: there the driver
    raises. *)
Lemma cancel_of_an_id_beyond_64_bits :
  LeaveRequest_get Sample.requested (2 ^ 63) = None
  /\ run (api_cancel_request (Sample.as_employee 2) 1) Sample.requested
     = (Returned (Err 404 "not found"), [])
  /\ run (api_cancel_request (Sample.as_employee 2) (2 ^ 63)) Sample.requested
     = (Raised OverflowError, [])
  /\ ~ foreign_request_is_as_missing.
Proof.
  split; [reflexivity|]. split; [reflexivity|]. split; [reflexivity|].
  intros H.
  specialize (H (Sample.as_employee 2) 1 Sample.requested
                (new_request (Sample.as_employee 3) 3 Sample.one_day Sample.empty)
                eq_refl eq_refl).
  assert (Hne : Some (employee_id
                        (new_request (Sample.as_employee 3) 3 Sample.one_day Sample.empty))
                <> current_employee_id (Sample.as_employee 2)) by (simpl; discriminate).
  specialize (H Hne (2 ^ 63) Sample.requested eq_refl).
  discriminate H.
Qed.

(** *** Terminal states *)

Lemma get_with_log (d : Db) (l : ApprovalLog) (i : Z) :
  LeaveRequest_get (with_log d l) i = LeaveRequest_get d i.
Proof. reflexivity. Qed.

(** A transition on [j] that the handlers let through leaves a terminal
    request as it is. *)
Lemma get_transition_kept (d : Db) (j : Z) (s : Status) who a cm now (i : Z) (r : LeaveRequest) :
  LeaveRequest_get d i = Some r ->
  (forall r', LeaveRequest_get d j = Some r' -> r' <> r) ->
  LeaveRequest_get (transition d j s who a cm now) i = Some r.
Proof.
  intros Hr Hj.
  destruct (decide (i = j)) as [->|Hne].
  - exfalso. exact (Hj r Hr eq_refl).
  - rewrite get_transition_other by exact Hne. exact Hr.
Qed.

Lemma last_default_or_in {A} (l : list A) (d : A) :
  List.last l d = d \/ In (List.last l d) l.
Proof.
  induction l as [|a [|b l] IH]; simpl in *; auto.
  destruct IH as [->|?]; auto.
Qed.

(** C6.  A request whose status is REJECTED or CANCELLED stays as it is
    in every snapshot that a create, cancel, approve or reject commits,
    and in what is stored afterwards, whoever calls the operation and
    on whichever id; a request in status APPROVED is moved to CANCELLED
    when its owner cancels it. *)
Theorem rejected_and_cancelled_are_terminal (c : Ctx) (d : Db) (i : Z) (r : LeaveRequest) :
  LeaveRequest_get d i = Some r ->
  (terminal (status r) = true ->
   forall o : Op,
     (forall d' : Db,
        In d' (snd (run (handle c o) d)) -> LeaveRequest_get d' i = Some r)
     /\ LeaveRequest_get (stored_after (handle c o) d) i = Some r)
  /\ (status r = APPROVED ->
      require_employee c = true ->
      current_employee_id c = Some (employee_id r) ->
      run (api_cancel_request c i) d
        = (Returned (Json Done), [stored_after (api_cancel_request c i) d])
      /\ LeaveRequest_get (stored_after (api_cancel_request c i) d) i
         = Some (set_status CANCELLED r)).
Proof.
  intros Hr. split.
  - intros Ht o.
    assert (Hall : forall d' : Db,
               In d' (snd (run (handle c o) d)) -> LeaveRequest_get d' i = Some r);
      [|split; [exact Hall|];
        unfold stored_after;
        destruct (last_default_or_in (snd (run (handle c o) d)) d) as [->|Hin];
        [exact Hr|exact (Hall _ Hin)]].
    intros d' Hin.
    assert (Hnp : pending d i = false).
    { unfold pending, status_of. rewrite Hr. simpl.
      destruct (status r); try discriminate Ht; reflexivity. }
    destruct o as [payload|j|j|j cm]; simpl in Hin.
    + rewrite run_create in Hin.
      destruct (require_employee c); simpl in Hin; [|tauto].
      destruct (LeaveType_get d (pl_leave_type_id payload)); simpl in Hin; [|tauto].
      destruct (current_employee_id c) as [e|]; simpl in Hin; [|tauto].
      destruct (in_int64 (pl_requested_minutes payload)); simpl in Hin; [|tauto].
      destruct Hin as [<-|[<-|[]]].
      * apply get_with_request_old, Hr.
      * rewrite get_with_log. apply get_with_request_old, Hr.
    + rewrite run_cancel in Hin.
      destruct (require_employee c); simpl in Hin; [|tauto].
      destruct (LeaveRequest_get d j) as [r'|] eqn:Hr'; simpl in Hin; [|tauto].
      destruct (bool_decide (Some (employee_id r') = current_employee_id c));
        simpl in Hin; [|tauto].
      destruct (cancellable (status r')) eqn:Hc; simpl in Hin; [|tauto].
      destruct Hin as [<-|[]].
      apply get_transition_kept; [exact Hr|].
      intros r'' Hr'' ->. rewrite Hr' in Hr''. injection Hr'' as ->.
      destruct (status r); discriminate.
    + rewrite run_approve in Hin.
      destruct (require_admin c); simpl in Hin; [|tauto].
      destruct (pending d j) eqn:Hp; simpl in Hin; [|tauto].
      destruct Hin as [<-|[]].
      apply get_transition_kept; [exact Hr|].
      intros r'' Hr'' ->.
      assert (j = i) as -> by (rewrite <- (get_req_id d j r Hr''); apply (get_req_id d i r Hr)).
      congruence.
    + rewrite run_reject in Hin.
      destruct (require_admin c); simpl in Hin; [|tauto].
      destruct (no_comment cm); simpl in Hin; [tauto|].
      destruct (pending d j) eqn:Hp; simpl in Hin; [|tauto].
      destruct Hin as [<-|[]].
      apply get_transition_kept; [exact Hr|].
      intros r'' Hr'' ->.
      assert (j = i) as -> by (rewrite <- (get_req_id d j r Hr''); apply (get_req_id d i r Hr)).
      congruence.
  - intros Hs He Hid. unfold stored_after.
    rewrite run_cancel, He, Hr, Hid, Hs. simpl.
    rewrite bool_decide_eq_true_2 by reflexivity. simpl.
    split; [reflexivity|].
    rewrite get_transition, Hr. simpl.
    rewrite (get_req_id d i r Hr), Z.eqb_refl. reflexivity.
Qed.

Lemma rejected_and_cancelled_are_terminal_witness :
  status_of (stored_after (handle (Sample.as_employee 3) (OpCreate Sample.one_day))
               Sample.rejected) 1
    = Some REJECTED
  /\ status_of (stored_after (api_cancel_request (Sample.as_employee 3) 1) Sample.approved) 1
    = Some CANCELLED.
Proof.
  pose (r := new_request (Sample.as_employee 3) 3 Sample.one_day Sample.empty).
  split; unfold status_of.
  - rewrite (proj2 (proj1 (rejected_and_cancelled_are_terminal (Sample.as_employee 3)
                             Sample.rejected 1 (set_status REJECTED r) eq_refl)
                      eq_refl (OpCreate Sample.one_day))).
    reflexivity.
  - destruct (proj2 (rejected_and_cancelled_are_terminal (Sample.as_employee 3)
                       Sample.approved 1 (set_status APPROVED r) eq_refl)
                eq_refl eq_refl eq_refl) as [_ H].
    rewrite H. reflexivity.
Defined.

(** *** Status and audit log together *)

Lemma transition_atomic (d : Db) (i : Z) (s : Status) who a cm now :
  is_Some (LeaveRequest_get d i) ->
  status_of d i <> Some s ->
  atomic_step d (transition d i s who a cm now).
Proof.
  intros Hsome Hne j. rewrite log_entries_transition.
  destruct (decide (i = j)) as [<-|Hij].
  - right. split; [|eauto].
    rewrite status_of_transition_same by exact Hsome. congruence.
  - left. unfold status_of. rewrite get_transition_other by congruence.
    rewrite app_nil_r. split; reflexivity.
Qed.

(** Cancel, approve and reject commit once, status and log entry
    together, or not at all. *)
Lemma status_change_is_atomic (c : Ctx) (o : Op) (d : Db) :
  (forall payload, o <> OpCreate payload) ->
  all_atomic d (snd (run (handle c o) d))
  /\ (length (snd (run (handle c o) d)) <= 1)%nat.
Proof.
  intros Hno. destruct o as [payload|j|j|j cm]; simpl.
  - exfalso. exact (Hno payload eq_refl).
  - rewrite run_cancel.
    destruct (require_employee c); simpl; [|auto].
    destruct (LeaveRequest_get d j) as [r|] eqn:Hr; simpl; [|auto].
    destruct (bool_decide (Some (employee_id r) = current_employee_id c)); simpl; [|auto].
    destruct (cancellable (status r)) eqn:Hc; simpl; [|auto].
    split; [|lia]. split; [|exact I].
    apply transition_atomic; [eauto|].
    unfold status_of. rewrite Hr. simpl. intros [= E]. rewrite E in Hc. discriminate.
  - rewrite run_approve.
    destruct (require_admin c); simpl; [|auto].
    destruct (pending d j) eqn:Hp; simpl; [|auto].
    split; [|lia]. split; [|exact I].
    apply pending_spec in Hp as (r & Hr & Hs).
    apply transition_atomic; [eauto|].
    unfold status_of. rewrite Hr. simpl. rewrite Hs. discriminate.
  - rewrite run_reject.
    destruct (require_admin c); simpl; [|auto].
    destruct (no_comment cm); simpl; [auto|].
    destruct (pending d j) eqn:Hp; simpl; [|auto].
    split; [|lia]. split; [|exact I].
    apply pending_spec in Hp as (r & Hr & Hs).
    apply transition_atomic; [eauto|].
    unfold status_of. rewrite Hr. simpl. rewrite Hs. discriminate.
Qed.

(** An operation that does not answer with success has committed
    nothing. *)
Lemma failure_stores_nothing (c : Ctx) (o : Op) (d : Db) :
  (forall s, fst (run (handle c o) d) <> Returned (Json s)) ->
  snd (run (handle c o) d) = [].
Proof.
  intros Hf. destruct o as [payload|j|j|j cm]; simpl in *.
  - rewrite run_create in *.
    destruct (require_employee c); simpl in *; [|reflexivity].
    destruct (LeaveType_get d (pl_leave_type_id payload)); simpl in *; [|reflexivity].
    destruct (current_employee_id c); simpl in *; [|reflexivity].
    destruct (in_int64 (pl_requested_minutes payload)); simpl in *; [|reflexivity].
    exfalso. exact (Hf _ eq_refl).
  - rewrite run_cancel in *.
    destruct (require_employee c); simpl in *; [|reflexivity].
    destruct (LeaveRequest_get d j) as [r|]; simpl in *; [|reflexivity].
    destruct (bool_decide (Some (employee_id r) = current_employee_id c));
      simpl in *; [|reflexivity].
    destruct (cancellable (status r)); simpl in *; [|reflexivity].
    exfalso. exact (Hf _ eq_refl).
  - rewrite run_approve in *.
    destruct (require_admin c); simpl in *; [|reflexivity].
    destruct (pending d j); simpl in *; [|reflexivity].
    exfalso. exact (Hf _ eq_refl).
  - rewrite run_reject in *.
    destruct (require_admin c); simpl in *; [|reflexivity].
    destruct (no_comment cm); simpl in *; [reflexivity|].
    destruct (pending d j); simpl in *; [|reflexivity].
    exfalso. exact (Hf _ eq_refl).
Qed.

(** C5, where the code departs from it.  [api_create_request] commits
    twice: the first snapshot holds the new request in status PENDING
    and no log entry for it, and the CREATE entry comes with the second
    commit only.  The two are not applied as one unit. *)
Theorem create_commits_request_before_log :
  let snapshots :=
    snd (run (handle (Sample.as_employee 3) (OpCreate Sample.one_day)) Sample.empty) in
  exists d1 d2,
    snapshots = [d1; d2]
    /\ status_of Sample.empty 1 = None
    /\ status_of d1 1 = Some PENDING
    /\ log_entries d1 1 = []
    /\ length (log_entries d2 1) = 1%nat
    /\ ~ all_atomic Sample.empty snapshots.
Proof.
  eexists. eexists. split; [reflexivity|].
  split; [reflexivity|]. split; [reflexivity|]. split; [reflexivity|].
  split; [reflexivity|].
  intros [H _]. destruct (H 1) as [[E _]|[_ [l E]]].
  - discriminate E.
  - destruct (log_entries Sample.empty 1); discriminate E.
Qed.

(** ** Ledger *)

(** *** The year window *)

Lemma in_window_spec (y : Z) (t : datetime) :
  valid_datetime t ->
  in_window y t = true <-> dt_year t = y /\ ~ after_last_second t.
Proof.
  destruct t as [ty tm td th tmi ts tu].
  unfold valid_datetime, after_last_second, in_window, dt_leb, year_start, year_end.
  cbn [dt_fields dt_year dt_month dt_day dt_hour dt_minute dt_second dt_microsecond
       lex_compare].
  intros (Hm & Hd & Hh & Hmi & Hs & Hu).
  rewrite andb_true_iff.
  repeat match goal with
         | |- context [?a ?= ?b] =>
             let E := fresh "E" in
             destruct (Z.compare_spec a b) as [E|E|E]; try lia; cbv iota
         end;
    (split; [intros [? ?]; try discriminate; split; lia
            |intros [? ?]; try lia; split; reflexivity]).
Qed.

(** *** Minutes used, per leave-type code *)

Lemma accumulate_returned (d : Db) (rs : list LeaveRequest) (used used' : gmap string Z) :
  accumulate d used rs = Returned used' ->
  forall c, default 0 (used' !! c) = default 0 (used !! c) + minutes_with_code d c rs.
Proof.
  revert used. induction rs as [|r rs IH]; intros used; simpl.
  - intros [= <-] c. unfold minutes_with_code. simpl. lia.
  - destruct (LeaveType_get d (leave_type_id r)) as [t|] eqn:Ht; [|discriminate].
    intros H c. rewrite (IH _ H c).
    unfold minutes_with_code, code_of.
    destruct (decide (code t = c)) as [<-|Hne].
    + rewrite lookup_insert_eq. simpl.
      rewrite filter_cons_True by (rewrite Ht; reflexivity). simpl. lia.
    + rewrite lookup_insert_ne by exact Hne.
      rewrite filter_cons_False by (rewrite Ht; simpl; congruence). lia.
Qed.

(** The loop finishes when every request refers to a leave type of the
    table, and only then. *)
Lemma accumulate_total (d : Db) (rs : list LeaveRequest) (used : gmap string Z) :
  Forall (fun r => is_Some (LeaveType_get d (leave_type_id r))) rs ->
  exists used', accumulate d used rs = Returned used'.
Proof.
  intros Hall. revert used.
  induction Hall as [|r rs [t Ht] _ IH]; intros used; simpl; [eauto|].
  rewrite Ht. apply IH.
Qed.

Lemma accumulate_raises (d : Db) (rs : list LeaveRequest) (used : gmap string Z) (e : exn) :
  accumulate d used rs = Raised e ->
  e = AttributeError /\ Exists (fun r => LeaveType_get d (leave_type_id r) = None) rs.
Proof.
  revert used. induction rs as [|r rs IH]; intros used; simpl; [discriminate|].
  destruct (LeaveType_get d (leave_type_id r)) eqn:Ht.
  - intros H. destruct (IH _ H) as [-> Hex]. split; [reflexivity|]. right. exact Hex.
  - intros [= <-]. split; [reflexivity|]. left. exact Ht.
Qed.

Lemma used_init_zero (c : string) : default 0 (used_init !! c) = 0.
Proof.
  unfold used_init.
  repeat (rewrite lookup_insert; case_decide; [reflexivity|]).
  rewrite lookup_empty. reflexivity.
Qed.

(** *** The policy reads inside a session *)

Lemma get_policy_tx (k : string) (tx : Tx) :
  get_policy k tx = (Returned (policy_value (view tx) k), after_get_policy k tx).
Proof.
  unfold get_policy, policy_value, after_get_policy, bind, query. simpl.
  destruct (LeavePolicy_first (view tx) k); reflexivity.
Qed.

Lemma after_get_policy_view (k : string) (tx : Tx) :
  exists ps, view (after_get_policy k tx) = with_policies (view tx) ps.
Proof.
  unfold after_get_policy.
  destruct (LeavePolicy_first (view tx) k).
  - exists (policies (view tx)). destruct (view tx). reflexivity.
  - eexists. reflexivity.
Qed.

(** *** The summary, step by step *)

Lemma run_inv {A} (h : M A) (d : Db) (o : outcome A) (cs : list Db) :
  run h d = (o, cs) ->
  exists tx, h {| view := d; commits := [] |} = (o, tx) /\ commits tx = cs.
Proof.
  unfold run. destruct (h _) as [o' tx]. intros [= <- <-]. eauto.
Qed.

(** One step of a handler in hypothesis [H]: a policy read is replaced
    by its result, or the next test is split in its cases; the cases
    that contradict [H] are closed. *)
Ltac step_in H :=
  first
    [ rewrite get_policy_tx in H
    | match type of H with
      | context [match ?x with _ => _ end] =>
          lazymatch x with
          | context [match _ with _ => _ end] => fail
          | _ => destruct x eqn:?
          end
      end ];
  cbv beta iota zeta in H; cbn [view] in H; try discriminate H.

Lemma make_date_returned (y m d : Z) (x : date) :
  make_date y m d = Returned x -> x = Date y m d.
Proof.
  unfold make_date. destruct (_ && _); [congruence|].
  destruct (in_c_int y); discriminate.
Qed.

Lemma make_datetime_returned (y mo d h mi s : Z) (x : datetime) :
  make_datetime y mo d h mi s = Returned x -> x = Datetime y mo d h mi s 0.
Proof.
  unfold make_datetime. destruct (_ && _); [congruence|].
  destruct (in_c_int y); discriminate.
Qed.

Lemma used_of_accumulate (d : Db) (ps : list LeavePolicy) (e y : Z)
    (used : gmap string Z) (c : string) :
  accumulate (with_policies d ps) used_init
    (approved_in (with_policies d ps) e (year_start y) (year_end y)) = Returned used ->
  default 0 (used !! c) = used_minutes d e y c.
Proof.
  intros H. rewrite (accumulate_returned _ _ _ _ H c), used_init_zero. reflexivity.
Qed.

(** What a summary that is returned holds: the minutes of the employee's
    APPROVED requests that start in the window of the year, per code,
    divided by [workday_minutes] and rounded; and for ANNUAL and SICK the
    rounded difference of granted and used days, which is not cut at
    zero. *)
Lemma summary_returned (c : Ctx) (year : option Z) (d : Db) (s : Summary) (cs : list Db) :
  run (api_my_summary c year) d = (Returned (Json s), cs) ->
  exists emp,
    let y := year_of c year in
    let wm := sum_workday_minutes s in
    require_employee c = true
    /\ Employee_get d (current_employee_id c) = Some emp
    /\ sum_year s = y
    /\ int_of_str (str_or (policy_value d "workday_minutes") "480") = Returned wm
    /\ annual_granted_days s
       = calculate_annual_leave_days (today c) (join_date emp) (Some (Date y 12 31))
    /\ minutes_to_days wm (used_minutes d (emp_id emp) y "ANNUAL")
       = Returned (annual_used_days s)
    /\ minutes_to_days wm (used_minutes d (emp_id emp) y "SICK")
       = Returned (sick_used_days s)
    /\ minutes_to_days wm (used_minutes d (emp_id emp) y "EVENT")
       = Returned (event_used_days s)
    /\ minutes_to_days wm (used_minutes d (emp_id emp) y "PUBLIC")
       = Returned (public_used_days s)
    /\ remaining (annual_granted_days s) (annual_used_days s)
       = Returned (annual_remaining_days s)
    /\ remaining (sick_granted_days s) (sick_used_days s)
       = Returned (sick_remaining_days s)
    /\ pending_count s = count_status d (emp_id emp) PENDING
    /\ rejected_count s = count_status d (emp_id emp) REJECTED.
Proof.
  intros H. apply run_inv in H as (tx & H & <-). unfold api_my_summary in H.
  fold (year_of c year) in H. set (y := year_of c year) in *.
  destruct (require_employee c) eqn:He; cbn [negb] in H; cbv iota in H.
  2:{ cbv in H. discriminate H. }
  unfold bind, query, lift, ret, raise in H.
  repeat step_in H.
  injection H as <- <-.
  match goal with E : make_date _ _ _ = _ |- _ => apply make_date_returned in E as -> end.
  repeat match goal with
         | E : make_datetime _ _ _ _ _ _ = _ |- _ => apply make_datetime_returned in E as ->
         end.
  destruct (after_get_policy_view "workday_minutes" {| view := d; commits := [] |})
    as [ps1 E1].
  destruct (after_get_policy_view "sick_default_days"
              (after_get_policy "workday_minutes" {| view := d; commits := [] |}))
    as [ps2 E2].
  rewrite E1 in E2. cbn [view] in E2.
  change (with_policies (with_policies d ps1) ps2) with (with_policies d ps2) in E2.
  rewrite E2 in *.
  fold (year_start y) (year_end y) in *.
  match goal with E : accumulate _ _ _ = _ |- _ => rename E into Hacc end.
  eexists. cbn [sum_year sum_workday_minutes annual_granted_days annual_used_days
                annual_remaining_days sick_granted_days sick_used_days
                sick_remaining_days event_used_days public_used_days
                pending_count rejected_count].
  rewrite <- !(used_of_accumulate d ps2 _ y _ _ Hacc).
  repeat split; try eassumption; reflexivity.
Qed.

(** *** Division by the workday length *)

Lemma minutes_to_days_zero (m : Z) : minutes_to_days 0 m = Raised ZeroDivisionError.
Proof. unfold minutes_to_days, truediv. destruct m; reflexivity. Qed.

Lemma minutes_to_days_nonzero (w m : Z) (x : float) :
  minutes_to_days w m = Returned x -> w <> 0.
Proof. intros H ->. rewrite minutes_to_days_zero in H. discriminate. Qed.

Lemma str_or_cases (v dflt : string) :
  (v = "" /\ str_or v dflt = dflt) \/ (v <> "" /\ str_or v dflt = v).
Proof.
  unfold str_or. destruct (String.eqb_spec v ""); [left|right]; auto.
Qed.

(** The same step as [step_in], on the goal. *)
Ltac step :=
  first
    [ rewrite get_policy_tx
    | match goal with
      | |- context [match ?x with _ => _ end] =>
          lazymatch x with
          | context [match _ with _ => _ end] => fail
          | _ => destruct x eqn:?
          end
      end ];
  cbv beta iota zeta; cbn [view fst].

Section Workday.
Variables (c : Ctx) (year : option Z) (d : Db).

(** The value [get_policy] finds, or creates, for the workday length. *)
Let v : string := policy_value d "workday_minutes".

(** C10, as the code has it.  The summary divides by the workday policy
    without a test for zero.  It returns a summary only if the stored
    value is empty, in which case 480 is used, or is read by [int] as a
    number other than zero ([int] reads the decimal digits of every
    script, fullwidth ones too).  For an employee session, a value that is
    not empty and that [int] refuses makes it raise [ValueError], and a
    value that reads as 0 makes it raise too; no error response is
    returned in either case. *)
Theorem summary_needs_workday_minutes :
  (forall s cs,
     run (api_my_summary c year) d = (Returned (Json s), cs) ->
     (v = "" /\ sum_workday_minutes s = 480)
     \/ (py_int v = Some (sum_workday_minutes s) /\ sum_workday_minutes s <> 0))
  /\ (require_employee c = true -> v <> "" -> py_int v = None ->
      fst (run (api_my_summary c year) d) = Raised ValueError)
  /\ (require_employee c = true -> py_int v = Some 0 ->
      exists e, fst (run (api_my_summary c year) d) = Raised e).
Proof.
  split; [|split].
  - intros s cs H.
    destruct (summary_returned c year d s cs H)
      as (emp & _ & _ & _ & Hwm & _ & Hdiv & _).
    apply minutes_to_days_nonzero in Hdiv.
    fold v in Hwm. unfold int_of_str in Hwm.
    destruct (str_or_cases v "480") as [[Hv E]|[Hv E]]; rewrite E in Hwm.
    + left. split; [exact Hv|].
      change (py_int "480") with (Some 480) in Hwm. congruence.
    + right. destruct (py_int v); [|discriminate]. split; congruence.
  - intros He Hv Hp. unfold run, api_my_summary. rewrite He. cbn [negb].
    unfold bind, query, lift, ret, raise.
    rewrite get_policy_tx. cbn [view]. fold v.
    destruct (str_or_cases v "480") as [[Hv' E]|[_ E]]; [contradiction|].
    rewrite E. unfold int_of_str. rewrite Hp. reflexivity.
  - intros He Hp. unfold run, api_my_summary. rewrite He. cbn [negb].
    unfold bind, query, lift, ret, raise.
    rewrite get_policy_tx. cbn [view]. fold v.
    assert (E : str_or v "480" = v).
    { destruct (str_or_cases v "480") as [[Hv' _]|[_ E]]; [|exact E].
      rewrite Hv' in Hp. vm_compute in Hp. discriminate. }
    rewrite E. unfold int_of_str. rewrite Hp. cbv beta iota.
    repeat (step;
            try match goal with
                | E : minutes_to_days 0 _ = Returned _ |- _ =>
                    rewrite minutes_to_days_zero in E; discriminate E
                end);
      eauto.
Qed.
End Workday.

Lemma summary_needs_workday_minutes_witness :
  fst (run (api_my_summary (Sample.as_employee 3) (Some 2025))
         (Sample.with_workday "8 hours" Sample.approved))
    = Raised ValueError
  /\ (exists e,
        fst (run (api_my_summary (Sample.as_employee 3) (Some 2025))
               (Sample.with_workday "0" Sample.approved))
        = Raised e)
  /\ (exists s cs,
        run (api_my_summary (Sample.as_employee 3) (Some 2025))
          (Sample.with_workday "240" Sample.approved)
        = (Returned (Json s), cs)
        /\ sum_workday_minutes s <> 0)
  /\ (exists s cs,
        run (api_my_summary (Sample.as_employee 3) (Some 2025))
          (Sample.with_workday "４８０" Sample.approved)
        = (Returned (Json s), cs)
        /\ sum_workday_minutes s = 480).
Proof.
  split; [|split; [|split]].
  - apply (summary_needs_workday_minutes (Sample.as_employee 3) (Some 2025)
             (Sample.with_workday "8 hours" Sample.approved)).
    + reflexivity.
    + discriminate.
    + reflexivity.
  - apply (summary_needs_workday_minutes (Sample.as_employee 3) (Some 2025)
             (Sample.with_workday "0" Sample.approved)).
    + reflexivity.
    + reflexivity.
  - destruct (run (api_my_summary (Sample.as_employee 3) (Some 2025))
                (Sample.with_workday "240" Sample.approved)) as [o cs] eqn:E.
    destruct o as [[s|http msg]|e]; try (vm_compute in E; discriminate E).
    exists s, cs. split; [reflexivity|].
    destruct (proj1 (summary_needs_workday_minutes (Sample.as_employee 3) (Some 2025)
                       (Sample.with_workday "240" Sample.approved)) s cs E)
      as [[Hv _]|[_ Hnz]].
    + discriminate Hv.
    + exact Hnz.
  - destruct (run (api_my_summary (Sample.as_employee 3) (Some 2025))
                (Sample.with_workday "４８０" Sample.approved)) as [o cs] eqn:E.
    destruct o as [[s|http msg]|e]; try (vm_compute in E; discriminate E).
    exists s, cs. split; [reflexivity|].
    destruct (proj1 (summary_needs_workday_minutes (Sample.as_employee 3) (Some 2025)
                       (Sample.with_workday "４８０" Sample.approved)) s cs E)
      as [[Hv _]|[Hp _]].
    + discriminate Hv.
    + change (policy_value (Sample.with_workday "４８０" Sample.approved) "workday_minutes")
        with "４８０" in Hp.
      change (py_int "４８０") with (Some 480) in Hp. congruence.
Defined.

(** With the value "0" and nothing else amiss, the exception is the
    division's. *)
Example summary_divides_by_zero :
  fst (run (api_my_summary (Sample.as_employee 3) (Some 2025))
         (Sample.with_workday "0" Sample.approved))
  = Raised ZeroDivisionError.
Proof. vm_compute. reflexivity. Qed.

(** An empty value is not a number, and the summary is computed with
    480 minutes. *)
Lemma summary_with_empty_workday :
  py_int "" = None
  /\ (exists s cs,
        run (api_my_summary (Sample.as_employee 3) (Some 2025))
          (Sample.with_workday "" Sample.approved)
        = (Returned (Json s), cs)
        /\ sum_workday_minutes s = 480
        /\ annual_used_days s = of_hundredths 100)
  /\ ~ summary_requires_nonzero_integer.
Proof.
  assert (H : exists s cs,
             run (api_my_summary (Sample.as_employee 3) (Some 2025))
               (Sample.with_workday "" Sample.approved)
             = (Returned (Json s), cs)
             /\ sum_workday_minutes s = 480
             /\ annual_used_days s = of_hundredths 100).
  { eexists. eexists. split; [vm_compute; reflexivity|]. split; reflexivity. }
  split; [reflexivity|]. split; [exact H|].
  intros Hall. destruct H as (s & cs & H & _).
  destruct (Hall _ _ _ _ _ H) as (z & Hz & _).
  discriminate Hz.
Qed.

(** *** The calendar year *)

(** The window of the query is the calendar year as long as no request
    starts after 23:59:59.000000 on its last day. *)
Lemma window_is_calendar_year (d : Db) (e y : Z) :
  Forall (fun r => valid_datetime (start_dt r) /\ ~ after_last_second (start_dt r))
         (requests d) ->
  approved_in d e (year_start y) (year_end y) = approved_in_year d e y.
Proof.
  unfold approved_in, approved_in_year.
  induction 1 as [|r rs [Hv Hl] _ IH]; [reflexivity|].
  pose proof (in_window_spec y (start_dt r) Hv) as Hw. unfold in_window in Hw.
  rewrite !filter_cons, IH.
  destruct (decide _) as [H1|H1], (decide _) as [H2|H2]; try reflexivity; exfalso.
  - apply H2. rewrite !andb_true_iff in H1.
    destruct H1 as [[[Ha Hb] Hc] Hd].
    apply Z.eqb_eq in Ha. apply bool_decide_eq_true in Hb.
    assert (Hy : dt_year (start_dt r) = y)
      by (apply Hw; rewrite Hc, Hd; reflexivity).
    auto.
  - apply H1. destruct H2 as (He & Hs & Hy).
    assert (Hin : dt_leb (year_start y) (start_dt r) && dt_leb (start_dt r) (year_end y) = true)
      by (apply Hw; auto).
    apply andb_true_iff in Hin as [Hc Hd].
    rewrite Hc, Hd, (bool_decide_eq_true_2 _ Hs), (proj2 (Z.eqb_eq _ _) He). reflexivity.
Qed.

(** X27.  So the used days of a returned summary are those of the
    calendar year, unless a request starts in that last fraction of a
    second: when no stored request does, the summary divides, for each
    code, the minutes of the employee's APPROVED requests that start in
    the year. *)
Lemma summary_by_calendar_year (c : Ctx) (year : option Z) (d : Db) (s : Summary)
    (cs : list Db) :
  Forall (fun r => valid_datetime (start_dt r) /\ ~ after_last_second (start_dt r))
         (requests d) ->
  run (api_my_summary c year) d = (Returned (Json s), cs) ->
  exists emp,
    let y := year_of c year in
    let wm := sum_workday_minutes s in
    Employee_get d (current_employee_id c) = Some emp
    /\ minutes_to_days wm (used_in_year d (emp_id emp) y "ANNUAL")
       = Returned (annual_used_days s)
    /\ minutes_to_days wm (used_in_year d (emp_id emp) y "SICK")
       = Returned (sick_used_days s)
    /\ minutes_to_days wm (used_in_year d (emp_id emp) y "EVENT")
       = Returned (event_used_days s)
    /\ minutes_to_days wm (used_in_year d (emp_id emp) y "PUBLIC")
       = Returned (public_used_days s).
Proof.
  intros Hall H.
  destruct (summary_returned c year d s cs H)
    as (emp & _ & He & _ & _ & _ & Ha & Hs & Hv & Hp & _).
  exists emp. unfold used_in_year.
  rewrite <- (window_is_calendar_year d (emp_id emp) (year_of c year) Hall).
  auto.
Qed.

(** C3, where the code departs from it.  Request 1 of employee 3 is
    APPROVED, for 480 minutes of ANNUAL leave, and starts in 2025, at
    23:59:59.5 on December 31.  With a workday of 480 minutes its used
    days are 1.00, but the summary of 2025 reports 0.0 used days: the
    query stops at 23:59:59.000000.  The summary of 2026 does not count
    it either. *)
Theorem summary_skips_last_second :
  let d := Sample.end_of_year in
  let c := Sample.as_employee 3 in
  (exists r,
     LeaveRequest_get d 1 = Some r
     /\ employee_id r = 3 /\ status r = APPROVED
     /\ start_dt r = Datetime 2025 12 31 23 59 59 500000
     /\ valid_datetime (start_dt r))
  /\ used_in_year d 3 2025 "ANNUAL" = 480
  /\ minutes_to_days 480 (used_in_year d 3 2025 "ANNUAL") = Returned (of_hundredths 100)
  /\ (exists s cs,
        run (api_my_summary c (Some 2025)) d = (Returned (Json s), cs)
        /\ sum_workday_minutes s = 480
        /\ annual_used_days s = of_hundredths 0)
  /\ (exists s cs,
        run (api_my_summary c (Some 2026)) d = (Returned (Json s), cs)
        /\ annual_used_days s = of_hundredths 0).
Proof.
  split; [|split; [|split; [|split]]].
  - eexists. split; [reflexivity|].
    repeat split; vm_compute; congruence.
  - reflexivity.
  - vm_compute. reflexivity.
  - eexists. eexists. split; [vm_compute; reflexivity|]. split; reflexivity.
  - eexists. eexists. split; [vm_compute; reflexivity|]. reflexivity.
Qed.

(** The examples of the specification: 960 approved minutes with a
    workday of 480 are 2.00 used days, and the employee who joined on
    2021-07-01 has 16 days in 2025, of which 15.00 remain after one
    approved day. *)
Example ledger_two_days :
  minutes_to_days 480 960 = Returned (of_hundredths 200)
  /\ remaining 16 (of_hundredths 200) = Returned (of_hundredths 1400).
Proof. split; vm_compute; reflexivity. Qed.

Example summary_end_to_end :
  exists s cs,
    run (api_my_summary (Sample.as_employee 3) (Some 2025)) Sample.approved
      = (Returned (Json s), cs)
    /\ annual_granted_days s = 16
    /\ annual_used_days s = of_hundredths 100
    /\ annual_remaining_days s = of_hundredths 1500
    /\ sick_remaining_days s = of_hundredths 1000.
Proof.
  eexists. eexists. split; [vm_compute; reflexivity|].
  repeat split; vm_compute; reflexivity.
Qed.

(** The remaining days are not cut at zero. *)
Example remaining_goes_negative :
  minutes_to_days 480 5760 = Returned (of_hundredths 1200)
  /\ remaining 10 (of_hundredths 1200) = Returned (of_hundredths (-200)).
Proof. split; vm_compute; reflexivity. Qed.

(** The rounding is that of the double nearest to the quotient, ties to
    the even hundredth: 203 / 200 gives 1.01 and 1 / 8 gives 0.12. *)
Example minutes_to_days_rounding :
  minutes_to_days 200 203 = Returned (of_hundredths 101)
  /\ minutes_to_days 8 1 = Returned (of_hundredths 12)
  /\ minutes_to_days 8 3 = Returned (of_hundredths 38).
Proof. repeat split; vm_compute; reflexivity. Qed.

(** * Further properties *)

(** ** Accrual calculator *)

(** X1.  For an as-of date not before the join month, the entitlement
    lies between 0 and 25 days and never goes down as the months go by. *)
Theorem entitlement_grows_with_tenure (today_ join a a' : date) :
  0 <= tenure_months join a <= tenure_months join a' ->
  0 <= calculate_annual_leave_days today_ join (Some a)
    <= calculate_annual_leave_days today_ join (Some a')
  /\ calculate_annual_leave_days today_ join (Some a') <= 25.
Proof.
  unfold calculate_annual_leave_days, tenure_months.
  set (m := (d_year a - d_year join) * 12 + (d_month a - d_month join)).
  set (m' := (d_year a' - d_year join) * 12 + (d_month a' - d_month join)).
  intros [H0 Hle].
  assert (Hy : m / 12 <= m' / 12) by (apply Z.div_le_mono; lia).
  assert (H0y : 0 <= m / 12) by (apply Z.div_pos; lia).
  destruct (m / 12 =? 0) eqn:E, (m' / 12 =? 0) eqn:E'.
  - lia.
  - apply Z.eqb_eq in E. apply Z.eqb_neq in E'.
    assert (0 <= (m' / 12 - 1) / 2) by (apply Z.div_pos; lia). lia.
  - apply Z.eqb_neq in E. apply Z.eqb_eq in E'. lia.
  - apply Z.eqb_neq in E. apply Z.eqb_neq in E'.
    assert (0 <= (m / 12 - 1) / 2) by (apply Z.div_pos; lia).
    assert ((m / 12 - 1) / 2 <= (m' / 12 - 1) / 2) by (apply Z.div_le_mono; lia).
    lia.
Qed.

Lemma entitlement_grows_with_tenure_witness :
  0 <= calculate_annual_leave_days (Date 2025 6 1) (Date 2021 7 1) (Some (Date 2022 6 30))
    <= calculate_annual_leave_days (Date 2025 6 1) (Date 2021 7 1) (Some (Date 2022 7 1))
  /\ calculate_annual_leave_days (Date 2025 6 1) (Date 2021 7 1) (Some (Date 2022 7 1)) <= 25.
Proof.
  apply (entitlement_grows_with_tenure (Date 2025 6 1) (Date 2021 7 1)
           (Date 2022 6 30) (Date 2022 7 1)).
  vm_compute. split; discriminate.
Defined.

(** X2.  For a join month after the as-of month the years are
    negative and enter the formula of the later years: the entitlement
    is 15 + (years - 1) / 2 with the floor divisions of Python.  That is
    14 days up to twelve months ahead and never more than 14; it goes
    down by a day for every two years further ahead, is zero or less
    exactly from 325 months ahead and negative exactly from 349 months
    ahead. *)
Theorem entitlement_before_joining (today_ join a : date) :
  tenure_months join a < 0 ->
  calculate_annual_leave_days today_ join (Some a)
    = 15 + (tenure_months join a / 12 - 1) / 2
  /\ calculate_annual_leave_days today_ join (Some a) <= 14
  /\ (-12 <= tenure_months join a -> calculate_annual_leave_days today_ join (Some a) = 14)
  /\ (calculate_annual_leave_days today_ join (Some a) <= 0
      <-> tenure_months join a < -324)
  /\ (calculate_annual_leave_days today_ join (Some a) < 0
      <-> tenure_months join a < -348).
Proof.
  unfold calculate_annual_leave_days, tenure_months.
  set (m := (d_year a - d_year join) * 12 + (d_month a - d_month join)).
  intros Hm.
  assert (Hy : m / 12 <= -1) by (Z.div_mod_to_equations; lia).
  destruct (m / 12 =? 0) eqn:E; [apply Z.eqb_eq in E; lia|].
  assert (H2 : (m / 12 - 1) / 2 <= -1) by (Z.div_mod_to_equations; lia).
  split; [lia|]. split; [lia|]. split; [|split].
  - intros H12.
    assert (H1 : m / 12 = -1) by (Z.div_mod_to_equations; lia).
    rewrite H1. reflexivity.
  - rewrite Z.min_l by lia. Z.div_mod_to_equations. lia.
  - rewrite Z.min_l by lia. Z.div_mod_to_equations. lia.
Qed.

(** An employee who joins on 2025-02-10: 14 days as of the end of 2024,
    no day as of the end of 1997, one day less than none as of the end
    of 1995. *)
Lemma entitlement_before_joining_witness :
  calculate_annual_leave_days (Date 2025 6 1) (Date 2026 3 1) (Some (Date 2025 12 31)) = 14
  /\ calculate_annual_leave_days (Date 2025 6 1) (Date 2025 2 10) (Some (Date 1997 12 31)) <= 0
  /\ calculate_annual_leave_days (Date 2025 6 1) (Date 2025 2 10) (Some (Date 1995 12 31)) < 0.
Proof.
  split; [|split].
  - apply (entitlement_before_joining (Date 2025 6 1) (Date 2026 3 1) (Date 2025 12 31)).
    + reflexivity.
    + vm_compute. discriminate.
  - apply (entitlement_before_joining (Date 2025 6 1) (Date 2025 2 10) (Date 1997 12 31));
      reflexivity.
  - apply (entitlement_before_joining (Date 2025 6 1) (Date 2025 2 10) (Date 1995 12 31));
      reflexivity.
Defined.

(** ** Cancel *)

(** X3.  Called by an employee, [api_cancel_request] succeeds exactly
    when the request exists, belongs to the caller and is PENDING or
    APPROVED; it then stores status CANCELLED and one CANCEL log entry
    in a single commit.  On an own request in another status it answers
    400 "cannot cancel" and stores nothing. *)
Theorem cancel_precondition (c : Ctx) (i : Z) (d : Db) :
  require_employee c = true ->
  (fst (run (api_cancel_request c i) d) = Returned (Json Done) <-> can_cancel c d i = true)
  /\ (can_cancel c d i = true ->
      let d' := stored_after (api_cancel_request c i) d in
      run (api_cancel_request c i) d = (Returned (Json Done), [d'])
      /\ status_of d' i = Some CANCELLED
      /\ exists l, log_entries d' i = log_entries d i ++ [l]
                   /\ action l = CANCEL /\ acted_by l = EMPLOYEE)
  /\ (forall r, LeaveRequest_get d i = Some r ->
                Some (employee_id r) = current_employee_id c ->
                cancellable (status r) = false ->
                run (api_cancel_request c i) d = (Returned (Err 400 "cannot cancel"), [])).
Proof.
  intros He. unfold stored_after, can_cancel. rewrite run_cancel, He. simpl.
  destruct (LeaveRequest_get d i) as [r|] eqn:Hr; simpl.
  - destruct (bool_decide (Some (employee_id r) = current_employee_id c)) eqn:Ho; simpl.
    + destruct (cancellable (status r)) eqn:Hc; simpl.
      * split; [tauto|]. split.
        -- intros _. split; [reflexivity|]. split.
           ++ apply status_of_transition_same. rewrite Hr. eauto.
           ++ rewrite log_entries_transition. rewrite decide_True by reflexivity.
              eexists. split; [reflexivity|]. split; reflexivity.
        -- intros r' [= <-] _ H. congruence.
      * split; [split; discriminate|]. split; [discriminate|].
        intros r' [= <-] _ _. reflexivity.
    + split; [split; discriminate|]. split; [discriminate|].
      intros r' [= <-] Ho'. apply bool_decide_eq_false in Ho. contradiction.
  - unfold refusal. destruct (in_int64 i); cbn [fst];
      (split; [split; discriminate|]; split; [discriminate|]; intros r' H; discriminate H).
Qed.

Lemma cancel_precondition_witness :
  status_of (stored_after (api_cancel_request (Sample.as_employee 3) 1) Sample.requested) 1
    = Some CANCELLED
  /\ run (api_cancel_request (Sample.as_employee 3) 1) Sample.rejected
     = (Returned (Err 400 "cannot cancel"), []).
Proof.
  pose proof (cancel_precondition (Sample.as_employee 3) 1 Sample.requested eq_refl)
    as (_ & H & _).
  pose proof (cancel_precondition (Sample.as_employee 3) 1 Sample.rejected eq_refl)
    as (_ & _ & H').
  split.
  - apply (H eq_refl).
  - apply (H' (set_status REJECTED
                 (new_request (Sample.as_employee 3) 3 Sample.one_day Sample.empty)));
      reflexivity.
Defined.

(** ** Who may call what *)

Lemma admin_is_no_employee (c : Ctx) :
  require_admin c = true -> require_employee c = false.
Proof.
  unfold require_admin, require_employee. intros H.
  apply bool_decide_eq_true in H. rewrite H. reflexivity.
Qed.

(** X4.  A session that is not the administrator's is answered 401
    "unauthorized" by every administrator API and sent to the login page
    by every administrator page; nothing is read from the request and
    nothing is stored. *)
Theorem admin_endpoints_refuse_others {V : Type} (str : V -> string) (c : Ctx) (d : Db) :
  require_admin c = false ->
  (forall i, run (api_admin_approve c i) d = (Returned (Err 401 "unauthorized"), []))
  /\ (forall i comment,
        run (api_admin_reject c i comment) d = (Returned (Err 401 "unauthorized"), []))
  /\ run (api_admin_dashboard c) d = (Returned (Err 401 "unauthorized"), [])
  /\ (forall status_arg,
        run (api_admin_inbox c status_arg) d = (Returned (Err 401 "unauthorized"), []))
  /\ run (api_admin_employees c) d = (Returned (Err 401 "unauthorized"), [])
  /\ (forall p,
        run (api_admin_add_employee c p) d = (Returned (Err 401 "unauthorized"), []))
  /\ (forall r,
        run (api_admin_policies str c r) d = (Returned (Err 401 "unauthorized"), []))
  /\ (forall page, admin_page page c = Redirect to_login).
Proof.
  intros H.
  unfold run, api_admin_approve, api_admin_reject, api_admin_dashboard, api_admin_inbox,
    api_admin_employees, api_admin_add_employee, api_admin_policies, admin_page.
  rewrite H. simpl. repeat split.
Qed.

Lemma admin_endpoints_refuse_others_witness :
  run (api_admin_approve (Sample.as_employee 3) 1) Sample.requested
    = (Returned (Err 401 "unauthorized"), [])
  /\ run (api_admin_policies (fun v : string => v) (Sample.as_employee 3)
            (PUT_policies (<["admin_pin" := "0000"]> ∅))) Sample.requested
    = (Returned (Err 401 "unauthorized"), []).
Proof.
  pose proof (admin_endpoints_refuse_others (fun v : string => v)
                (Sample.as_employee 3) Sample.requested eq_refl)
    as (H1 & _ & _ & _ & _ & _ & H7 & _).
  split; [apply H1|apply H7].
Defined.

(** X5.  A session that is not an employee's, the administrator's
    included, is answered 401 "unauthorized" by the summary, the list of
    own requests, create and cancel, and is sent to the login page by the
    employee's home page; nothing is stored. *)
Theorem employee_endpoints_refuse_others (c : Ctx) (d : Db) :
  require_employee c = false \/ require_admin c = true ->
  (forall year, run (api_my_summary c year) d = (Returned (Err 401 "unauthorized"), []))
  /\ (forall status_arg,
        run (api_my_requests c status_arg) d = (Returned (Err 401 "unauthorized"), []))
  /\ (forall payload,
        run (api_create_request c payload) d = (Returned (Err 401 "unauthorized"), []))
  /\ (forall i, run (api_cancel_request c i) d = (Returned (Err 401 "unauthorized"), []))
  /\ my_home c = Redirect to_login.
Proof.
  intros H.
  assert (He : require_employee c = false)
    by (destruct H as [H|H]; [exact H|exact (admin_is_no_employee c H)]).
  unfold run, api_my_summary, api_my_requests, api_create_request, api_cancel_request,
    my_home.
  rewrite He. simpl. repeat split.
Qed.

Lemma employee_endpoints_refuse_others_witness :
  run (api_cancel_request Sample.as_admin 1) Sample.requested
    = (Returned (Err 401 "unauthorized"), [])
  /\ run (api_my_summary (with_session Sample.as_admin cleared) (Some 2025)) Sample.requested
    = (Returned (Err 401 "unauthorized"), []).
Proof.
  split.
  - apply (employee_endpoints_refuse_others Sample.as_admin Sample.requested).
    right. reflexivity.
  - apply (employee_endpoints_refuse_others (with_session Sample.as_admin cleared)
             Sample.requested).
    left. reflexivity.
Defined.

(** ** Login *)

Lemma run_login_employee (s : Session) (field : string) (d : Db) :
  run (login s (POST (mode_employee field))) d =
  match py_int field with
  | None => (Raised ValueError, [])
  | Some i =>
      match Employee_get d (Some i) with
      | Some emp =>
          if is_active emp
          then (Returned (employee_session i, Redirect to_my_home), [])
          else (Returned (s, RenderLoginError employee_not_found), [])
      | None => (refusal (in_int64 i) (s, RenderLoginError employee_not_found), [])
      end
  end.
Proof.
  unfold run, login, query_get, bind, lift, query, ret, int_of_str, refusal, bind_int.
  destruct (py_int field) as [i|]; [|reflexivity]. cbn [view].
  destruct (Employee_get d (Some i)) as [emp|] eqn:He;
    [|destruct (in_int64 i); reflexivity].
  destruct (is_active emp); [|reflexivity]. simpl.
  apply find_some in He as [_ He]. apply Z.eqb_eq in He. rewrite He. reflexivity.
Qed.

(** X6.  A login in employee mode opens an employee session exactly
    when the submitted id is read by [int] as the id of an employee who
    is active; the session then carries that id.  An inactive employee,
    and an id of no employee that an SQLite INTEGER can hold, get the
    login page with an error and keep the session they had.  An id that
    [int] refuses raises [ValueError], an id of no employee outside the
    64-bit range [OverflowError], and nothing is stored in any case.
    [int] reads the decimal digits of every script: the fullwidth
    digit three is the id 3. *)
Theorem employee_login (s : Session) (field : string) (d : Db) :
  let r := run (login s (POST (mode_employee field))) d in
  (forall s', fst r = Returned (s', Redirect to_my_home) <->
     exists i emp,
       py_int field = Some i /\ Employee_get d (Some i) = Some emp
       /\ is_active emp = true /\ emp_id emp = i /\ s' = employee_session i)
  /\ (forall i emp,
        py_int field = Some i -> Employee_get d (Some i) = Some emp ->
        is_active emp = false ->
        fst r = Returned (s, RenderLoginError employee_not_found))
  /\ (forall i,
        py_int field = Some i -> Employee_get d (Some i) = None -> in_int64 i = true ->
        fst r = Returned (s, RenderLoginError employee_not_found))
  /\ (forall i,
        py_int field = Some i -> Employee_get d (Some i) = None -> in_int64 i = false ->
        fst r = Raised OverflowError)
  /\ (py_int field = None -> fst r = Raised ValueError)
  /\ snd r = [].
Proof.
  cbv zeta. rewrite run_login_employee. unfold refusal.
  destruct (py_int field) as [i|]; cbn [fst snd].
  - destruct (Employee_get d (Some i)) as [emp|] eqn:He; cbn [fst snd].
    + assert (Hid : emp_id emp = i)
        by (apply find_some in He as [_ He]; lia).
      destruct (is_active emp) eqn:Ha; cbn [fst snd].
      * split; [|split; [|split; [|split; [|split; [discriminate|reflexivity]]]]].
        -- intros s'. split.
           ++ intros [= <-]. exists i, emp. auto.
           ++ intros (i' & emp' & Hi & _ & _ & _ & Hs). congruence.
        -- intros i' emp' Hi He' H. injection Hi as <-. congruence.
        -- intros i' Hi He' _. injection Hi as <-. congruence.
        -- intros i' Hi He' _. injection Hi as <-. congruence.
      * split; [|split; [|split; [|split; [|split; [discriminate|reflexivity]]]]].
        -- intros s'. split; [discriminate|].
           intros (i' & emp' & Hi & He' & Ha' & _). congruence.
        -- intros i' emp' _ _ _. reflexivity.
        -- intros i' Hi He' _. injection Hi as <-. congruence.
        -- intros i' Hi He' _. injection Hi as <-. congruence.
    + destruct (in_int64 i) eqn:Hr; cbn [fst snd];
        (split; [|split; [|split; [|split; [|split; [discriminate|reflexivity]]]]]).
      * intros s'. split; [discriminate|].
        intros (i' & emp' & Hi' & He' & _). congruence.
      * intros i' emp' Hi He' _. injection Hi as <-. congruence.
      * intros i' _ _ _. reflexivity.
      * intros i' Hi _ H. injection Hi as <-. congruence.
      * intros s'. split; [discriminate|].
        intros (i' & emp' & Hi' & He' & _). congruence.
      * intros i' emp' Hi He' _. injection Hi as <-. congruence.
      * intros i' Hi _ H. injection Hi as <-. congruence.
      * intros i' _ _ _. reflexivity.
  - split; [|split; [|split; [|split; [|split; reflexivity]]]].
    + intros s'. split; [discriminate|].
      intros (i' & emp' & Hi & _). discriminate.
    + intros i' emp' H. discriminate H.
    + intros i' H. discriminate H.
    + intros i' H. discriminate H.
Qed.

Lemma run_login_admin (s : Session) (pin : option string) (d : Db) :
  run (login s (POST (mode_admin pin))) d =
  (Returned (if String.eqb (default "" pin) (policy_value d "admin_pin")
             then (admin_session, Redirect to_admin_dashboard)
             else (s, RenderLoginError wrong_admin_pin)),
   commits (after_get_policy "admin_pin" {| view := d; commits := [] |})).
Proof.
  unfold run, login, bind, ret. rewrite get_policy_tx. cbn [view].
  destruct (String.eqb _ _); reflexivity.
Qed.

(** X7.  A login in administrator mode opens the administrator session
    exactly when the submitted PIN, the empty string if none is sent, is
    the value of the [admin_pin] policy, which is "1234" as long as the
    policy was never set.  A wrong PIN keeps the session as it was.  The
    requests, log entries, employees and leave types are not
    touched. *)
Theorem admin_login (s : Session) (pin : option string) (d : Db) :
  let r := run (login s (POST (mode_admin pin))) d in
  (fst r = Returned (admin_session, Redirect to_admin_dashboard)
   <-> default "" pin = policy_value d "admin_pin")
  /\ (default "" pin <> policy_value d "admin_pin" ->
      fst r = Returned (s, RenderLoginError wrong_admin_pin))
  /\ (LeavePolicy_first d "admin_pin" = None -> policy_value d "admin_pin" = "1234")
  /\ (forall d', In d' (snd r) ->
        (requests d', logs d', employees d', leave_types d')
        = (requests d, logs d, employees d, leave_types d)).
Proof.
  cbv zeta. rewrite run_login_admin. simpl.
  destruct (String.eqb_spec (default "" pin) (policy_value d "admin_pin")) as [E|E].
  - repeat split; try tauto.
    + intros Hn. unfold policy_value. rewrite Hn. reflexivity.
    + intros d'. unfold after_get_policy. simpl.
      destruct (LeavePolicy_first d "admin_pin"); simpl; [tauto|].
      intros [<-|[]]. reflexivity.
  - repeat split; try tauto; try discriminate.
    + intros Hn. unfold policy_value. rewrite Hn. reflexivity.
    + intros d'. unfold after_get_policy. simpl.
      destruct (LeavePolicy_first d "admin_pin"); simpl; [tauto|].
      intros [<-|[]]. reflexivity.
Qed.

Lemma admin_login_witness :
  fst (run (login cleared (POST (mode_admin (Some "1234")))) Sample.empty)
    = Returned (admin_session, Redirect to_admin_dashboard)
  /\ fst (run (login cleared (POST (mode_admin None))) Sample.empty)
    = Returned (cleared, RenderLoginError wrong_admin_pin)
  /\ policy_value Sample.empty "admin_pin" = "1234".
Proof.
  pose proof (admin_login cleared (Some "1234") Sample.empty) as (H1 & _ & H3 & _).
  pose proof (admin_login cleared None Sample.empty) as (_ & H2 & _).
  split; [apply H1; reflexivity|]. split; [apply H2; discriminate|].
  apply H3. reflexivity.
Defined.

Lemma employee_login_witness :
  fst (run (login cleared (POST (mode_employee " 3 "))) Sample.empty)
    = Returned (employee_session 3, Redirect to_my_home)
  /\ fst (run (login cleared (POST (mode_employee "３"))) Sample.empty)
    = Returned (employee_session 3, Redirect to_my_home)
  /\ fst (run (login cleared (POST (mode_employee "4"))) Sample.empty)
    = Returned (cleared, RenderLoginError employee_not_found)
  /\ fst (run (login cleared (POST (mode_employee "100000000000000000000"))) Sample.empty)
    = Raised OverflowError
  /\ fst (run (login cleared (POST (mode_employee "three"))) Sample.empty)
    = Raised ValueError.
Proof.
  pose proof (employee_login cleared " 3 " Sample.empty) as (H1 & _).
  pose proof (employee_login cleared "３" Sample.empty) as (H2 & _).
  pose proof (employee_login cleared "4" Sample.empty) as (_ & _ & H3 & _).
  pose proof (employee_login cleared "100000000000000000000" Sample.empty)
    as (_ & _ & _ & H4 & _).
  pose proof (employee_login cleared "three" Sample.empty) as (_ & _ & _ & _ & H5 & _).
  split; [|split; [|split; [|split]]].
  - apply H1. exists 3, Sample.park. repeat split.
  - apply H2. exists 3, Sample.park. repeat split.
  - apply (H3 4); reflexivity.
  - apply (H4 100000000000000000000); reflexivity.
  - apply H5. reflexivity.
Defined.

Lemma policy_first_after (k : string) (tx : Tx) :
  exists p,
    LeavePolicy_first (view (after_get_policy k tx)) k = Some p
    /\ value p = policy_value (view tx) k.
Proof.
  unfold after_get_policy, policy_value.
  destruct (LeavePolicy_first (view tx) k) as [p|] eqn:E.
  - exists p. auto.
  - exists (new_policy (view tx) k). split; [|reflexivity].
    apply (first_after_create k (view tx) E).
Qed.

Lemma policy_value_after (k : string) (tx : Tx) :
  policy_value (view (after_get_policy k tx)) k = policy_value (view tx) k.
Proof.
  destruct (policy_first_after k tx) as (p & Hp & Hv).
  unfold policy_value at 1. rewrite Hp. exact Hv.
Qed.

Lemma stored_after_login_page (s : Session) (d : Db) :
  run (login s GET) d
  = (Returned (s, RenderLogin
                    (order_by by_department_name
                       (filter (fun e => is_active e = true) (employees d)))
                    (policy_value d "admin_pin")),
     commits (after_get_policy "admin_pin" {| view := d; commits := [] |}))
  /\ stored_after (login s GET) d
     = view (after_get_policy "admin_pin" {| view := d; commits := [] |}).
Proof.
  assert (E : run (login s GET) d
              = (Returned (s, RenderLogin
                                (order_by by_department_name
                                   (filter (fun e => is_active e = true) (employees d)))
                                (policy_value d "admin_pin")),
                 commits (after_get_policy "admin_pin" {| view := d; commits := [] |}))).
  { unfold run, login, login_page, bind, query, ret. cbn [view].
    rewrite get_policy_tx. reflexivity. }
  split; [exact E|].
  unfold stored_after. rewrite E. unfold after_get_policy. cbn [view commits snd].
  destruct (LeavePolicy_first d "admin_pin"); reflexivity.
Qed.

(** X8.  The login page, which is served to any session, hands the
    stored administrator PIN to its template as [admin_pin_hint]; sent
    back in administrator mode, that value opens the administrator
    session. *)
Theorem login_page_gives_the_pin (s s' : Session) (d : Db) :
  exists employees hint,
    fst (run (login s GET) d) = Returned (s, RenderLogin employees hint)
    /\ fst (run (login s' (POST (mode_admin (Some hint)))) (stored_after (login s GET) d))
       = Returned (admin_session, Redirect to_admin_dashboard).
Proof.
  destruct (stored_after_login_page s d) as [E E'].
  eexists. eexists. rewrite E. split; [reflexivity|].
  rewrite run_login_admin, E'. cbn [fst default].
  rewrite policy_value_after. cbn [view].
  rewrite String.eqb_refl. reflexivity.
Qed.

(** ** Employees *)

Lemma run_add_employee (c : Ctx) (p : NewEmployee) (d : Db) :
  run (api_admin_add_employee c p) d =
  if negb (require_admin c) then (Returned (Err 401 "unauthorized"), [])
  else (Returned (Json (Created (emp_id (new_employee d p)))),
        [with_employees d (employees d ++ [new_employee d p])]).
Proof.
  unfold run, api_admin_add_employee. destruct (require_admin c); reflexivity.
Qed.

Lemma next_id_positive (ids : list Z) : 1 <= next_id ids.
Proof.
  unfold next_id. induction ids as [|x xs IH]; simpl; lia.
Qed.

Lemma employee_fresh (d : Db) :
  Employee_get d (Some (next_id (map emp_id (employees d)))) = None.
Proof.
  unfold Employee_get.
  destruct (List.find _ _) as [e|] eqn:H; [|reflexivity].
  apply find_some in H as [Hin He].
  pose proof (next_id_above (map emp_id (employees d)) (emp_id e) (in_map _ _ _ Hin)).
  lia.
Qed.

(** X9.  An employee added by the administrator gets an id that no
    employee had, is active, and can log in at once: a login in employee
    mode with that id opens a session that the employee endpoints accept.
    The employees that were there are found as before. *)
Theorem added_employee_can_log_in (c : Ctx) (p : NewEmployee) (d : Db) :
  require_admin c = true ->
  let d' := stored_after (api_admin_add_employee c p) d in
  exists i,
    run (api_admin_add_employee c p) d = (Returned (Json (Created i)), [d'])
    /\ Forall (fun e => emp_id e <> i) (employees d)
    /\ Employee_get d' (Some i) = Some (new_employee d p)
    /\ (forall j e, Employee_get d (Some j) = Some e -> Employee_get d' (Some j) = Some e)
    /\ (forall s field,
          py_int field = Some i ->
          fst (run (login s (POST (mode_employee field))) d')
          = Returned (employee_session i, Redirect to_my_home))
    /\ require_employee (with_session c (employee_session i)) = true.
Proof.
  intros Ha. cbv zeta. unfold stored_after. rewrite run_add_employee, Ha.
  cbn [negb snd fst List.last].
  set (i := next_id (map emp_id (employees d))).
  assert (Hnew : Employee_get (with_employees d (employees d ++ [new_employee d p])) (Some i)
                 = Some (new_employee d p)).
  { unfold Employee_get. simpl. apply find_app_fresh.
    - apply (employee_fresh d).
    - simpl. apply Z.eqb_refl. }
  exists i. split; [reflexivity|]. split; [|split; [exact Hnew|split; [|split]]].
  - apply Forall_forall. intros e He Hi.
    apply list_elem_of_In in He.
    pose proof (next_id_above (map emp_id (employees d)) (emp_id e) (in_map _ _ _ He)).
    unfold i in Hi. lia.
  - intros j e. unfold Employee_get. simpl. apply find_app_old.
  - intros s field Hf. rewrite run_login_employee, Hf, Hnew. reflexivity.
  - unfold require_employee. simpl.
    pose proof (next_id_positive (map emp_id (employees d))).
    destruct (i =? 0) eqn:E; [unfold i in E; lia|reflexivity].
Qed.

Lemma added_employee_can_log_in_witness :
  fst (run (login cleared (POST (mode_employee "4")))
         (stored_after
            (api_admin_add_employee Sample.as_admin
               {| ne_name := "Lee"; ne_department := "Sales"; ne_position := "Staff";
                  ne_join_date := Date 2025 6 1 |})
            Sample.empty))
  = Returned (employee_session 4, Redirect to_my_home).
Proof.
  destruct (added_employee_can_log_in Sample.as_admin
              {| ne_name := "Lee"; ne_department := "Sales"; ne_position := "Staff";
                 ne_join_date := Date 2025 6 1 |} Sample.empty eq_refl)
    as (i & Hrun & _ & _ & _ & Hlogin & _).
  injection Hrun as <-.
  apply Hlogin. reflexivity.
Defined.

(** ** Policies *)

Lemma find_map_same {A} (g : A -> bool) (f : A -> A) (l : list A) :
  (forall x, g (f x) = g x) -> List.find g (map f l) = f <$> List.find g l.
Proof.
  intros H. induction l as [|a l IH]; simpl; [reflexivity|].
  rewrite H. destruct (g a); [reflexivity|exact IH].
Qed.

Lemma find_app_miss {A} (g : A -> bool) (l : list A) (x : A) :
  g x = false -> List.find g (l ++ [x]) = List.find g l.
Proof.
  intros H. induction l as [|a l IH]; simpl; [rewrite H; reflexivity|].
  destruct (g a); [reflexivity|exact IH].
Qed.

Lemma same_id_same_row (ps : list LeavePolicy) (a b : LeavePolicy) :
  NoDup (map pol_id ps) -> In a ps -> In b ps -> pol_id a = pol_id b -> a = b.
Proof.
  induction ps as [|x xs IH]; simpl; [tauto|].
  rewrite NoDup_cons. intros [Hx Hnd] [->|Ha] [->|Hb] E; auto.
  - exfalso. apply Hx. rewrite E. apply list_elem_of_In, in_map, Hb.
  - exfalso. apply Hx. rewrite <- E. apply list_elem_of_In, in_map, Ha.
Qed.

Lemma put_row_same (k v : string) (ps : list LeavePolicy) :
  exists row, first_row (put_row k v ps) k = Some row /\ value row = v.
Proof.
  unfold put_row, first_row.
  destruct (List.find _ ps) as [row|] eqn:E.
  - rewrite find_map_same by (intros x; destruct (pol_id x =? pol_id row); reflexivity).
    rewrite E. simpl. rewrite Z.eqb_refl. eexists. split; reflexivity.
  - exists {| pol_id := next_id (map pol_id ps); key := k; value := v |}.
    split; [|reflexivity].
    apply (find_app_fresh _ ps _ E). simpl. apply String.eqb_refl.
Qed.

Lemma put_row_other (k v k' : string) (ps : list LeavePolicy) :
  k' <> k -> NoDup (map pol_id ps) ->
  first_row (put_row k v ps) k' = first_row ps k'.
Proof.
  intros Hne Hnd. unfold put_row, first_row.
  destruct (List.find (fun p => String.eqb (key p) k) ps) as [row|] eqn:E.
  - rewrite find_map_same by (intros x; destruct (pol_id x =? pol_id row); reflexivity).
    destruct (List.find (fun p => String.eqb (key p) k') ps) as [r'|] eqn:E'; [|reflexivity].
    simpl. destruct (pol_id r' =? pol_id row) eqn:Hid; [|reflexivity].
    exfalso. apply find_some in E as [Hin Hk]. apply find_some in E' as [Hin' Hk'].
    apply Z.eqb_eq in Hid.
    rewrite (same_id_same_row ps r' row Hnd Hin' Hin Hid) in Hk'.
    apply String.eqb_eq in Hk, Hk'. congruence.
  - apply find_app_miss. simpl. apply String.eqb_neq. congruence.
Qed.

Lemma put_row_ids (k v : string) (ps : list LeavePolicy) :
  NoDup (map pol_id ps) -> NoDup (map pol_id (put_row k v ps)).
Proof.
  intros Hnd. unfold put_row.
  destruct (List.find _ ps) as [row|].
  - rewrite map_map.
    erewrite map_ext; [exact Hnd|].
    intros x. simpl. destruct (pol_id x =? pol_id row); reflexivity.
  - rewrite map_app. simpl. apply NoDup_app. split; [exact Hnd|]. split.
    + intros x Hx Hin. apply list_elem_of_In in Hx. apply list_elem_of_In in Hin.
      destruct Hin as [<-|[]].
      pose proof (next_id_above _ _ Hx). lia.
    + apply NoDup_singleton.
Qed.

Section PutPolicies.
Context {V : Type} (str : V -> string) (p : gmap string V).


Lemma put_rows_first (keys : list string) (ps : list LeavePolicy) (k : string) :
  NoDup keys -> NoDup (map pol_id ps) ->
  match p !! k with
  | Some v =>
      if decide (k ∈ keys)
      then exists row, first_row (put_rows str p keys ps) k = Some row /\ value row = str v
      else first_row (put_rows str p keys ps) k = first_row ps k
  | None => first_row (put_rows str p keys ps) k = first_row ps k
  end.
Proof.
  revert ps. induction keys as [|k0 ks IH]; intros ps Hks Hnd.
  - cbn [put_rows foldl]. destruct (p !! k); [|reflexivity].
    case_decide as Hin; [|reflexivity]. apply elem_of_nil in Hin. contradiction.
  - apply NoDup_cons in Hks as [Hk0 Hks]. cbn [put_rows foldl].
    set (ps' := match p !! k0 with Some v => put_row k0 (str v) ps | None => ps end).
    assert (Hnd' : NoDup (map pol_id ps'))
      by (unfold ps'; destruct (p !! k0); [apply put_row_ids|]; exact Hnd).
    specialize (IH ps' Hks Hnd'). unfold put_rows in IH.
    destruct (decide (k = k0)) as [->|Hne].
    + destruct (p !! k0) as [v|] eqn:Hp.
      * destruct (decide (k0 ∈ ks)) as [?|_]; [contradiction|].
        destruct (decide (k0 ∈ k0 :: ks)) as [_|Hin];
          [|exfalso; apply Hin, list_elem_of_here].
        rewrite IH. unfold ps'. apply put_row_same.
      * exact IH.
    + assert (E : first_row ps' k = first_row ps k).
      { unfold ps'. destruct (p !! k0); [|reflexivity].
        apply put_row_other; assumption. }
      destruct (p !! k) as [v|]; [|congruence].
      destruct (decide (k ∈ ks)) as [Hin|Hin], (decide (k ∈ k0 :: ks)) as [Hin'|Hin'].
      * exact IH.
      * exfalso. apply Hin'. apply list_elem_of_further. exact Hin.
      * exfalso. apply elem_of_cons in Hin' as [?|?]; contradiction.
      * congruence.
Qed.

Lemma with_policies_same (d : Db) : with_policies d (policies d) = d.
Proof. destruct d. reflexivity. Qed.

Lemma set_policy_tx (k : string) (tx : Tx) :
  set_policy str p k tx
  = (Returned tt,
     {| view := with_policies (view tx)
                  (match p !! k with
                   | Some v => put_row k (str v) (policies (view tx))
                   | None => policies (view tx)
                   end);
        commits := commits tx |}).
Proof.
  unfold set_policy, put_row, LeavePolicy_first.
  destruct (p !! k) as [v|].
  - unfold bind, query. cbn [view].
    destruct (List.find _ (policies (view tx))) as [row|]; reflexivity.
  - unfold ret. rewrite with_policies_same. destruct tx. reflexivity.
Qed.

Lemma for_each_set_policy (keys : list string) (tx : Tx) :
  for_each (set_policy str p) keys tx
  = (Returned tt,
     {| view := with_policies (view tx) (put_rows str p keys (policies (view tx)));
        commits := commits tx |}).
Proof.
  revert tx. induction keys as [|k ks IH]; intros tx; simpl.
  - unfold ret. rewrite with_policies_same. destruct tx. reflexivity.
  - unfold bind. rewrite set_policy_tx, IH. reflexivity.
Qed.

Lemma run_put_policies (c : Ctx) (d : Db) :
  require_admin c = true ->
  run (api_admin_policies str c (PUT_policies p)) d
  = (Returned (Json Updated),
     [with_policies d (put_rows str p policy_keys (policies d))]).
Proof.
  intros Ha. unfold run, api_admin_policies. rewrite Ha. cbn [negb].
  unfold bind. rewrite for_each_set_policy. reflexivity.
Qed.
End PutPolicies.

Lemma policy_keys_NoDup : NoDup policy_keys.
Proof.
  unfold policy_keys.
  repeat (apply NoDup_cons; split;
          [rewrite ?elem_of_cons, elem_of_nil; intros H; repeat destruct H as [H|H];
           try discriminate H; exact H|]).
  apply NoDup_nil_2.
Qed.



Lemma after_get_policy_ensure (k : string) (tx : Tx) :
  view (after_get_policy k tx) = ensure k (view tx).
Proof.
  unfold after_get_policy, ensure. destruct (LeavePolicy_first (view tx) k); reflexivity.
Qed.

Lemma ensure_present (k : string) (d : Db) :
  is_Some (LeavePolicy_first d k) -> ensure k d = d.
Proof. intros [p Hp]. unfold ensure. rewrite Hp. reflexivity. Qed.

Lemma ensure_first (k k' : string) (d : Db) (p : LeavePolicy) :
  LeavePolicy_first d k' = Some p -> LeavePolicy_first (ensure k d) k' = Some p.
Proof.
  intros Hp. unfold ensure. destruct (LeavePolicy_first d k); [exact Hp|].
  unfold LeavePolicy_first in *. simpl. apply find_app_old. exact Hp.
Qed.

Lemma ensure_makes_present (k : string) (d : Db) : is_Some (LeavePolicy_first (ensure k d) k).
Proof.
  unfold ensure. destruct (LeavePolicy_first d k) as [p|] eqn:E.
  - rewrite E. eauto.
  - rewrite (first_after_create k d E). eauto.
Qed.

Lemma ensure_value (k k' : string) (d : Db) :
  policy_value (ensure k d) k' = policy_value d k'.
Proof.
  unfold ensure. destruct (LeavePolicy_first d k) as [p|] eqn:E; [reflexivity|].
  destruct (decide (k' = k)) as [->|Hne].
  - unfold policy_value. rewrite (first_after_create k d E), E. reflexivity.
  - unfold policy_value, LeavePolicy_first. simpl.
    rewrite find_app_miss; [reflexivity|]. simpl. apply String.eqb_neq. congruence.
Qed.

Lemma ensure_tables (k : string) (d : Db) :
  (employees (ensure k d), leave_types (ensure k d), requests (ensure k d), logs (ensure k d))
  = (employees d, leave_types d, requests d, logs d)
  /\ exists added, policies (ensure k d) = policies d ++ added.
Proof.
  unfold ensure. destruct (LeavePolicy_first d k).
  - split; [reflexivity|]. exists []. rewrite app_nil_r. reflexivity.
  - split; [reflexivity|]. eexists. reflexivity.
Qed.

Lemma ensure_all_tables (keys : list string) (d : Db) :
  (employees (ensure_all keys d), leave_types (ensure_all keys d),
   requests (ensure_all keys d), logs (ensure_all keys d))
  = (employees d, leave_types d, requests d, logs d)
  /\ exists added, policies (ensure_all keys d) = policies d ++ added.
Proof.
  revert d. induction keys as [|k ks IH]; intros d; simpl.
  - split; [reflexivity|]. exists []. rewrite app_nil_r. reflexivity.
  - destruct (IH (ensure k d)) as [E [a Ha]]. destruct (ensure_tables k d) as [E' [a' Ha']].
    fold (ensure_all ks (ensure k d)).
    split; [congruence|]. exists (a' ++ a). rewrite Ha, Ha', app_assoc. reflexivity.
Qed.

Lemma ensure_all_first (keys : list string) (k' : string) (d : Db) (p : LeavePolicy) :
  LeavePolicy_first d k' = Some p -> LeavePolicy_first (ensure_all keys d) k' = Some p.
Proof.
  revert d. induction keys as [|k ks IH]; intros d Hp; simpl; [exact Hp|].
  apply IH, ensure_first, Hp.
Qed.

Lemma ensure_all_present (keys : list string) (d : Db) :
  Forall (fun k => is_Some (LeavePolicy_first (ensure_all keys d) k)) keys.
Proof.
  revert d. induction keys as [|k ks IH]; intros d; simpl; constructor.
  - destruct (ensure_makes_present k d) as [p Hp].
    fold (ensure_all ks (ensure k d)). rewrite (ensure_all_first ks k _ p Hp). eauto.
  - apply IH.
Qed.

Lemma ensure_all_fixed (keys : list string) (d : Db) :
  Forall (fun k => is_Some (LeavePolicy_first d k)) keys -> ensure_all keys d = d.
Proof.
  induction 1 as [|k ks Hk _ IH]; simpl; [reflexivity|].
  rewrite (ensure_present k d Hk). exact IH.
Qed.

Lemma ensure_all_value (keys : list string) (k' : string) (d : Db) :
  policy_value (ensure_all keys d) k' = policy_value d k'.
Proof.
  revert d. induction keys as [|k ks IH]; intros d; simpl; [reflexivity|].
  fold (ensure_all ks (ensure k d)). rewrite IH. apply ensure_value.
Qed.

Lemma last_snoc {A} (l : list A) (x d : A) : List.last (l ++ [x]) d = x.
Proof. induction l as [|a [|b l] IH]; simpl in *; auto. Qed.

Lemma after_get_policy_synced (d0 : Db) (k : string) (tx : Tx) :
  synced d0 tx -> synced d0 (after_get_policy k tx).
Proof.
  unfold synced, after_get_policy. intros H.
  destruct (LeavePolicy_first (view tx) k); [exact H|]. simpl. apply last_snoc.
Qed.

Lemma read_all_spec (d0 : Db) (keys : list string) (tx : Tx) :
  synced d0 tx ->
  synced d0 (read_all keys tx) /\ view (read_all keys tx) = ensure_all keys (view tx).
Proof.
  revert tx. induction keys as [|k ks IH]; intros tx H; simpl; [auto|].
  destruct (IH (after_get_policy k tx) (after_get_policy_synced d0 k tx H)) as [H1 H2].
  split; [exact H1|]. rewrite H2, after_get_policy_ensure. reflexivity.
Qed.

Lemma read_all_fixed (keys : list string) (tx : Tx) :
  Forall (fun k => is_Some (LeavePolicy_first (view tx) k)) keys -> read_all keys tx = tx.
Proof.
  induction 1 as [|k ks [p Hk] _ IH]; simpl; [reflexivity|].
  unfold after_get_policy at 1. rewrite Hk. exact IH.
Qed.

Lemma get_each_tx (keys : list string) (tx : Tx) :
  get_each keys tx
  = (Returned (map (fun k => (k, policy_value (view tx) k)) keys), read_all keys tx).
Proof.
  revert tx. induction keys as [|k ks IH]; intros tx; simpl; [reflexivity|].
  unfold bind. rewrite get_policy_tx, IH. unfold ret. simpl.
  f_equal. f_equal. f_equal. apply map_ext. intros k'.
  rewrite after_get_policy_ensure, ensure_value. reflexivity.
Qed.

(** X11.  A GET of the policies by the administrator returns, for each
    of the three keys in order, the stored value or, for a key never
    set, its default.  Afterwards each of the three keys has a row, the
    rows that existed are unchanged, the other tables are untouched, and
    a second GET returns the same values and stores nothing. *)
Theorem get_policies_fills_defaults {V : Type} (str : V -> string) (c : Ctx) (d : Db) :
  require_admin c = true ->
  let d' := stored_after (api_admin_policies str c GET_policies) d in
  let values := map (fun k => (k, policy_value d k)) policy_keys in
  fst (run (api_admin_policies str c GET_policies) d) = Returned (Json (Policies values))
  /\ Forall (fun k => is_Some (LeavePolicy_first d' k)) policy_keys
  /\ (exists added, policies d' = policies d ++ added)
  /\ (employees d', leave_types d', requests d', logs d')
     = (employees d, leave_types d, requests d, logs d)
  /\ run (api_admin_policies str c GET_policies) d' = (Returned (Json (Policies values)), []).
Proof.
  intros Ha. cbv zeta.
  assert (Hrun : forall d0,
             run (api_admin_policies str c GET_policies) d0
             = (Returned (Json (Policies (map (fun k => (k, policy_value d0 k)) policy_keys))),
                commits (read_all policy_keys {| view := d0; commits := [] |}))).
  { intros d0. unfold run, api_admin_policies. rewrite Ha. cbn [negb].
    unfold bind. rewrite get_each_tx. reflexivity. }
  assert (Hd' : stored_after (api_admin_policies str c GET_policies) d
                = ensure_all policy_keys d).
  { unfold stored_after. rewrite Hrun. cbn [snd].
    destruct (read_all_spec d policy_keys {| view := d; commits := [] |} eq_refl) as [H1 H2].
    rewrite H1. exact H2. }
  rewrite Hd'. split; [rewrite Hrun; reflexivity|].
  split; [apply ensure_all_present|].
  split; [apply ensure_all_tables|].
  split; [apply ensure_all_tables|].
  rewrite Hrun.
  rewrite read_all_fixed by (cbn [view]; apply ensure_all_present).
  f_equal. f_equal. f_equal. f_equal. apply map_ext. intros k.
  rewrite ensure_all_value. reflexivity.
Qed.

Lemma get_policies_fills_defaults_witness :
  fst (run (api_admin_policies (fun v : string => v) Sample.as_admin GET_policies)
         (Sample.with_workday "450" Sample.empty))
  = Returned (Json (Policies [("workday_minutes", "450"); ("sick_default_days", "10");
                              ("admin_pin", "1234")])).
Proof.
  apply (get_policies_fills_defaults (fun v : string => v) Sample.as_admin
           (Sample.with_workday "450" Sample.empty) eq_refl).
Defined.

(** X12.  Once the administrator has put a new [admin_pin], a login in
    administrator mode succeeds with the string of the new value and
    with no other PIN: the old one no longer opens the session. *)
Theorem changed_pin_is_the_pin {V : Type} (str : V -> string) (p : gmap string V)
    (c : Ctx) (d : Db) (v : V) :
  require_admin c = true ->
  NoDup (map pol_id (policies d)) ->
  p !! "admin_pin" = Some v ->
  forall (s : Session) (pin : option string),
    fst (run (login s (POST (mode_admin pin)))
           (stored_after (api_admin_policies str c (PUT_policies p)) d))
    = Returned (admin_session, Redirect to_admin_dashboard)
    <-> default "" pin = str v.
Proof.
  intros Ha Hnd Hp s pin. unfold stored_after.
  rewrite (run_put_policies str p c d Ha). cbn [snd List.last].
  rewrite run_login_admin. cbn [fst].
  pose proof (put_rows_first str p policy_keys (policies d) "admin_pin"
                policy_keys_NoDup Hnd) as H.
  rewrite Hp in H. destruct (decide _) as [_|Hno] in H.
  2:{ exfalso. apply Hno. unfold policy_keys. rewrite !elem_of_cons. auto. }
  destruct H as (row & Hrow & Hv).
  assert (E : policy_value (with_policies d (put_rows str p policy_keys (policies d)))
                "admin_pin" = str v).
  { unfold policy_value.
    change (LeavePolicy_first (with_policies d (put_rows str p policy_keys (policies d)))
              "admin_pin")
      with (first_row (put_rows str p policy_keys (policies d)) "admin_pin").
    rewrite Hrow. exact Hv. }
  rewrite E.
  destruct (String.eqb_spec (default "" pin) (str v)) as [E'|E']; split; try tauto;
    discriminate.
Qed.

Lemma changed_pin_is_the_pin_witness :
  fst (run (login cleared (POST (mode_admin (Some "9876"))))
         (stored_after (api_admin_policies (fun v : string => v) Sample.as_admin
                          (PUT_policies (<["admin_pin" := "9876"]> ∅)))
            Sample.empty))
  = Returned (admin_session, Redirect to_admin_dashboard).
Proof.
  apply (changed_pin_is_the_pin (fun v : string => v) (<["admin_pin" := "9876"]> ∅)
           Sample.as_admin Sample.empty "9876" eq_refl).
  - constructor.
  - reflexivity.
  - reflexivity.
Defined.

(** ** Seed *)

Lemma seed_policy_tx (k v : string) (tx : Tx) :
  default "" (DEFAULTS !! k) = v ->
  seed_policy (k, v) tx = (Returned tt, {| view := ensure k (view tx); commits := commits tx |}).
Proof.
  intros <-. unfold seed_policy, ensure, bind, query, ret. cbn [fst snd view].
  destruct (LeavePolicy_first (view tx) k); [destruct tx|]; reflexivity.
Qed.

Lemma seed_policies_tx (tx : Tx) :
  for_each seed_policy DEFAULTS_items tx
  = (Returned tt, {| view := ensure_all policy_keys (view tx); commits := commits tx |}).
Proof.
  unfold DEFAULTS_items, for_each, bind.
  rewrite !seed_policy_tx by reflexivity. reflexivity.
Qed.

Lemma stored_after_seed (d : Db) : stored_after seed_defaults d = seeded d.
Proof.
  unfold stored_after, run, seed_defaults, seeded.
  unfold bind at 1. rewrite seed_policies_tx. cbn [view commits].
  destruct (ensure_all_tables policy_keys d) as [E _].
  revert E. generalize (ensure_all policy_keys d). intros [es ts ps rs ls].
  cbn [employees leave_types policies requests logs]. intros [= -> -> -> ->].
  unfold bind, commit, query, ret, add_leave_type, add_employee, update.
  cbn [view commits employees leave_types policies requests logs].
  destruct (employees d) as [|e es], (leave_types d) as [|t ts]; reflexivity.
Qed.

(** X13.  [seed_defaults] only fills what is missing: a policy row, a
    leave type or an employee that exists is kept as it is, the four
    leave types are added only to an empty table and the three employees
    only to an empty table, and requests and log entries are not
    touched.  Afterwards the three policy keys have a row and neither
    table is empty, so a second run stores the same rows again. *)
Theorem seed_defaults_fills_gaps (d : Db) :
  let d' := stored_after seed_defaults d in
  stored_after seed_defaults d' = d'
  /\ (forall k row, LeavePolicy_first d k = Some row -> LeavePolicy_first d' k = Some row)
  /\ (forall k, k ∈ policy_keys -> LeavePolicy_first d k = None ->
        policy_value d' k = default "" (DEFAULTS !! k)
        /\ is_Some (LeavePolicy_first d' k))
  /\ leave_types d' = (if decide (leave_types d = []) then seeded_leave_types
                       else leave_types d)
  /\ employees d' = (if decide (employees d = []) then seeded_employees else employees d)
  /\ requests d' = requests d /\ logs d' = logs d.
Proof.
  cbv zeta. rewrite !stored_after_seed.
  assert (Hpres : Forall (fun k => is_Some (LeavePolicy_first (seeded d) k)) policy_keys)
    by apply (ensure_all_present policy_keys d).
  split; [|split; [|split; [|split; [|split; [|split]]]]].
  - unfold seeded at 1.
    assert (E : ensure_all policy_keys (seeded d) = seeded d)
      by (apply ensure_all_fixed, Hpres).
    rewrite E. unfold seeded.
    destruct (employees d), (leave_types d); reflexivity.
  - intros k row H. apply (ensure_all_first policy_keys k d row H).
  - intros k Hk Hn. split.
    + change (policy_value (seeded d) k) with (policy_value (ensure_all policy_keys d) k).
      rewrite ensure_all_value. unfold policy_value. rewrite Hn. reflexivity.
    + rewrite Forall_forall in Hpres. apply Hpres, Hk.
  - unfold seeded. simpl. destruct (leave_types d); reflexivity.
  - unfold seeded. simpl. destruct (employees d); reflexivity.
  - reflexivity.
  - reflexivity.
Qed.

Lemma seed_defaults_fills_gaps_witness :
  policy_value (stored_after seed_defaults (Sample.with_workday "450" Sample.empty))
    "workday_minutes" = "450"
  /\ policy_value (stored_after seed_defaults (Sample.with_workday "450" Sample.empty))
       "admin_pin" = "1234".
Proof.
  destruct (seed_defaults_fills_gaps (Sample.with_workday "450" Sample.empty))
    as (_ & H2 & H3 & _).
  split.
  - unfold policy_value.
    rewrite (H2 "workday_minutes" {| pol_id := 1; key := "workday_minutes"; value := "450" |}
               eq_refl).
    reflexivity.
  - apply H3; [|reflexivity]. unfold policy_keys. rewrite !elem_of_cons. auto.
Defined.

(** ** Every request to the application *)

(** *** Handlers step by step *)

Section Keeps.
Variable R : Db -> Db -> Prop.
Hypothesis R_refl : forall d, R d d.
Hypothesis R_trans : forall a b c, R a b -> R b c -> R a c.
Hypothesis R_policy_add : forall d row, R d (with_policies d (policies d ++ [row])).
Hypothesis R_policy_write : forall d f, (forall p, pol_id (f p) = pol_id p /\ key (f p) = key p) ->
  R d (with_policies d (map f (policies d))).
Hypothesis R_employee_add : forall d e, R d (with_employees d (employees d ++ [e])).
Hypothesis R_leave_type_add : forall d t, R d (with_leave_types d (leave_types d ++ [t])).

Lemma keeps_ret {A} (a : A) : keeps R (ret a).
Proof. intros d0 tx H. exact H. Qed.

Lemma keeps_raise {A} (e : exn) : keeps R (@raise A e).
Proof. intros d0 tx H. exact H. Qed.

Lemma keeps_lift {A} (o : outcome A) : keeps R (lift o).
Proof. intros d0 tx H. exact H. Qed.

Lemma keeps_query {A} (q : Db -> A) : keeps R (query q).
Proof. intros d0 tx H. exact H. Qed.

Lemma keeps_commit : keeps R commit.
Proof.
  intros d0 tx [H1 H2]. split; [exact H1|]. simpl.
  apply Forall_app. split; [exact H2|]. constructor; [exact H1|constructor].
Qed.

Lemma keeps_update (f : Db -> Db) : (forall d, R d (f d)) -> keeps R (update f).
Proof.
  intros Hf d0 tx [H1 H2]. split; [|exact H2]. simpl. eapply R_trans; [exact H1|apply Hf].
Qed.

Lemma keeps_bind {A B} (m : M A) (k : A -> M B) :
  keeps R m -> (forall a, keeps R (k a)) -> keeps R (bind m k).
Proof.
  intros Hm Hk d0 tx H. unfold bind. specialize (Hm d0 tx H).
  destruct (m tx) as [[a|e] tx']; simpl in *; [apply Hk; exact Hm|exact Hm].
Qed.

Ltac keeps_step :=
  lazymatch goal with
  | |- keeps _ (bind _ _) => apply keeps_bind; [|intros ?]
  | |- keeps _ (ret _) => apply keeps_ret
  | |- keeps _ (raise _) => apply keeps_raise
  | |- keeps _ (lift _) => apply keeps_lift
  | |- keeps _ (query _) => apply keeps_query
  | |- keeps _ commit => apply keeps_commit
  | |- keeps _ (if ?b then _ else _) => destruct b
  | |- keeps _ (match ?x with _ => _ end) => destruct x
  | |- keeps _ (let _ := _ in _) => cbv zeta
  end.

Lemma keeps_query_get {A} (get : Db -> Z -> option A) (i : Z) :
  keeps R (query_get get i).
Proof. unfold query_get. repeat keeps_step. Qed.

Lemma keeps_add_policy k v : keeps R (add_policy k v).
Proof.
  unfold add_policy. repeat keeps_step.
  apply keeps_update. intros d. apply R_policy_add.
Qed.

Lemma keeps_get_policy k : keeps R (get_policy k).
Proof.
  unfold get_policy. repeat keeps_step. apply keeps_add_policy.
Qed.

Lemma keeps_add_employee n dep pos j a : keeps R (add_employee n dep pos j a).
Proof.
  unfold add_employee. repeat keeps_step.
  apply keeps_update. intros d. apply R_employee_add.
Qed.

Lemma keeps_add_leave_type cd nm co u e : keeps R (add_leave_type cd nm co u e).
Proof.
  unfold add_leave_type. repeat keeps_step.
  apply keeps_update. intros d. apply R_leave_type_add.
Qed.

Lemma keeps_write_value i v : keeps R (write_value i v).
Proof.
  unfold write_value. apply keeps_update. intros d.
  apply (R_policy_write d (fun p => if pol_id p =? i then set_value v p else p)).
  intros p. destruct (pol_id p =? i); auto.
Qed.

Lemma keeps_for_each {A} (f : A -> M unit) (l : list A) :
  (forall x, keeps R (f x)) -> keeps R (for_each f l).
Proof.
  intros Hf. induction l as [|x l IH]; simpl; [apply keeps_ret|].
  apply keeps_bind; [apply Hf|intros _; exact IH].
Qed.

Lemma keeps_get_each (keys : list string) : keeps R (get_each keys).
Proof.
  induction keys as [|k ks IH]; simpl; [apply keeps_ret|].
  apply keeps_bind; [apply keeps_get_policy|intros v].
  apply keeps_bind; [exact IH|intros vs; apply keeps_ret].
Qed.

Ltac keeps_auto :=
  repeat first
    [ apply keeps_get_policy
    | apply keeps_query_get
    | apply keeps_add_employee
    | apply keeps_add_leave_type
    | apply keeps_add_policy
    | apply keeps_write_value
    | apply keeps_get_each
    | keeps_step ].

Lemma keeps_login s m : keeps R (login s m).
Proof. unfold login, login_page. keeps_auto. Qed.

Lemma keeps_api_me c : keeps R (api_me c).
Proof. unfold api_me. keeps_auto. Qed.

Lemma keeps_api_my_summary c y : keeps R (api_my_summary c y).
Proof. unfold api_my_summary. keeps_auto. Qed.

Lemma keeps_api_leave_types c : keeps R (api_leave_types c).
Proof. unfold api_leave_types. keeps_auto. Qed.

Lemma keeps_api_my_requests c st : keeps R (api_my_requests c st).
Proof. unfold api_my_requests. keeps_auto. Qed.

Lemma keeps_api_admin_dashboard c : keeps R (api_admin_dashboard c).
Proof. unfold api_admin_dashboard. keeps_auto. Qed.

Lemma keeps_api_admin_inbox c st : keeps R (api_admin_inbox c st).
Proof. unfold api_admin_inbox. keeps_auto. Qed.

Lemma keeps_api_admin_employees c : keeps R (api_admin_employees c).
Proof. unfold api_admin_employees. keeps_auto. Qed.

Lemma keeps_api_admin_add_employee c p : keeps R (api_admin_add_employee c p).
Proof. unfold api_admin_add_employee. keeps_auto. Qed.

Lemma keeps_api_admin_policies {V} (str : V -> string) c r : keeps R (api_admin_policies str c r).
Proof.
  unfold api_admin_policies. keeps_auto.
  apply keeps_for_each. intros k. unfold set_policy. keeps_auto.
Qed.

Lemma keeps_seed_defaults : keeps R seed_defaults.
Proof.
  unfold seed_defaults. keeps_auto.
  apply keeps_for_each. intros kv. unfold seed_policy. keeps_auto.
Qed.

Lemma keeps_ignore {A} (h : M A) : keeps R h -> keeps R (ignore h).
Proof. intros H. unfold ignore. apply keeps_bind; [exact H|intros _; apply keeps_ret]. Qed.

Lemma keeps_run {A} (h : M A) (d : Db) :
  keeps R h -> Forall (R d) (snd (run h d)) /\ R d (stored_after h d).
Proof.
  intros H. unfold stored_after, run.
  specialize (H d {| view := d; commits := [] |}).
  destruct (h _) as [o tx]. simpl in *.
  destruct H as [H1 H2]; [split; [apply R_refl|constructor]|].
  split; [exact H2|].
  destruct (last_default_or_in (commits tx) d) as [->|Hin]; [apply R_refl|].
  rewrite Forall_forall in H2. apply H2, list_elem_of_In, Hin.
Qed.

Lemma keeps_snapshots {A} (h : M A) (d : Db) : keeps R h -> Forall (R d) (snd (run h d)).
Proof. intros H. apply keeps_run, H. Qed.

Lemma keeps_stored {A} (h : M A) (d : Db) : keeps R h -> R d (stored_after h d).
Proof. intros H. apply keeps_run, H. Qed.
End Keeps.

(** *** Nothing is removed *)
Lemma extends_refl d : extends d d.
Proof. unfold extends. repeat split; exists []; rewrite app_nil_r; reflexivity. Qed.

Lemma extends_trans a b c : extends a b -> extends b c -> extends a c.
Proof.
  intros (l1 & r1 & e1 & t1 & p1) (l2 & r2 & e2 & t2 & p2).
  destruct l1 as [x1 H1], r1 as [x2 H2], e1 as [x3 H3], t1 as [x4 H4], p1 as [x5 H5].
  destruct l2 as [y1 G1], r2 as [y2 G2], e2 as [y3 G3], t2 as [y4 G4], p2 as [y5 G5].
  unfold extends. repeat split.
  - exists (x1 ++ y1). rewrite G1, H1, app_assoc. reflexivity.
  - exists (x2 ++ y2). rewrite G2, H2, app_assoc. reflexivity.
  - exists (x3 ++ y3). rewrite G3, H3, app_assoc. reflexivity.
  - exists (x4 ++ y4). rewrite G4, H4, app_assoc. reflexivity.
  - exists (x5 ++ y5). rewrite G5, H5, app_assoc. reflexivity.
Qed.

Ltac same_table := exists []; rewrite app_nil_r; reflexivity.

Lemma extends_policy_add d row : extends d (with_policies d (policies d ++ [row])).
Proof.
  unfold extends. simpl. repeat split; try same_table.
  eexists. rewrite map_app. reflexivity.
Qed.

Lemma extends_policy_write d f :
  (forall p, pol_id (f p) = pol_id p /\ key (f p) = key p) ->
  extends d (with_policies d (map f (policies d))).
Proof.
  intros Hf. unfold extends. simpl. repeat split; try same_table.
  exists []. rewrite app_nil_r, map_map. apply map_ext. intros p.
  unfold set_value. destruct (Hf p) as [-> ->]. reflexivity.
Qed.

Lemma extends_employee_add d e : extends d (with_employees d (employees d ++ [e])).
Proof. unfold extends. simpl. repeat split; try same_table. eexists. reflexivity. Qed.

Lemma extends_leave_type_add d t : extends d (with_leave_types d (leave_types d ++ [t])).
Proof. unfold extends. simpl. repeat split; try same_table. eexists. reflexivity. Qed.

Lemma extends_transition d i s who a cm now : extends d (transition d i s who a cm now).
Proof.
  unfold extends. simpl. repeat split; try same_table.
  - eexists. reflexivity.
  - exists []. rewrite app_nil_r, map_map. apply map_ext. intros r.
    destruct (req_id r =? i); reflexivity.
Qed.

Lemma extends_with_request d r : extends d (with_request d r).
Proof.
  unfold extends. simpl. repeat split; try same_table.
  eexists. rewrite map_app. reflexivity.
Qed.

Lemma extends_with_log d l : extends d (with_log d l).
Proof. unfold extends. simpl. repeat split; try same_table. eexists. reflexivity. Qed.

Lemma run_ignore {A} (h : M A) (d : Db) : snd (run (ignore h) d) = snd (run h d).
Proof.
  unfold run, ignore, bind, ret. destruct (h _) as [[a|e] tx]; reflexivity.
Qed.

Lemma lifecycle_extends c o d : Forall (extends d) (snd (run (handle c o) d)).
Proof.
  destruct o as [payload|i|i|i cm]; simpl.
  - rewrite run_create.
    destruct (negb _); [constructor|].
    destruct (LeaveType_get _ _); [|constructor].
    destruct (current_employee_id c); [|constructor].
    destruct (in_int64 (pl_requested_minutes payload)); [|constructor]. simpl.
    constructor; [apply extends_with_request|].
    constructor; [|constructor].
    eapply extends_trans; [apply extends_with_request|apply extends_with_log].
  - rewrite run_cancel.
    destruct (negb _); [constructor|].
    destruct (LeaveRequest_get _ _); [|constructor].
    destruct (negb _); [constructor|].
    destruct (cancellable _); constructor; [apply extends_transition|constructor].
  - rewrite run_approve.
    destruct (negb _); [constructor|].
    destruct (pending _ _); constructor; [apply extends_transition|constructor].
  - rewrite run_reject.
    destruct (negb _); [constructor|].
    destruct (no_comment _); [constructor|].
    destruct (pending _ _); constructor; [apply extends_transition|constructor].
Qed.

Ltac extends_facts :=
  first [ exact extends_refl | exact extends_trans | exact extends_policy_add
        | exact extends_policy_write | exact extends_employee_add
        | exact extends_leave_type_add ].

Section AllCalls.
Context {V : Type} (str : V -> string).

Lemma perform_extends (c : Ctx) (k : Call) (d : Db) :
  Forall (extends d) (snd (run (perform str c k) d)).
Proof.
  destruct k; simpl; rewrite ?run_ignore; try apply lifecycle_extends;
    apply keeps_snapshots; try extends_facts.
  - apply keeps_seed_defaults; extends_facts.
  - apply keeps_login; extends_facts.
  - apply keeps_api_me; extends_facts.
  - apply keeps_api_my_summary; extends_facts.
  - apply keeps_api_leave_types; extends_facts.
  - apply keeps_api_my_requests; extends_facts.
  - apply keeps_api_admin_dashboard; extends_facts.
  - apply keeps_api_admin_inbox; extends_facts.
  - apply keeps_api_admin_employees; extends_facts.
  - apply keeps_api_admin_add_employee; extends_facts.
  - apply keeps_api_admin_policies; extends_facts.
Qed.
End AllCalls.

(** *** The audit trail *)
Lemma core_kept_refl d : core_kept d d.
Proof. unfold core_kept. auto. Qed.

Lemma core_kept_trans a b c : core_kept a b -> core_kept b c -> core_kept a c.
Proof.
  intros (r1 & l1 & t1) (r2 & l2 & t2). unfold core_kept.
  repeat split; [congruence|congruence|auto].
Qed.

Lemma core_kept_policy_add d row : core_kept d (with_policies d (policies d ++ [row])).
Proof. unfold core_kept. auto. Qed.

Lemma core_kept_policy_write d f :
  (forall p, pol_id (f p) = pol_id p /\ key (f p) = key p) ->
  core_kept d (with_policies d (map f (policies d))).
Proof. unfold core_kept. auto. Qed.

Lemma core_kept_employee_add d e : core_kept d (with_employees d (employees d ++ [e])).
Proof. unfold core_kept. auto. Qed.

Lemma core_kept_leave_type_add d t : core_kept d (with_leave_types d (leave_types d ++ [t])).
Proof.
  unfold core_kept. repeat split. intros i t'. unfold LeaveType_get. simpl.
  apply find_app_old.
Qed.

Ltac core_facts :=
  first [ exact core_kept_refl | exact core_kept_trans | exact core_kept_policy_add
        | exact core_kept_policy_write | exact core_kept_employee_add
        | exact core_kept_leave_type_add ].

Lemma consistent_core_kept d d' : consistent d -> core_kept d d' -> consistent d'.
Proof.
  intros (Hn & Hl & Hr) (Er & El & Et). unfold consistent, log_entries, LeaveRequest_get in *.
  rewrite Er, El. split; [exact Hn|]. split; [exact Hl|].
  eapply Forall_impl; [exact Hr|]. intros r [H1 [t Ht]]. split; [exact H1|].
  exists t. apply Et, Ht.
Qed.

Lemma history_ok_step (acts : list Action) (st : Status) (a : Action) (s : Status) :
  history_ok acts st = true ->
  (st = PENDING /\ (a, s) = (APPROVE, APPROVED)) \/ (st = PENDING /\ (a, s) = (REJECT, REJECTED))
  \/ (cancellable st = true /\ (a, s) = (CANCEL, CANCELLED)) ->
  history_ok (acts ++ [a]) s = true.
Proof.
  intros H Hs.
  destruct Hs as [[Hst [= -> ->]]|[[Hst [= -> ->]]|[Hst [= -> ->]]]];
    destruct acts as [|a1 [|a2 [|a3 [|a4 acts]]]]; simpl in H;
    repeat match goal with x : Action |- _ => destruct x end;
    destruct st; try discriminate H; try discriminate Hst; reflexivity.
Qed.

Lemma get_of_member (d : Db) (r : LeaveRequest) :
  NoDup (map req_id (requests d)) -> In r (requests d) ->
  LeaveRequest_get d (req_id r) = Some r.
Proof.
  unfold LeaveRequest_get. induction (requests d) as [|x xs IH]; simpl; [tauto|].
  rewrite NoDup_cons. intros [Hx Hnd] [->|Hin].
  - rewrite Z.eqb_refl. reflexivity.
  - destruct (req_id x =? req_id r) eqn:E; [|auto].
    exfalso. apply Hx. apply Z.eqb_eq in E. rewrite E.
    apply list_elem_of_In, in_map, Hin.
Qed.

Lemma consistent_transition d i r s who a cm now :
  consistent d ->
  LeaveRequest_get d i = Some r ->
  (status r = PENDING /\ (a, s) = (APPROVE, APPROVED))
  \/ (status r = PENDING /\ (a, s) = (REJECT, REJECTED))
  \/ (cancellable (status r) = true /\ (a, s) = (CANCEL, CANCELLED)) ->
  log_ok {| log_id := next_id (map log_id (logs d)); leave_request_id := i;
            acted_by := who; action := a; comment := cm; log_created_at := now |} ->
  consistent (transition d i s who a cm now).
Proof.
  intros (Hn & Hl & Hr) Hget Hstep Hlog. unfold consistent.
  split; [|split].
  - simpl. rewrite map_map.
    erewrite map_ext; [exact Hn|]. intros x. simpl. destruct (req_id x =? i); reflexivity.
  - simpl. apply Forall_app. split.
    + eapply Forall_impl; [exact Hl|]. intros l [[r' Hr'] Hok]. split; [|exact Hok].
      rewrite get_transition, Hr'. simpl. eauto.
    + constructor; [|constructor]. split; [|exact Hlog]. simpl.
      rewrite get_transition, Hget. simpl. eauto.
  - simpl. apply Forall_forall. intros r' Hin.
    apply list_elem_of_fmap in Hin as (r0 & -> & Hin0).
    rewrite Forall_forall in Hr. destruct (Hr r0 Hin0) as [Hh Ht].
    assert (Hid : req_id (if req_id r0 =? i then set_status s r0 else r0) = req_id r0)
      by (destruct (req_id r0 =? i); reflexivity).
    rewrite Hid, log_entries_transition.
    split.
    + destruct (req_id r0 =? i) eqn:E.
      * apply Z.eqb_eq in E. rewrite decide_True by congruence.
        assert (r0 = r).
        { pose proof (get_of_member d r0 Hn (proj1 (list_elem_of_In _ _) Hin0)) as G.
          rewrite E, Hget in G. congruence. }
        subst r0. rewrite map_app. cbn [map action status set_status].
        eapply history_ok_step; [exact Hh|]. exact Hstep.
      * apply Z.eqb_neq in E. rewrite decide_False by congruence.
        rewrite app_nil_r. exact Hh.
    + destruct (req_id r0 =? i); exact Ht.
Qed.

Lemma no_log_for_fresh_id (d : Db) :
  Forall (fun l => is_Some (LeaveRequest_get d (leave_request_id l)) /\ log_ok l) (logs d) ->
  log_entries d (next_id (map req_id (requests d))) = [].
Proof.
  intros Hl. unfold log_entries.
  induction Hl as [|l ls [[r Hr] _] _ IH]; [reflexivity|].
  rewrite filter_cons_False; [exact IH|].
  intros E. rewrite E, get_fresh in Hr. discriminate.
Qed.

Lemma consistent_create (c : Ctx) (e : Z) (payload : Payload) (d : Db) :
  consistent d ->
  is_Some (LeaveType_get d (pl_leave_type_id payload)) ->
  let r := new_request c e payload d in
  let d1 := with_request d r in
  consistent (with_log d1 (create_log c d1 (req_id r))).
Proof.
  intros (Hn & Hl & Hr) Ht r d1. unfold consistent.
  split; [|split].
  - simpl. rewrite map_app. simpl. apply NoDup_app. split; [exact Hn|]. split.
    + intros x Hx Hin. apply list_elem_of_In in Hx. apply list_elem_of_In in Hin.
      destruct Hin as [<-|[]]. pose proof (next_id_above _ _ Hx). lia.
    + apply NoDup_singleton.
  - simpl. apply Forall_app. split.
    + eapply Forall_impl; [exact Hl|]. intros l [[r' Hr'] Hok]. split; [|exact Hok].
      exists r'. apply (get_with_request_old d r r' _ Hr').
    + constructor; [|constructor]. split.
      * exists r. apply (get_with_request_new d r). reflexivity.
      * unfold log_ok. simpl. auto.
  - simpl. apply Forall_app. split.
    + apply Forall_forall. intros r0 Hin.
      rewrite Forall_forall in Hr. destruct (Hr r0 Hin) as [Hh Ht0].
      split; [|exact Ht0].
      unfold log_entries. simpl. rewrite filter_app, filter_cons_False, app_nil_r.
      * exact Hh.
      * simpl. apply list_elem_of_In in Hin.
        pose proof (next_id_above _ _ (in_map req_id _ _ Hin)). lia.
    + constructor; [|constructor]. split; [|exact Ht].
      unfold log_entries. simpl. rewrite filter_app.
      change (filter (λ l : ApprovalLog, leave_request_id l = next_id (map req_id (requests d)))
                (logs d))
        with (log_entries d (next_id (map req_id (requests d)))).
      rewrite (no_log_for_fresh_id d Hl).
      rewrite filter_cons_True by reflexivity. reflexivity.
Qed.

Lemma consistent_lifecycle (c : Ctx) (o : Op) (d : Db) :
  consistent d -> consistent (stored_after (handle c o) d).
Proof.
  intros H. unfold stored_after. destruct o as [payload|i|i|i cm]; simpl.
  - rewrite run_create.
    destruct (negb _); [exact H|].
    destruct (LeaveType_get d (pl_leave_type_id payload)) as [t|] eqn:Ht; [|exact H].
    destruct (current_employee_id c) as [e|]; [|exact H].
    destruct (in_int64 (pl_requested_minutes payload)); [|exact H]. simpl.
    apply consistent_create; [exact H|]. rewrite Ht. eauto.
  - rewrite run_cancel.
    destruct (negb _); [exact H|].
    destruct (LeaveRequest_get d i) as [r|] eqn:Hr; [|exact H].
    destruct (negb _); [exact H|].
    destruct (cancellable (status r)) eqn:Hc; [|exact H]. simpl.
    eapply consistent_transition; [exact H|exact Hr| |].
    + right. right. auto.
    + unfold log_ok. simpl. auto.
  - rewrite run_approve.
    destruct (negb _); [exact H|].
    destruct (pending d i) eqn:Hp; [|exact H]. simpl.
    apply pending_spec in Hp as (r & Hr & Hs).
    eapply consistent_transition; [exact H|exact Hr| |].
    + left. auto.
    + unfold log_ok. simpl. auto.
  - rewrite run_reject.
    destruct (negb _); [exact H|].
    destruct (no_comment cm) eqn:Hc; [exact H|].
    destruct (pending d i) eqn:Hp; [|exact H]. simpl.
    apply pending_spec in Hp as (r & Hr & Hs).
    eapply consistent_transition; [exact H|exact Hr| |].
    + right. left. auto.
    + unfold log_ok. simpl. auto.
Qed.

Lemma stored_after_ignore {A} (h : M A) (d : Db) :
  stored_after (ignore h) d = stored_after h d.
Proof. unfold stored_after. rewrite run_ignore. reflexivity. Qed.

Section Reach.
Context {V : Type} (str : V -> string).

Lemma perform_consistent (c : Ctx) (k : Call) (d : Db) :
  consistent d -> consistent (stored_after (perform str c k) d).
Proof.
  intros H.
  destruct k; simpl; rewrite ?stored_after_ignore; try (apply consistent_lifecycle; exact H);
    apply (consistent_core_kept d _ H); apply keeps_stored; try core_facts.
  - apply keeps_seed_defaults; core_facts.
  - apply keeps_login; core_facts.
  - apply keeps_api_me; core_facts.
  - apply keeps_api_my_summary; core_facts.
  - apply keeps_api_leave_types; core_facts.
  - apply keeps_api_my_requests; core_facts.
  - apply keeps_api_admin_dashboard; core_facts.
  - apply keeps_api_admin_inbox; core_facts.
  - apply keeps_api_admin_employees; core_facts.
  - apply keeps_api_admin_add_employee; core_facts.
  - apply keeps_api_admin_policies; core_facts.
Qed.

Lemma reachable_consistent (d0 d : Db) :
  consistent d0 -> reachable str d0 d -> consistent d.
Proof.
  intros H0. induction 1 as [|d c k _ IH]; [exact H0|]. apply perform_consistent, IH.
Qed.
End Reach.

Lemma consistent_empty (d : Db) : requests d = [] -> logs d = [] -> consistent d.
Proof.
  intros Er El. unfold consistent. rewrite Er, El. repeat split; constructor.
Qed.

(** *** What holds after any sequence of requests *)

Lemma reachable_extends {V : Type} (str : V -> string) (d0 d : Db) :
  reachable str d0 d -> extends d0 d.
Proof.
  induction 1 as [|d c k _ IH]; [apply extends_refl|].
  eapply extends_trans; [exact IH|]. unfold stored_after.
  destruct (last_default_or_in (snd (run (perform str c k) d)) d) as [->|Hin];
    [apply extends_refl|].
  pose proof (perform_extends str c k d) as Hall.
  rewrite Forall_forall in Hall. apply Hall, list_elem_of_In, Hin.
Qed.

(** X14.  Nothing is ever removed or rewritten.  After any sequence of
    requests, and in every snapshot that a further request commits, each
    table still begins with the rows it had: log entries, employees and
    leave types unchanged, requests changed in their status only, policy
    rows in their value only. *)
Theorem nothing_is_removed {V : Type} (str : V -> string) (d0 d : Db) (c : Ctx)
    (k : @Call V) :
  reachable str d0 d ->
  extends d0 d /\ Forall (extends d0) (snd (run (perform str c k) d)).
Proof.
  intros Hreach.
  pose proof (reachable_extends str d0 d Hreach) as H.
  split; [exact H|].
  eapply Forall_impl; [apply perform_extends|].
  intros d' Hd'. eapply extends_trans; [exact H|exact Hd'].
Qed.

Lemma nothing_is_removed_witness :
  extends Sample.empty Sample.approved
  /\ Forall (extends Sample.empty)
       (snd (run (perform (fun v : string => v) (Sample.as_employee 3)
                    (call_lifecycle (OpCancel 1))) Sample.approved)).
Proof.
  apply (nothing_is_removed (fun v : string => v) Sample.empty Sample.approved).
  exact (reach_step (fun v : string => v) Sample.empty _ Sample.as_admin
           (call_lifecycle (OpApprove 1))
           (reach_step (fun v : string => v) Sample.empty _ (Sample.as_employee 3)
              (call_lifecycle (OpCreate Sample.one_day))
              (reach_start (fun v : string => v) Sample.empty))).
Defined.

(** X15.  The audit trail tells the status.  Starting without requests
    and log entries, after any sequence of requests the request ids are
    distinct and every stored request has one of five histories in the
    log: CREATE alone (PENDING), CREATE then APPROVE (APPROVED), CREATE
    then REJECT (REJECTED), CREATE then CANCEL, or CREATE, APPROVE then
    CANCEL (CANCELLED).  Every log entry belongs to a stored request,
    CREATE and CANCEL are entered by the employee, APPROVE and REJECT by
    the administrator, and a REJECT carries a comment. *)
Theorem audit_trail_tells_status {V : Type} (str : V -> string) (d0 d : Db) :
  requests d0 = [] -> logs d0 = [] ->
  reachable str d0 d ->
  NoDup (map req_id (requests d))
  /\ (forall r, In r (requests d) ->
        LeaveRequest_get d (req_id r) = Some r
        /\ history_ok (map action (log_entries d (req_id r))) (status r) = true)
  /\ (forall l, In l (logs d) ->
        is_Some (LeaveRequest_get d (leave_request_id l)) /\ log_ok l).
Proof.
  intros Er El Hreach.
  destruct (reachable_consistent str d0 d (consistent_empty d0 Er El) Hreach)
    as (Hn & Hl & Hr).
  split; [exact Hn|]. split.
  - intros r Hin. split; [apply get_of_member; assumption|].
    rewrite Forall_forall in Hr. apply Hr, list_elem_of_In, Hin.
  - intros l Hin. rewrite Forall_forall in Hl. apply Hl, list_elem_of_In, Hin.
Qed.

Lemma audit_trail_tells_status_witness :
  history_ok (map action (log_entries Sample.approved 1)) APPROVED = true.
Proof.
  pose (r := set_status APPROVED
               (new_request (Sample.as_employee 3) 3 Sample.one_day Sample.empty)).
  destruct (audit_trail_tells_status (fun v : string => v) Sample.empty Sample.approved
              eq_refl eq_refl) as (_ & H & _).
  - exact (reach_step (fun v : string => v) Sample.empty _ Sample.as_admin
             (call_lifecycle (OpApprove 1))
             (reach_step (fun v : string => v) Sample.empty _ (Sample.as_employee 3)
                (call_lifecycle (OpCreate Sample.one_day))
                (reach_start (fun v : string => v) Sample.empty))).
  - apply (H r). left. reflexivity.
Defined.

(** X16.  Starting without requests and log entries, after any sequence
    of requests every stored request names a leave type of the table, so
    the loop of the summary over the approved requests does not fail on
    [r.leave_type.code]: it ends with, for every code, the minutes of
    the employee's APPROVED requests that start in the window of the
    year. *)
Theorem summary_loop_finds_leave_types {V : Type} (str : V -> string) (d0 d : Db)
    (e y : Z) :
  requests d0 = [] -> logs d0 = [] ->
  reachable str d0 d ->
  exists used_by_code,
    accumulate d used_init (approved_in d e (year_start y) (year_end y))
    = Returned used_by_code
    /\ forall code, default 0 (used_by_code !! code) = used_minutes d e y code.
Proof.
  intros Er El Hreach.
  destruct (reachable_consistent str d0 d (consistent_empty d0 Er El) Hreach)
    as (_ & _ & Hr).
  destruct (accumulate_total d (approved_in d e (year_start y) (year_end y)) used_init)
    as [used Hu].
  - unfold approved_in. apply Forall_forall. intros r Hin.
    apply list_elem_of_filter in Hin as [_ Hin].
    rewrite Forall_forall in Hr. apply Hr, Hin.
  - exists used. split; [exact Hu|]. intros code.
    rewrite (accumulate_returned _ _ _ _ Hu code), used_init_zero. reflexivity.
Qed.

Lemma summary_loop_finds_leave_types_witness :
  exists used_by_code,
    accumulate Sample.approved used_init
      (approved_in Sample.approved 3 (year_start 2025) (year_end 2025))
    = Returned used_by_code
    /\ forall code, default 0 (used_by_code !! code) = used_minutes Sample.approved 3 2025 code.
Proof.
  apply (summary_loop_finds_leave_types (fun v : string => v) Sample.empty Sample.approved
           3 2025 eq_refl eq_refl).
  exact (reach_step (fun v : string => v) Sample.empty _ Sample.as_admin
           (call_lifecycle (OpApprove 1))
           (reach_step (fun v : string => v) Sample.empty _ (Sample.as_employee 3)
              (call_lifecycle (OpCreate Sample.one_day))
              (reach_start (fun v : string => v) Sample.empty))).
Defined.

(** ** The lists *)

Lemma lex_compare_antisym (a b : list Z) :
  length a = length b -> lex_compare a b = CompOpp (lex_compare b a).
Proof.
  revert b. induction a as [|x a IH]; intros [|y b] Hl; try discriminate Hl; [reflexivity|].
  simpl. rewrite (Z.compare_antisym x y).
  destruct (x ?= y); simpl; auto.
Qed.

Lemma dt_leb_total (a b : datetime) : dt_leb a b = true \/ dt_leb b a = true.
Proof.
  unfold dt_leb. rewrite (lex_compare_antisym (dt_fields a) (dt_fields b)) by reflexivity.
  destruct (lex_compare (dt_fields b) (dt_fields a)); simpl; auto.
Qed.

Lemma order_by_perm {A} (leb : A -> A -> bool) (l : list A) : order_by leb l ≡ₚ l.
Proof. unfold order_by. apply merge_sort_Permutation. Qed.

Lemma order_by_sorted {A} (leb : A -> A -> bool) (l : list A) :
  (forall a b, leb a b = true \/ leb b a = true) ->
  Sorted (ordered leb) (order_by leb l).
Proof.
  intros Ht. unfold order_by.
  apply (@Sorted_merge_sort A (fun a b => leb a b = true) _ (fun a b => Ht a b)).
Qed.

Lemma Sorted_take {A} (R : relation A) (n : nat) (l : list A) :
  Sorted R l -> Sorted R (take n l).
Proof.
  intros H. revert n. induction H as [|x l Hs IH Hd]; intros [|n]; simpl; try constructor.
  - apply IH.
  - destruct Hd as [|y l' Hxy]; destruct n; simpl; constructor. exact Hxy.
Qed.

Lemma in_take {A} (n : nat) (l : list A) (x : A) : x ∈ take n l -> x ∈ l.
Proof.
  revert n. induction l as [|a l IH]; intros [|n]; simpl; intros H;
    try (apply elem_of_nil in H; contradiction).
  apply elem_of_cons in H as [->|H]; [apply list_elem_of_here|].
  apply list_elem_of_further, (IH n), H.
Qed.

Lemma listing {A} (leb : A -> A -> bool) (n : nat) (P : A -> Prop) (l : list A) :
  (forall a b, leb a b = true \/ leb b a = true) ->
  Forall P l ->
  let rows := limit n (order_by leb l) in
  (length rows <= n)%nat
  /\ Forall (fun r => In r l /\ P r) rows
  /\ Sorted (ordered leb) rows
  /\ ((length l <= n)%nat -> rows ≡ₚ l).
Proof.
  intros Ht HP rows. unfold rows, limit. repeat split.
  - rewrite length_take. lia.
  - apply Forall_forall. intros r Hin.
    assert (Hin' : r ∈ l).
    { rewrite <- (order_by_perm leb l). apply (in_take n), Hin. }
    split; [apply list_elem_of_In, Hin'|]. rewrite Forall_forall in HP. apply HP, Hin'.
  - apply Sorted_take, order_by_sorted, Ht.
  - intros Hl. rewrite take_ge; [apply order_by_perm|].
    rewrite (Permutation_length (order_by_perm leb l)). exact Hl.
Qed.

Lemma traverse_total {A B} (f : A -> outcome B) (l : list A) :
  Forall (fun x => exists y, f x = Returned y) l ->
  exists ys, traverse f l = Returned ys /\ Forall2 (fun x y => f x = Returned y) l ys.
Proof.
  induction 1 as [|x l [y Hy] _ (ys & Hys & H2)]; simpl.
  - exists []. split; [reflexivity|constructor].
  - rewrite Hy, Hys. exists (y :: ys). split; [reflexivity|]. constructor; assumption.
Qed.

Lemma filter_status_spec (status_arg : option string) (rows : list LeaveRequest) :
  Forall (fun r => In r rows /\ status_matches status_arg r) (filter_status status_arg rows).
Proof.
  unfold filter_status, status_matches. apply Forall_forall. intros r Hin.
  destruct status_arg as [s|].
  - destruct (String.eqb_spec s "") as [->|Hne].
    + split; [apply list_elem_of_In, Hin|auto].
    + apply list_elem_of_filter in Hin as [Hs Hin].
      split; [apply list_elem_of_In, Hin|]. right. apply String.eqb_eq, Hs.
  - split; [apply list_elem_of_In, Hin|exact I].
Qed.

Lemma own_requests_spec (c : Ctx) (status_arg : option string) (d : Db) :
  Forall (fun r => In r (requests d)
                   /\ Some (employee_id r) = current_employee_id c
                   /\ status_matches status_arg r)
         (own_requests c status_arg d).
Proof.
  unfold own_requests.
  eapply Forall_impl; [apply filter_status_spec|].
  intros r [Hin Hs]. apply list_elem_of_In, list_elem_of_filter in Hin as [Ho Hin].
  split; [apply list_elem_of_In, Hin|auto].
Qed.

Lemma newest_first_total (a b : LeaveRequest) :
  newest_first a b = true \/ newest_first b a = true.
Proof. unfold newest_first. apply dt_leb_total. Qed.

(** X17.  Starting without requests and log entries, after any sequence
    of requests the list of own requests is returned to an employee
    without an error and nothing is stored.  It holds requests of the
    caller only, all with the status asked for when one is given, the
    most recently created first, at most 200 of them, and all of them
    when there are no more than 200. *)
Theorem my_requests_are_own {V : Type} (str : V -> string) (d0 d : Db) (c : Ctx)
    (status_arg : option string) :
  requests d0 = [] -> logs d0 = [] ->
  reachable str d0 d ->
  require_employee c = true ->
  let rows := limit 200 (order_by newest_first (own_requests c status_arg d)) in
  exists body,
    run (api_my_requests c status_arg) d = (Returned (Json body), [])
    /\ Forall2 (fun r row => my_row d r = Returned row) rows body
    /\ (length body <= 200)%nat
    /\ Forall (fun r => In r (requests d)
                        /\ Some (employee_id r) = current_employee_id c
                        /\ status_matches status_arg r) rows
    /\ Sorted (ordered newest_first) rows
    /\ ((length (own_requests c status_arg d) <= 200)%nat ->
        rows ≡ₚ own_requests c status_arg d).
Proof.
  intros Er El Hreach He rows.
  destruct (reachable_consistent str d0 d (consistent_empty d0 Er El) Hreach)
    as (_ & _ & Hr).
  destruct (listing newest_first 200 _ (own_requests c status_arg d) newest_first_total
              (own_requests_spec c status_arg d)) as (Hlen & Hall & Hsort & Hperm).
  fold rows in Hlen, Hall, Hsort, Hperm.
  destruct (traverse_total (my_row d) rows) as (body & Hbody & H2).
  { eapply Forall_impl; [exact Hall|]. intros r [_ [Hin _]].
    rewrite Forall_forall in Hr. destruct (Hr r (proj2 (list_elem_of_In _ _) Hin)) as [_ [t Ht]].
    unfold my_row. rewrite Ht. eauto. }
  exists body. split; [|split; [exact H2|split; [|split; [|split; [exact Hsort|exact Hperm]]]]].
  - unfold run, api_my_requests. rewrite He. cbn [negb].
    unfold bind, query, lift, ret. cbn [view].
    fold (own_requests c status_arg d). fold rows. rewrite Hbody. reflexivity.
  - rewrite <- (Forall2_length _ _ _ H2). exact Hlen.
  - eapply Forall_impl; [exact Hall|]. intros r [_ H]. exact H.
Qed.


Lemma by_department_name_total (a b : Employee) :
  by_department_name a b = true \/ by_department_name b a = true.
Proof.
  unfold by_department_name.
  rewrite (String.compare_antisym (department b) (department a)).
  destruct (String.compare (department a) (department b)); simpl; auto.
  destruct (String.leb_total (name a) (name b)); auto.
Qed.


(** X19.  The administrator's list holds every employee, active or
    not, ordered by department and then name; the login page is given
    the active employees only, in the same order. *)
Theorem employee_lists (s : Session) (c : Ctx) (d : Db) :
  require_admin c = true ->
  let everyone := order_by by_department_name (employees d) in
  let active := order_by by_department_name
                  (filter (fun e => is_active e = true) (employees d)) in
  run (api_admin_employees c) d = (Returned (Json (map employee_info everyone)), [])
  /\ everyone ≡ₚ employees d
  /\ Sorted (ordered by_department_name) everyone
  /\ (exists hint, fst (run (login s GET) d) = Returned (s, RenderLogin active hint))
  /\ active ≡ₚ filter (fun e => is_active e = true) (employees d)
  /\ Sorted (ordered by_department_name) active.
Proof.
  intros Ha everyone active.
  split; [unfold run, api_admin_employees; rewrite Ha; reflexivity|].
  split; [apply order_by_perm|].
  split; [apply order_by_sorted, by_department_name_total|].
  split; [|split; [apply order_by_perm|apply order_by_sorted, by_department_name_total]].
  destruct (stored_after_login_page s d) as [E _]. rewrite E. eexists. reflexivity.
Qed.

(** X20.  When every request refers to an employee and a leave type
    of the tables, the administrator's inbox is returned without an error
    and stores nothing: at most 300 requests, the most recently created
    first, with the status asked for; with no status argument these are
    PENDING requests only, and an empty argument asks for all. *)
Theorem inbox_shows_pending (c : Ctx) (status_arg : option string) (d : Db) :
  require_admin c = true ->
  Forall (fun r => is_Some (Employee_get d (Some (employee_id r)))
                   /\ is_Some (LeaveType_get d (leave_type_id r))) (requests d) ->
  let wanted := Some (default "PENDING" status_arg) in
  let rows := limit 300 (order_by newest_first (filter_status wanted (requests d))) in
  exists body,
    run (api_admin_inbox c status_arg) d = (Returned (Json body), [])
    /\ Forall2 (fun r row => inbox_row d r = Returned row) rows body
    /\ (length body <= 300)%nat
    /\ Forall (fun r => In r (requests d) /\ status_matches wanted r) rows
    /\ (status_arg = None -> Forall (fun row => row_status row = PENDING) body)
    /\ Sorted (ordered newest_first) rows
    /\ ((length (filter_status wanted (requests d)) <= 300)%nat ->
        rows ≡ₚ filter_status wanted (requests d)).
Proof.
  intros Ha Hrefs wanted rows.
  destruct (listing newest_first 300 _ (filter_status wanted (requests d)) newest_first_total
              (filter_status_spec wanted (requests d))) as (Hlen & Hall & Hsort & Hperm).
  fold rows in Hlen, Hall, Hsort, Hperm.
  destruct (traverse_total (inbox_row d) rows) as (body & Hbody & H2).
  { eapply Forall_impl; [exact Hall|]. intros r [_ [Hin _]].
    rewrite Forall_forall in Hrefs.
    destruct (Hrefs r (proj2 (list_elem_of_In _ _) Hin)) as [[e He] [t Ht]].
    unfold inbox_row, my_row. rewrite He, Ht. eauto. }
  exists body.
  split; [|split; [exact H2|split; [|split; [|split; [|split; [exact Hsort|exact Hperm]]]]]].
  - unfold run, api_admin_inbox. rewrite Ha. cbn [negb].
    unfold bind, query, lift, ret. cbn [view].
    fold wanted. fold rows. rewrite Hbody. reflexivity.
  - rewrite <- (Forall2_length _ _ _ H2). exact Hlen.
  - eapply Forall_impl; [exact Hall|]. intros r [_ H]. exact H.
  - intros ->. clear Hbody Hlen Hsort Hperm.
    induction H2 as [|r row rs rows' Hrow _ IH]; [constructor|].
    apply Forall_cons in Hall as [[_ [_ Hm]] Hall]. constructor; [|apply IH, Hall].
    unfold inbox_row, my_row in Hrow.
    destruct (Employee_get _ _); [|discriminate].
    destruct (LeaveType_get _ _); [|discriminate].
    injection Hrow as <-. simpl.
    destruct Hm as [Hm|Hm]; [discriminate|].
    destruct (status r); try discriminate Hm. reflexivity.
Qed.

Lemma my_requests_are_own_witness :
  exists body,
    run (api_my_requests (Sample.as_employee 3) (Some "APPROVED")) Sample.approved
    = (Returned (Json body), [])
    /\ (length body <= 200)%nat.
Proof.
  destruct (my_requests_are_own (fun v : string => v) Sample.empty Sample.approved
              (Sample.as_employee 3) (Some "APPROVED") eq_refl eq_refl)
    as (body & Hrun & _ & Hlen & _).
  - exact (reach_step (fun v : string => v) Sample.empty _ Sample.as_admin
             (call_lifecycle (OpApprove 1))
             (reach_step (fun v : string => v) Sample.empty _ (Sample.as_employee 3)
                (call_lifecycle (OpCreate Sample.one_day))
                (reach_start (fun v : string => v) Sample.empty))).
  - reflexivity.
  - exists body. split; [exact Hrun|exact Hlen].
Defined.


Lemma employee_lists_witness :
  run (api_admin_employees Sample.as_admin) Sample.empty
  = (Returned (Json [employee_info Sample.park]), []).
Proof.
  apply (employee_lists cleared Sample.as_admin Sample.empty eq_refl).
Defined.

Lemma inbox_shows_pending_witness :
  exists body,
    run (api_admin_inbox Sample.as_admin None) Sample.requested = (Returned (Json body), [])
    /\ Forall (fun row => row_status row = PENDING) body.
Proof.
  destruct (inbox_shows_pending Sample.as_admin None Sample.requested eq_refl)
    as (body & Hrun & _ & _ & _ & Hp & _).
  - repeat constructor; eexists; reflexivity.
  - exists body. split; [exact Hrun|]. apply Hp. reflexivity.
Defined.

(** ** The ledger and the request lifecycle *)

Lemma used_minutes_sum (d : Db) (e y : Z) (k : string) :
  used_minutes d e y k = foldr Z.add 0 (map (weight d e y k) (requests d)).
Proof.
  unfold used_minutes, minutes_with_code, approved_in.
  induction (requests d) as [|r rs IH]; [reflexivity|].
  rewrite filter_cons. cbn [map foldr]. rewrite <- IH. clear IH.
  unfold weight, counted, in_window.
  destruct (decide _) as [H|H].
  - rewrite filter_cons. destruct (decide _) as [H'|H'].
    + cbn [map foldr].
      apply andb_prop in H as [H H3]. apply andb_prop in H as [H H2].
      apply andb_prop in H as [H0 H1].
      rewrite H0, H1, H2, H3. rewrite (bool_decide_eq_true_2 _ H'). reflexivity.
    + rewrite (bool_decide_eq_false_2 _ H'). rewrite andb_false_r.
      destruct (bool_decide (status r = APPROVED)); lia.
  - apply not_true_is_false in H.
    destruct (employee_id r =? e), (bool_decide (status r = APPROVED)),
      (dt_leb (year_start y) (start_dt r)), (dt_leb (start_dt r) (year_end y));
      cbn in H |- *; try discriminate H; try lia;
      destruct (bool_decide (code_of d r = Some k)); lia.
Qed.

Lemma counted_transition (d : Db) (j : Z) (s : Status) who a c now e y k (r : LeaveRequest) :
  counted (transition d j s who a c now) e y k r = counted d e y k r.
Proof. reflexivity. Qed.

Lemma counted_set_status (d : Db) e y k (s : Status) (r : LeaveRequest) :
  counted d e y k (set_status s r) = counted d e y k r.
Proof. reflexivity. Qed.

Lemma weight_sum_untouched (d d' : Db) e y k (i : Z) (s : Status) (rs : list LeaveRequest) :
  (forall r, counted d' e y k r = counted d e y k r) ->
  ~ In i (map req_id rs) ->
  foldr Z.add 0 (map (weight d' e y k)
                   (map (fun r => if req_id r =? i then set_status s r else r) rs))
  = foldr Z.add 0 (map (weight d e y k) rs).
Proof.
  intros Hc. induction rs as [|r rs IH]; intros Hi; [reflexivity|].
  cbn [map foldr]. rewrite IH by (intros H; apply Hi; right; exact H).
  destruct (Z.eqb_spec (req_id r) i) as [E|E].
  - exfalso. apply Hi. left. exact E.
  - unfold weight. rewrite Hc. reflexivity.
Qed.

Lemma ledger_after_transition (d : Db) (i : Z) (s : Status) who a c now e y k
    (r : LeaveRequest) :
  NoDup (map req_id (requests d)) ->
  LeaveRequest_get d i = Some r ->
  used_minutes (transition d i s who a c now) e y k
  = used_minutes d e y k
    - (if bool_decide (status r = APPROVED) then counted d e y k r else 0)
    + (if bool_decide (s = APPROVED) then counted d e y k r else 0).
Proof.
  intros Hnd Hr. rewrite !used_minutes_sum.
  change (requests (transition d i s who a c now))
    with (map (fun r => if req_id r =? i then set_status s r else r) (requests d)).
  unfold LeaveRequest_get in Hr.
  set (d' := transition d i s who a c now).
  assert (Hc : forall r, counted d' e y k r = counted d e y k r) by reflexivity.
  clearbody d'.
  induction (requests d) as [|r0 rs IH]; [discriminate Hr|].
  cbn [map] in Hnd. apply NoDup_cons in Hnd as [Hnotin Hnd].
  cbn [List.find] in Hr. cbn [map foldr].
  destruct (Z.eqb_spec (req_id r0) i) as [E|E].
  - injection Hr as ->.
    rewrite (weight_sum_untouched d d' e y k i s rs Hc)
      by (rewrite <- E; rewrite <- list_elem_of_In; exact Hnotin).
    unfold weight at 1 3. rewrite Hc. cbn [status set_status].
    change (counted d e y k (set_status s r)) with (counted d e y k r). lia.
  - rewrite (IH Hnd Hr). unfold weight at 1 3. rewrite Hc. lia.
Qed.

(** X21.  When the request ids are distinct, an approval by the
    administrator of a PENDING request adds the minutes of that request
    to the used minutes of its employee, for the code of its leave type
    and the year in whose window it starts, and changes the used minutes
    of no other employee, code or year. *)
Theorem approve_counts_minutes (c : Ctx) (i : Z) (d : Db) (r : LeaveRequest) (e y : Z)
    (k : string) :
  require_admin c = true ->
  NoDup (map req_id (requests d)) ->
  LeaveRequest_get d i = Some r ->
  status r = PENDING ->
  used_minutes (stored_after (api_admin_approve c i) d) e y k
  = used_minutes d e y k + counted d e y k r.
Proof.
  intros Ha Hnd Hr Hs. unfold stored_after. rewrite run_approve, Ha.
  assert (Hp : pending d i = true) by (apply pending_spec; eauto).
  rewrite Hp. cbn [negb snd List.last].
  rewrite (ledger_after_transition d i APPROVED _ _ _ _ e y k r Hnd Hr).
  rewrite Hs, (bool_decide_eq_false_2 (PENDING = APPROVED)) by discriminate.
  rewrite (bool_decide_eq_true_2 (APPROVED = APPROVED)) by reflexivity. lia.
Qed.

(** X22.  When the request ids are distinct, a cancel that succeeds
    gives the minutes back if the request was APPROVED: they are taken
    off the used minutes of its employee, code and year.  The cancel of
    a PENDING request leaves all used minutes as they are. *)
Theorem cancel_refunds_minutes (c : Ctx) (i : Z) (d : Db) (r : LeaveRequest) (e y : Z)
    (k : string) :
  NoDup (map req_id (requests d)) ->
  LeaveRequest_get d i = Some r ->
  fst (run (api_cancel_request c i) d) = Returned (Json Done) ->
  used_minutes (stored_after (api_cancel_request c i) d) e y k
  = used_minutes d e y k
    - (if bool_decide (status r = APPROVED) then counted d e y k r else 0).
Proof.
  intros Hnd Hr. unfold stored_after. rewrite run_cancel, Hr.
  destruct (negb (require_employee c)); [discriminate|].
  destruct (negb (bool_decide _)); [discriminate|].
  destruct (cancellable (status r)); [|discriminate].
  intros _. cbn [snd List.last].
  rewrite (ledger_after_transition d i CANCELLED _ _ _ _ e y k r Hnd Hr).
  rewrite (bool_decide_eq_false_2 (CANCELLED = APPROVED)) by discriminate. lia.
Qed.

Lemma used_minutes_core_kept (d d' : Db) (e y : Z) (k : string) :
  core_kept d d' ->
  Forall (fun r => is_Some (LeaveType_get d (leave_type_id r))) (requests d) ->
  used_minutes d' e y k = used_minutes d e y k.
Proof.
  intros (Er & _ & Et) Hall. rewrite !used_minutes_sum, Er. clear Er.
  induction (requests d) as [|r rs IH]; [reflexivity|].
  apply Forall_cons in Hall as [[t Ht] Hall].
  cbn [map foldr]. rewrite (IH Hall).
  unfold weight, counted, code_of. rewrite Ht, (Et _ _ Ht). reflexivity.
Qed.

Lemma used_minutes_create (c : Ctx) (e0 : Z) (payload : Payload) (d : Db) l (e y : Z)
    (k : string) :
  used_minutes (with_log (with_request d (new_request c e0 payload d)) l) e y k
  = used_minutes d e y k.
Proof.
  rewrite !used_minutes_sum.
  change (requests (with_log (with_request d (new_request c e0 payload d)) l))
    with (requests d ++ [new_request c e0 payload d]).
  rewrite map_app, foldr_app. cbn [map foldr].
  unfold weight at 1. cbn [status new_request].
  rewrite (bool_decide_eq_false_2 (PENDING = APPROVED)) by discriminate.
  induction (requests d) as [|r rs IH]; [reflexivity|].
  cbn [map foldr]. rewrite IH. reflexivity.
Qed.

Section Ledger.
Context {V : Type} (str : V -> string).

Lemma classic_lifecycle (k : @Call V) :
  (exists o, k = call_lifecycle o) \/ (forall o, k <> call_lifecycle o).
Proof. destruct k; try (right; discriminate). left. eauto. Qed.

Lemma perform_core_kept (c : Ctx) (k : @Call V) (d : Db) :
  (forall o, k <> call_lifecycle o) -> core_kept d (stored_after (perform str c k) d).
Proof.
  intros Hk.
  destruct k; simpl; rewrite ?stored_after_ignore;
    try (exfalso; eapply Hk; reflexivity);
    apply keeps_stored; try core_facts.
  - apply keeps_seed_defaults; core_facts.
  - apply keeps_login; core_facts.
  - apply keeps_api_me; core_facts.
  - apply keeps_api_my_summary; core_facts.
  - apply keeps_api_leave_types; core_facts.
  - apply keeps_api_my_requests; core_facts.
  - apply keeps_api_admin_dashboard; core_facts.
  - apply keeps_api_admin_inbox; core_facts.
  - apply keeps_api_admin_employees; core_facts.
  - apply keeps_api_admin_add_employee; core_facts.
  - apply keeps_api_admin_policies; core_facts.
Qed.

(** X23.  Starting without requests and log entries, after any
    sequence of requests, no request to the application other than an
    approval or a cancel changes the used minutes of any employee, year
    and code: not a create, a reject, a login, a read, a new employee, a
    change of the policies or the seed. *)
Theorem ledger_moves_on_approve_and_cancel_only (d0 d : Db) (c : Ctx) (k : @Call V)
    (e y : Z) (code : string) :
  requests d0 = [] -> logs d0 = [] ->
  reachable str d0 d ->
  (forall i, k <> call_lifecycle (OpApprove i)) ->
  (forall i, k <> call_lifecycle (OpCancel i)) ->
  used_minutes (stored_after (perform str c k) d) e y code = used_minutes d e y code.
Proof.
  intros Er El Hreach Ha Hc.
  destruct (reachable_consistent str d0 d (consistent_empty d0 Er El) Hreach)
    as (Hn & _ & Hr).
  assert (Ht : Forall (fun r => is_Some (LeaveType_get d (leave_type_id r))) (requests d))
    by (eapply Forall_impl; [exact Hr|]; intros r [_ H]; exact H).
  destruct (classic_lifecycle k) as [[o ->]|Hk].
  2:{ apply used_minutes_core_kept; [apply perform_core_kept, Hk|exact Ht]. }
  simpl. rewrite stored_after_ignore. unfold stored_after.
  destruct o as [payload|i|i|i cm]; simpl.
  - rewrite run_create.
    destruct (negb _); [reflexivity|].
    destruct (LeaveType_get d (pl_leave_type_id payload)); [|reflexivity].
    destruct (current_employee_id c) as [e0|]; [|reflexivity].
    destruct (in_int64 (pl_requested_minutes payload)); [|reflexivity].
    cbn [snd List.last]. apply used_minutes_create.
  - exfalso. apply (Hc i). reflexivity.
  - exfalso. apply (Ha i). reflexivity.
  - rewrite run_reject.
    destruct (negb _); [reflexivity|].
    destruct (no_comment cm); [reflexivity|].
    destruct (pending d i) eqn:Hp; [|reflexivity].
    apply pending_spec in Hp as (r & Hg & Hs). cbn [snd List.last].
    rewrite (ledger_after_transition d i REJECTED _ _ _ _ e y code r Hn Hg).
    rewrite Hs, (bool_decide_eq_false_2 (PENDING = APPROVED)) by discriminate.
    rewrite (bool_decide_eq_false_2 (REJECTED = APPROVED)) by discriminate. lia.
Qed.
End Ledger.

Lemma approve_counts_minutes_witness :
  used_minutes (stored_after (api_admin_approve Sample.as_admin 1) Sample.requested)
    3 2025 "ANNUAL"
  = used_minutes Sample.requested 3 2025 "ANNUAL" + 480.
Proof.
  apply (approve_counts_minutes Sample.as_admin 1 Sample.requested
           (new_request (Sample.as_employee 3) 3 Sample.one_day Sample.empty)
           3 2025 "ANNUAL").
  - reflexivity.
  - apply NoDup_singleton.
  - reflexivity.
  - reflexivity.
Defined.

Lemma cancel_refunds_minutes_witness :
  used_minutes (stored_after (api_cancel_request (Sample.as_employee 3) 1) Sample.approved)
    3 2025 "ANNUAL"
  = used_minutes Sample.approved 3 2025 "ANNUAL" - 480.
Proof.
  apply (cancel_refunds_minutes (Sample.as_employee 3) 1 Sample.approved
           (set_status APPROVED
              (new_request (Sample.as_employee 3) 3 Sample.one_day Sample.empty))
           3 2025 "ANNUAL").
  - apply NoDup_singleton.
  - reflexivity.
  - reflexivity.
Defined.

Lemma ledger_moves_on_approve_and_cancel_only_witness :
  used_minutes
    (stored_after (perform (fun v : string => v) Sample.as_admin
                     (call_lifecycle (OpReject 1 (Some "no cover")))) Sample.approved)
    3 2025 "ANNUAL"
  = used_minutes Sample.approved 3 2025 "ANNUAL".
Proof.
  apply (ledger_moves_on_approve_and_cancel_only (fun v : string => v) Sample.empty
           Sample.approved Sample.as_admin (call_lifecycle (OpReject 1 (Some "no cover")))
           3 2025 "ANNUAL" eq_refl eq_refl).
  - exact (reach_step (fun v : string => v) Sample.empty _ Sample.as_admin
             (call_lifecycle (OpApprove 1))
             (reach_step (fun v : string => v) Sample.empty _ (Sample.as_employee 3)
                (call_lifecycle (OpCreate Sample.one_day))
                (reach_start (fun v : string => v) Sample.empty))).
  - intros i. discriminate.
  - intros i. discriminate.
Defined.

(** ** Sessions *)

Section Later.
Context {V : Type} (str : V -> string).

(** X24.  The session that a login in employee mode opens stays good:
    whatever requests are made afterwards, [api_me] answers with the
    role EMPLOYEE and the name, department, position and join date the
    employee had at login, and stores nothing; [root] sends the session
    to the employee's home.  The home page is rendered unless the
    employee has the id 0, which [require_employee] takes for no id: that
    session is sent back to the login page. *)
Theorem session_stays_valid (s s' : Session) (field : string) (d d' : Db) (c : Ctx) :
  fst (run (login s (POST (mode_employee field))) d) = Returned (s', Redirect to_my_home) ->
  reachable str d d' ->
  let c' := with_session c s' in
  exists emp,
    Employee_get d (session_employee_id s') = Some emp
    /\ root c' = Redirect to_my_home
    /\ my_home c' = (if bool_decide (emp_id emp = 0) then Redirect to_login
                     else Render my_home_html)
    /\ run (api_me c') d'
       = (Returned {| me_role := Some EMPLOYEE;
                      me_employee :=
                        Some {| info_id := emp_id emp; info_name := name emp;
                                info_department := department emp;
                                info_position := position emp;
                                info_join_date := join_date emp;
                                info_is_active := None |} |}, []).
Proof.
  intros Hlogin Hreach c'. rewrite run_login_employee in Hlogin.
  destruct (py_int field) as [i|]; [|discriminate Hlogin].
  destruct (Employee_get d (Some i)) as [emp|] eqn:He;
    [|unfold refusal in Hlogin; destruct (in_int64 i); discriminate Hlogin].
  destruct (is_active emp); [|discriminate Hlogin].
  cbn [fst] in Hlogin. injection Hlogin as <-.
  assert (Hid : emp_id emp = i) by (apply find_some in He as [_ He]; lia).
  exists emp. split; [exact He|]. split; [reflexivity|]. split.
  - rewrite Hid. unfold my_home, require_employee, c', current_role, current_employee_id.
    cbn [with_session session employee_session session_role session_employee_id falsy_id].
    rewrite (bool_decide_eq_true_2 (Some EMPLOYEE = Some EMPLOYEE)) by reflexivity.
    cbn [negb orb].
    destruct (Z.eqb_spec i 0) as [->|Hne].
    + reflexivity.
    + rewrite (bool_decide_eq_false_2 (i = 0)) by exact Hne. reflexivity.
  - destruct (reachable_extends str d d' Hreach) as (_ & _ & [added Ee] & _).
    assert (He' : Employee_get d' (Some i) = Some emp).
    { unfold Employee_get in He |- *. rewrite Ee. apply find_app_old, He. }
    unfold run, api_me.
    change (current_role c') with (Some EMPLOYEE).
    change (current_employee_id c') with (Some i).
    rewrite (bool_decide_eq_true_2 (Some EMPLOYEE = Some EMPLOYEE)) by reflexivity.
    unfold bind, query. cbn [view]. rewrite He'. reflexivity.
Qed.
End Later.

(** *** The dashboard *)

Lemma next_midnight_returns (t : date) :
  d_year t < MAXYEAR -> exists e, next_midnight t = Returned e.
Proof.
  intros H. unfold next_midnight.
  destruct (d_day t <? _); [eauto|]. destruct (d_month t <? 12); [eauto|].
  destruct (Z.ltb_spec (d_year t) MAXYEAR); [eauto|lia].
Qed.

Ltac compare_cases :=
  repeat match goal with
         | |- context [?a ?= ?b] =>
             destruct (Z.compare_spec a b); cbn [lex_compare negb]
         end.

Lemma days_in_month_bounds (y m : Z) : 28 <= days_in_month y m <= 31.
Proof.
  unfold days_in_month.
  destruct (m =? 2); [destruct (is_leap y); lia|].
  destruct (_ || _); lia.
Qed.

Lemma starts_before_next_midnight (t : date) (e x : datetime) :
  calendar_date t -> calendar_datetime x ->
  next_midnight t = Returned e ->
  dt_ltb x e = date_leb (date_of x) t.
Proof.
  unfold calendar_date, calendar_datetime, calendar_date, valid_datetime, date_of.
  cbn [d_year d_month d_day].
  intros (Hm & Hd) ((Hxm & Hxd) & (_ & _ & Hh & Hmi & Hs & Hu)) He.
  pose proof (days_in_month_bounds (d_year t) (d_month t)) as Hb.
  unfold next_midnight in He.
  unfold dt_ltb, dt_leb, date_leb, dt_fields.
  destruct (Z.ltb_spec (d_day t) (days_in_month (d_year t) (d_month t))) as [H1|H1];
    [|destruct (Z.ltb_spec (d_month t) 12) as [H2|H2];
      [|destruct (Z.ltb_spec (d_year t) MAXYEAR) as [H3|H3]; [|discriminate He]]];
    injection He as <-;
    cbn [dt_year dt_month dt_day dt_hour dt_minute dt_second dt_microsecond
         d_year d_month d_day lex_compare].
  - destruct (Z.compare_spec (d_year t) (dt_year x)) as [Ey|Ey|Ey];
      destruct (Z.compare_spec (dt_year x) (d_year t)); try lia; try reflexivity.
    destruct (Z.compare_spec (d_month t) (dt_month x)) as [Em|Em|Em];
      destruct (Z.compare_spec (dt_month x) (d_month t)); try lia; try reflexivity.
    destruct (Z.compare_spec (d_day t + 1) (dt_day x));
      destruct (Z.compare_spec (dt_day x) (d_day t)); try lia; try reflexivity.
    compare_cases; try lia; reflexivity.
  - destruct (Z.compare_spec (d_year t) (dt_year x)) as [Ey|Ey|Ey];
      destruct (Z.compare_spec (dt_year x) (d_year t)); try lia; try reflexivity.
    destruct (Z.compare_spec (d_month t + 1) (dt_month x));
      destruct (Z.compare_spec (dt_month x) (d_month t)) as [Em|Em|Em];
      try lia; try reflexivity.
    + compare_cases; try lia; reflexivity.
    + rewrite <- Ey, Em in Hxd.
      destruct (Z.compare_spec (dt_day x) (d_day t)); try lia; reflexivity.
  - destruct (Z.compare_spec (d_year t + 1) (dt_year x));
      destruct (Z.compare_spec (dt_year x) (d_year t)) as [Ey|Ey|Ey];
      try lia; try reflexivity.
    + compare_cases; try lia; reflexivity.
    + destruct (Z.compare_spec (dt_month x) (d_month t)) as [Em|Em|Em];
        try lia; try reflexivity.
      rewrite Ey, Em in Hxd.
      destruct (Z.compare_spec (dt_day x) (d_day t)); try lia; reflexivity.
Qed.

Lemma ends_after_midnight (t : date) (x : datetime) :
  valid_datetime x ->
  dt_leb (Datetime (d_year t) (d_month t) (d_day t) 0 0 0 0) x = date_leb t (date_of x).
Proof.
  unfold valid_datetime, date_of, dt_leb, date_leb, dt_fields.
  intros (_ & _ & Hh & Hmi & Hs & Hu).
  cbn [dt_year dt_month dt_day dt_hour dt_minute dt_second dt_microsecond
       d_year d_month d_day lex_compare].
  destruct (Z.compare_spec (d_year t) (dt_year x)); try reflexivity.
  destruct (Z.compare_spec (d_month t) (dt_month x)); try reflexivity.
  destruct (Z.compare_spec (d_day t) (dt_day x)); try reflexivity.
  compare_cases; try lia; reflexivity.
Qed.

Lemma filter_length_ext {A} (P Q : A -> Prop) `{!forall x, Decision (P x)}
    `{!forall x, Decision (Q x)} (l : list A) :
  Forall (fun x => P x <-> Q x) l -> length (filter P l) = length (filter Q l).
Proof.
  induction 1 as [|x l Hx _ IH]; [reflexivity|].
  rewrite !filter_cons.
  destruct (decide (P x)), (decide (Q x)); simpl; tauto || lia.
Qed.

Lemma inbox_returns (c : Ctx) (status_arg : option string) (d : Db) :
  require_admin c = true ->
  Forall (fun r => is_Some (Employee_get d (Some (employee_id r)))
                   /\ is_Some (LeaveType_get d (leave_type_id r))) (requests d) ->
  exists body,
    run (api_admin_inbox c status_arg) d = (Returned (Json body), [])
    /\ Forall2 (fun r row => inbox_row d r = Returned row)
         (limit 300 (order_by newest_first
            (filter_status (Some (default "PENDING" status_arg)) (requests d)))) body.
Proof.
  intros Ha Hrefs.
  set (wanted := Some (default "PENDING" status_arg)).
  set (rows := limit 300 (order_by newest_first (filter_status wanted (requests d)))).
  destruct (listing newest_first 300 _ (filter_status wanted (requests d)) newest_first_total
              (filter_status_spec wanted (requests d))) as (_ & Hall & _).
  fold rows in Hall.
  destruct (traverse_total (inbox_row d) rows) as (body & Hbody & H2).
  { eapply Forall_impl; [exact Hall|]. intros r [_ [Hin _]].
    rewrite Forall_forall in Hrefs.
    destruct (Hrefs r (proj2 (list_elem_of_In _ _) Hin)) as [[e He] [t Ht]].
    unfold inbox_row, my_row. rewrite He, Ht. eauto. }
  exists body. split; [|exact H2].
  unfold run, api_admin_inbox. rewrite Ha. cbn [negb].
  unfold bind, query, lift, ret. cbn [view].
  fold wanted. fold rows. rewrite Hbody. reflexivity.
Qed.

Lemma pending_filter (rs : list LeaveRequest) :
  filter_status (Some "PENDING") rs = filter (fun r => status r = PENDING) rs.
Proof.
  unfold filter_status. cbn [String.eqb Ascii.eqb]. 
  apply list_filter_iff. intros r. rewrite String.eqb_eq.
  destruct (status r); simpl; split; congruence.
Qed.

(** X25.  The numbers of the dashboard agree with the lists.  For the
    administrator, in a year before 9999 and when every request refers
    to an employee and a leave type of the tables: the inbox without a
    status argument has as many rows as the dashboard counts PENDING
    requests, up to its limit of 300; the login page lists as many
    employees as the dashboard counts active ones and shows the PIN hint
    of the dashboard.  With today and the start and end of every
    request dates of the calendar, today's approved count is the number
    of APPROVED requests whose days, from the day they start to the day
    they end, include today. *)
Theorem dashboard_agrees_with_lists (c : Ctx) (s : Session) (d : Db) :
  require_admin c = true ->
  d_year (today c) < MAXYEAR ->
  Forall (fun r => is_Some (Employee_get d (Some (employee_id r)))
                   /\ is_Some (LeaveType_get d (leave_type_id r))) (requests d) ->
  exists dash body es,
    fst (run (api_admin_dashboard c) d) = Returned (Json dash)
    /\ fst (run (api_admin_inbox c None) d) = Returned (Json body)
    /\ fst (run (login s GET) d) = Returned (s, RenderLogin es (dash_admin_pin_hint dash))
    /\ length body = Nat.min 300 (dash_pending_count dash)
    /\ length es = employee_count dash
    /\ (calendar_date (today c) ->
        Forall (fun r => calendar_datetime (start_dt r) /\ calendar_datetime (end_dt r))
               (requests d) ->
        today_approved_count dash
        = length (filter (fun r => on_leave (today c) r = true) (requests d))).
Proof.
  intros Ha Hy Hrefs.
  destruct (next_midnight_returns (today c) Hy) as [e He].
  destruct (inbox_returns c None d Ha Hrefs) as (body & Hbody & H2).
  eexists _, body, _. split; [|split; [|split; [|split; [|split]]]].
  - unfold run, api_admin_dashboard. rewrite Ha. cbn [negb].
    unfold bind, lift, query, ret. rewrite He. cbn [view].
    rewrite get_policy_tx. cbn [fst view]. reflexivity.
  - rewrite Hbody. reflexivity.
  - rewrite (proj1 (stored_after_login_page s d)). reflexivity.
  - cbn [dash_pending_count]. rewrite <- (Forall2_length _ _ _ H2).
    unfold limit. rewrite length_take, (Permutation_length (order_by_perm _ _)).
    cbn [default]. rewrite pending_filter. reflexivity.
  - cbn [employee_count]. apply Permutation_length, order_by_perm.
  - intros Htoday Hdates. cbn [today_approved_count].
    apply filter_length_ext.
    eapply Forall_impl; [exact Hdates|]. intros r [Hs He'].
    unfold on_leave.
    rewrite (starts_before_next_midnight (today c) e (start_dt r) Htoday Hs He).
    rewrite (ends_after_midnight (today c) (end_dt r) (proj2 He')).
    reflexivity.
Qed.

Lemma session_stays_valid_witness :
  exists emp,
    Employee_get Sample.empty (Some 3) = Some emp
    /\ run (api_me (with_session Sample.as_admin (employee_session 3))) Sample.approved
       = (Returned {| me_role := Some EMPLOYEE;
                      me_employee :=
                        Some {| info_id := emp_id emp; info_name := name emp;
                                info_department := department emp;
                                info_position := position emp;
                                info_join_date := join_date emp;
                                info_is_active := None |} |}, []).
Proof.
  destruct (session_stays_valid (fun v : string => v) cleared (employee_session 3) "3"
              Sample.empty Sample.approved Sample.as_admin eq_refl)
    as (emp & He & _ & _ & Hme).
  - exact (reach_step (fun v : string => v) Sample.empty _ Sample.as_admin
             (call_lifecycle (OpApprove 1))
             (reach_step (fun v : string => v) Sample.empty _ (Sample.as_employee 3)
                (call_lifecycle (OpCreate Sample.one_day))
                (reach_start (fun v : string => v) Sample.empty))).
  - exists emp. split; [exact He|exact Hme].
Defined.

(** On 2025-06-10, the day of request 1, which is approved. *)
Lemma dashboard_agrees_with_lists_witness :
  exists dash body,
    fst (run (api_admin_dashboard Sample.as_admin) Sample.requested) = Returned (Json dash)
    /\ fst (run (api_admin_inbox Sample.as_admin None) Sample.requested)
       = Returned (Json body)
    /\ length body = Nat.min 300 (dash_pending_count dash)
    /\ exists dash',
         fst (run (api_admin_dashboard
                     {| session := admin_session; utcnow := Sample.now;
                        today := Date 2025 6 10 |}) Sample.approved)
         = Returned (Json dash')
         /\ today_approved_count dash' = 1%nat.
Proof.
  destruct (dashboard_agrees_with_lists Sample.as_admin cleared Sample.requested eq_refl)
    as (dash & body & es & Hd & Hb & _ & Hlen & _).
  - reflexivity.
  - repeat constructor; eexists; reflexivity.
  - exists dash, body. split; [exact Hd|]. split; [exact Hb|]. split; [exact Hlen|].
    destruct (dashboard_agrees_with_lists
                {| session := admin_session; utcnow := Sample.now;
                   today := Date 2025 6 10 |} cleared Sample.approved eq_refl)
      as (dash' & body' & es' & Hd' & _ & _ & _ & _ & Hc).
    + reflexivity.
    + repeat constructor; eexists; reflexivity.
    + exists dash'. split; [exact Hd'|]. rewrite Hc; [reflexivity| |].
      * unfold calendar_date. cbn. lia.
      * change (requests Sample.approved)
          with [set_status APPROVED
                  (new_request (Sample.as_employee 3) 3 Sample.one_day Sample.empty)].
        apply Forall_cons. split; [|constructor].
        unfold calendar_datetime, calendar_date, valid_datetime. cbn. lia.
Defined.

(** X26.  [logout] closes the session, whoever was logged in: afterwards
    it has no role, neither guard lets it pass, [root], the employee's
    home and every page of the administrator send it to the login page,
    and [api_me] answers with no role and stores nothing. *)
Theorem logout_closes_the_session (c : Ctx) (d : Db) :
  let c' := with_session c (fst (logout (session c))) in
  snd (logout (session c)) = Redirect to_login
  /\ current_role c' = None
  /\ require_employee c' = false
  /\ require_admin c' = false
  /\ root c' = Redirect to_login
  /\ my_home c' = Redirect to_login
  /\ (forall page, admin_page page c' = Redirect to_login)
  /\ run (api_me c') d = (Returned {| me_role := None; me_employee := None |}, []).
Proof.
  cbv zeta. repeat split.
Qed.

(** ** The summary of a calendar year *)

Lemma summary_by_calendar_year_witness :
  exists s cs,
    run (api_my_summary (Sample.as_employee 3) (Some 2025)) Sample.approved
    = (Returned (Json s), cs)
    /\ minutes_to_days (sum_workday_minutes s) (used_in_year Sample.approved 3 2025 "ANNUAL")
       = Returned (annual_used_days s).
Proof.
  destruct (run (api_my_summary (Sample.as_employee 3) (Some 2025)) Sample.approved)
    as [o cs] eqn:E.
  destruct o as [[s|http msg]|e]; try (vm_compute in E; discriminate E).
  exists s, cs. split; [reflexivity|].
  destruct (summary_by_calendar_year (Sample.as_employee 3) (Some 2025) Sample.approved s cs)
    as (emp & He & Ha & _).
  - change (requests Sample.approved)
      with [set_status APPROVED
              (new_request (Sample.as_employee 3) 3 Sample.one_day Sample.empty)].
    apply Forall_cons. split; [split|constructor].
    + unfold valid_datetime. simpl. lia.
    + intros (H & _). discriminate H.
  - exact E.
  - injection He as <-. exact Ha.
Defined.
